(** * Genjutsu: job lifecycle and splat serialisation

    A shallow embedding of the Python sources of the Genjutsu 3D generation
    service:

    - [python/models/shap_e.py], [python/models/gaussiandreamer.py] and
      [python/gaussiandreamer_service.py]: the three writers of the binary
      PLY artifact;
    - [python/api/main.py]: the FastAPI layer (submit, status, cancel);
    - [python/worker/worker.py]: the registry [MODELS] and the task
      [generate_3d];
    - [python/models/gaussiandreamer.py], [python/models/dreamgaussian.py],
      [python/multi_model_service.py] and the routes of
      [python/gaussiandreamer_service.py]: the two Flask services and the
      models they load.

    Conventions.  A [float32] is modelled by its IEEE-754 bit pattern, an
    integer below [2^32]; writing it to the file is the little-endian split
    of that pattern into four bytes.  A [uint8] is a [byte].  Python
    exceptions are values of [pyexc]; a function that may raise returns a
    [pyresult].  A Python [str] is kept as the bytes of its UTF-8
    encoding. *)

From Stdlib Require Import ZArith List String Ascii Lia DecimalString DecimalNat QArith.
From stdpp Require Import base option list gmap strings.
From coqutil Require Import Byte Word.LittleEndianList.

Import ListNotations.
#[local] Open Scope nat_scope.
#[local] Open Scope string_scope.
#[local] Open Scope list_scope.

(** ** Python exceptions and results *)

Inductive exc_type : Type :=
| ValueError
| RuntimeError
| IndexError
| AssertionError
| OSError
| ImportError
| AttributeError
| TaskRevokedError.

Record pyexc : Type := PyExc { exc_kind : exc_type; exc_msg : string }.

(** [str(e)] for an exception built from at most one string argument. *)
Definition str_exc (e : pyexc) : string := exc_msg e.

Inductive pyresult (A : Type) : Type :=
| Ok (a : A)
| Raise (e : pyexc).
Arguments Ok {A} a.
Arguments Raise {A} e.

Definition is_ok {A} (r : pyresult A) : bool :=
  match r with Ok _ => true | Raise _ => false end.

(** The line feed, and [str(n)] for a non-negative integer. *)
Definition nl : string := String (ascii_of_nat 10) EmptyString.

Definition str_nat (n : nat) : string := NilEmpty.string_of_uint (Nat.to_uint n).

(** ** Strings *)

(** [s.lower()] and [needle in s], on ASCII text. *)
Definition lower_ascii (c : ascii) : ascii :=
  let n := nat_of_ascii c in
  if (65 <=? n)%nat && (n <=? 90)%nat then ascii_of_nat (n + 32) else c.

Fixpoint lower (s : string) : string :=
  match s with
  | EmptyString => EmptyString
  | String c s' => String (lower_ascii c) (lower s')
  end.

Fixpoint contains (needle s : string) : bool :=
  String.prefix needle s
  || match s with
     | EmptyString => false
     | String _ s' => contains needle s'
     end.

(** ** Python values *)

(** A Python [float]: a finite double stands for the rational it denotes,
    which is all comparisons look at. *)
Inductive pyfloat : Type :=
| Finite (q : Q)
| PosInf
| NegInf
| NaN.

(** [a <= b] on floats. *)
Definition pyfloat_le (a b : pyfloat) : bool :=
  match a, b with
  | NaN, _ | _, NaN => false
  | Finite x, Finite y => Qle_bool x y
  | NegInf, _ => true
  | _, PosInf => true
  | _, _ => false
  end.

(** The values the task metadata and results hold. *)
Inductive pyval : Type :=
| VFloat (x : pyfloat)
| VInt (z : Z)
| VStr (s : string).

Abbreviation pydict := (gmap string pyval).

(** [d.get(key, default)]. *)
Definition dict_get (d : pydict) (key : string) (default : pyval) : pyval :=
  match d !! key with
  | Some v => v
  | None => default
  end.

(** ** The binary layout shared by the writers *)

Module Ply.

(** [float32] bit patterns and [uint8] values. *)
Definition f32 : Type := Z.
Definition vec3 : Type := (f32 * f32 * f32)%type.
Definition quat : Type := (f32 * f32 * f32 * f32)%type.
Definition rgb : Type := (byte * byte * byte)%type.

Definition f32_zero : f32 := 0x00000000%Z.
Definition f32_one : f32 := 0x3F800000%Z.
(** [np.float32(0.95)], [np.float32(0.8)] and [np.float32(0.05)]. *)
Definition f32_0_95 : f32 := 0x3F733333%Z.
Definition f32_0_8 : f32 := 0x3F4CCCCD%Z.
Definition f32_0_05 : f32 := 0x3D4CCCCD%Z.

(** Exponent all ones and a non-zero fraction. *)
Definition f32_is_nan (w : f32) : bool :=
  (Z.land (Z.shiftr w 23) 0xFF =? 0xFF)%Z && negb (Z.land w 0x7FFFFF =? 0)%Z.

(** A value a [float32] array can hold and that every conversion on the
    way to the file leaves alone: a 32-bit pattern that is not a NaN
    ([struct.pack] goes through a C [double], which may quieten a
    signalling NaN). *)
Definition f32_ok (w : f32) : Prop :=
  (0 <= w < 2 ^ 32)%Z /\ f32_is_nan w = false.

(** [struct.pack('f', v)] and [v.astype(np.float32).tobytes()] on a
    little-endian host, which the header's [binary_little_endian]
    declares. *)
Definition pack_f (w : f32) : list byte := le_split 4 w.

(** [struct.pack('fff', a, b, c)]. *)
Definition pack_fff (v : vec3) : list byte :=
  let '(a, b, c) := v in pack_f a ++ pack_f b ++ pack_f c.

(** [struct.pack('ffff', a, b, c, d)]. *)
Definition pack_ffff (q : quat) : list byte :=
  let '(a, b, c, d) := q in pack_f a ++ pack_f b ++ pack_f c ++ pack_f d.

(** [struct.pack('BBB', r, g, b)] on [uint8] values. *)
Definition pack_BBB (c : rgb) : list byte :=
  let '(r, g, b) := c in [r; g; b].

(** The header text, identical in the three writers. *)
Definition property_lines : list string :=
  [ "property float x"; "property float y"; "property float z";
    "property float nx"; "property float ny"; "property float nz";
    "property uchar red"; "property uchar green"; "property uchar blue";
    "property float opacity";
    "property float scale_0"; "property float scale_1"; "property float scale_2";
    "property float rot_0"; "property float rot_1"; "property float rot_2";
    "property float rot_3" ].

Definition header_lines (num_points : nat) : list string :=
  [ "ply"; "format binary_little_endian 1.0";
    "element vertex " +:+ str_nat num_points ]
  ++ property_lines ++ [ "end_header" ].

(** Each line followed by its line feed. *)
Definition unlines (ls : list string) : string :=
  fold_right (fun l acc => l +:+ nl +:+ acc) "" ls.

Definition header (num_points : nat) : string :=
  unlines (header_lines num_points).

(** [header.encode('ascii')]. *)
Definition encode_ascii (s : string) : list byte := list_byte_of_string s.

(** The size every writer and the specification give to one record. *)
Definition record_size : nat := 59.

(** One record as the format declares it: position, normal, colour,
    opacity, scale, rotation. *)
Definition splat_record : Type := (vec3 * vec3 * rgb * f32 * vec3 * quat)%type.

Definition record_layout (r : splat_record) : list byte :=
  let '(pos, nrm, col, opa, sca, rot) := r in
  pack_fff pos ++ pack_fff nrm ++ pack_BBB col ++ pack_f opa
  ++ pack_fff sca ++ pack_ffff rot.

Definition record_normal (r : splat_record) : vec3 :=
  let '(_, nrm, _, _, _, _) := r in nrm.

Definition zero3 : vec3 := (f32_zero, f32_zero, f32_zero).

(** Row [i] of five parallel arrays, with the normal the writers put
    in. *)
Definition row_at (positions : list vec3) (colors : list rgb)
    (opacities : list f32) (scales : list vec3) (rotations : list quat)
    (i : nat) : option splat_record :=
  match positions !! i, colors !! i, opacities !! i, scales !! i,
        rotations !! i with
  | Some p, Some c, Some o, Some s, Some r => Some (p, zero3, c, o, s, r)
  | _, _, _, _, _ => None
  end.

End Ply.

(** ** Effects: state passing with exceptions *)

(** A computation that threads a state [S] and may raise.  The state left
    behind by a raising computation is kept: a file half written stays half
    written. *)
Definition M (S A : Type) : Type := S -> S * pyresult A.

Definition m_ret {S A} (a : A) : M S A := fun s => (s, Ok a).

Definition m_bind {S A B} (m : M S A) (k : A -> M S B) : M S B :=
  fun s =>
    match m s with
    | (s', Ok a) => k a s'
    | (s', Raise e) => (s', Raise e)
    end.

(** A pure step that may raise. *)
Definition m_lift {S A} (r : pyresult A) : M S A := fun s => (s, r).

Definition m_raise {S A} (e : pyexc) : M S A := fun s => (s, Raise e).

Declare Scope m_scope.
Delimit Scope m_scope with M.
Notation "'let!' x ':=' m 'in' k" := (m_bind m (fun x => k))
  (at level 10, x name, m at level 100, k at level 200) : m_scope.
Notation "'do!' m 'in' k" := (m_bind m (fun _ => k))
  (at level 10, m at level 100, k at level 200) : m_scope.
#[local] Open Scope m_scope.

(** [for i in l: body(i)], left at the first exception. *)
Fixpoint for_each {S A} (l : list A) (body : A -> M S unit) : M S unit :=
  match l with
  | [] => m_ret tt
  | i :: l' => do! body i in for_each l' body
  end.

(** [for i in range(n): body(i)]. *)
Definition for_range {S} (n : nat) (body : nat -> M S unit) : M S unit :=
  for_each (seq 0 n) body.

(** [a[i]] for [i] from a [range]: numpy raises [IndexError] past the
    end. *)
Definition index {A} (a : list A) (i : nat) : pyresult A :=
  match a !! i with
  | Some x => Ok x
  | None =>
      Raise (PyExc IndexError
               ("index " +:+ str_nat i +:+ " is out of bounds for axis 0 with size "
                +:+ str_nat (length a)))
  end.

(** ** Files *)

(** Inside [with open(path, 'wb') as f] the state is the bytes written so
    far. *)
Abbreviation W := (M (list byte)).

(** [f.write(bs)]. *)
Definition f_write (bs : list byte) : W unit := fun buf => (buf ++ bs, Ok tt).

(** The file system: the content of each path that exists. *)
Abbreviation fs := (gmap string (list byte)).

(** [with open(path, 'wb') as f: body]: the file is created or truncated,
    and holds whatever was written when the block is left, normally or by
    an exception. *)
Definition with_open_wb {A} (path : string) (body : W A) : M fs A :=
  fun files => let '(buf, r) := body [] in (<[path := buf]> files, r).

(** [path.stat().st_size]. *)
Definition st_size (path : string) : M fs nat :=
  fun files =>
    match files !! path with
    | Some buf => (files, Ok (length buf))
    | None => (files, Raise (PyExc OSError ("No such file or directory: " +:+ path)))
    end.

(** ** [models/shap_e.py]: [ShapEModel._export_to_ply] *)

Module ShapE.
Import Ply.

(** The decoded mesh.  [_export_to_ply] reads the vertices itself; the
    vertex channels and normals only feed the colour stage. *)
Record TriMesh : Type := {
  verts : list vec3;
  vertex_channels : gmap string (list f32);
  vertex_normals : option (list vec3)
}.

(** [ShapEModel]: the fields [__init__] and [load] set.  A loaded network
    is named by the checkpoint it came from. *)
Record ShapEModel : Type := {
  device : string;
  text_model : option string;
  diffusion_model : option string;
  is_loaded : bool
}.

(** [ShapEModel(device)]. *)
Definition new (device : string) : ShapEModel :=
  {| device := device; text_model := None; diffusion_model := None;
     is_loaded := false |}.

(** What [load] meets in its environment: whether the [shap_e] package
    imports, and what [load_model] does for each checkpoint. *)
Record LoadEnv : Type := {
  import_shap_e : pyresult unit;
  load_model : string -> string -> pyresult string
}.

(** [load]: every exception of the [try] block makes it return [False],
    with the fields set so far kept; [is_loaded] is set on the last line
    before [return True]. *)
Definition load (env : LoadEnv) (self : ShapEModel) : ShapEModel * bool :=
  match import_shap_e env with
  | Raise _ => (self, false)
  | Ok _ =>
      match load_model env "text300M" (device self) with
      | Raise _ => (self, false)
      | Ok t =>
          let self1 :=
            {| device := device self; text_model := Some t;
               diffusion_model := diffusion_model self;
               is_loaded := is_loaded self |} in
          match load_model env "transmitter" (device self) with
          | Raise _ => (self1, false)
          | Ok d =>
              ({| device := device self; text_model := Some t;
                  diffusion_model := Some d; is_loaded := true |}, true)
          end
      end
  end.

(** [get_name]. *)
Definition get_name (self : ShapEModel) : string := "Shap-E".

(** One iteration of the loop of lines 216-233. *)
Definition write_vertex (vertices : list vec3) (colors_uint8 : list rgb)
    (opacities : list f32) (scales : list vec3) (rotations : list quat)
    (i : nat) : W unit :=
  let! v := m_lift (index vertices i) in
  do! f_write (pack_fff v) in
  do! f_write (pack_fff (f32_zero, f32_zero, f32_zero)) in
  let! c := m_lift (index colors_uint8 i) in
  do! f_write (pack_BBB c) in
  let! o := m_lift (index opacities i) in
  do! f_write (pack_f o) in
  let! s := m_lift (index scales i) in
  do! f_write (pack_fff s) in
  let! r := m_lift (index rotations i) in
  f_write (pack_ffff r).

(** The body of the [with open] block, lines 189-233. *)
Definition write_splats (num_points : nat) (vertices : list vec3)
    (colors_uint8 : list rgb) (opacities : list f32) (scales : list vec3)
    (rotations : list quat) : W unit :=
  do! f_write (encode_ascii (header num_points)) in
  for_range num_points
    (write_vertex vertices colors_uint8 opacities scales rotations).

Section Stages.
(** Lines 136-155: the colours, from the vertex channels, the normals or
    numpy's generator, clipped, scaled by 255 and cast to [uint8].
    Floating-point work on the mesh, taken as given; it may raise. *)
Variable color_stage : TriMesh -> pyresult (list rgb).

(** Lines 160-171: the k-d tree query and the clipped scales.  When it
    does not raise it fills an array of [num_points] rows, given here
    by its rows. *)
Variable scale_stage : list vec3 -> pyresult (nat -> vec3).

Definition _export_to_ply (mesh : TriMesh) (output_path : string)
  : M fs unit :=
  let vertices := verts mesh in
  let num_points := length vertices in
  if (num_points =? 0)%nat then
    m_raise (PyExc ValueError "Mesh has no vertices!")
  else
    let! colors_uint8 := m_lift (color_stage mesh) in
    let! scale_row := m_lift (scale_stage vertices) in
    let scales := map scale_row (seq 0 num_points) in
    let rotations := replicate num_points (f32_one, f32_zero, f32_zero, f32_zero) in
    let opacities := replicate num_points f32_0_95 in
    do! with_open_wb output_path
          (write_splats num_points vertices colors_uint8 opacities scales
             rotations) in
    let! file_size := st_size output_path in
    let expected_size :=
      length (encode_ascii (header num_points)) + num_points * 59 in
    if negb (file_size =? expected_size)%nat then
      m_raise (PyExc ValueError
                ("PLY file size mismatch! Got " +:+ str_nat file_size
                 +:+ ", expected " +:+ str_nat expected_size))
    else m_ret tt.

(** Lines 68-98: [sample_latents] and [decode_latent_mesh], the work of
    the networks, taken as given; it may raise. *)
Variable decode : ShapEModel -> string -> pyfloat -> Z -> pyresult TriMesh.

(** [generate(prompt, output_path, guidance_scale=..,
    num_inference_steps=..)].  Lines 101-107 take the extent of the mesh
    along each axis and print a warning when it is flat; numpy's [max]
    over an array of no rows raises. *)
Definition generate (self : ShapEModel) (prompt output_path : string)
    (guidance_scale : pyfloat) (num_inference_steps : Z) : M fs string :=
  if negb (is_loaded self) then
    m_raise (PyExc RuntimeError "Shap-E not loaded")
  else
    let! mesh :=
      m_lift (decode self prompt guidance_scale num_inference_steps) in
    let vertices := verts mesh in
    if (length vertices =? 0)%nat then
      m_raise (PyExc ValueError
                 "zero-size array to reduction operation maximum which has no identity")
    else
      do! _export_to_ply mesh output_path in
      m_ret output_path.
End Stages.

End ShapE.

(** ** [models/gaussiandreamer.py]: [GaussianDreamerModel._export_gaussians] *)

Module GaussianDreamer.
Import Ply.

(** The tensors of the [gaussians] dictionary after [.cpu().numpy()],
    [float32] arrays with the row shapes the header declares. *)
Record Gaussians : Type := {
  xyz : list vec3;
  features_dc : list vec3;
  opacity : list f32;
  scaling : list vec3;
  rotation : list quat
}.

Section Quantise.
(** One component of [(c * 255).clip(0, 255).astype(np.uint8)]: a
    [float32] product, a clip and a cast, taken as given. *)
Variable to_uint8 : f32 -> byte.

Definition quantise (c : vec3) : rgb :=
  let '(r, g, b) := c in (to_uint8 r, to_uint8 g, to_uint8 b).

(** One iteration of the loop of lines 119-125. *)
Definition write_gaussian (positions colors : list vec3)
    (opacities : list f32) (scales : list vec3) (rotations : list quat)
    (i : nat) : W unit :=
  let! p := m_lift (index positions i) in
  do! f_write (pack_fff p) in
  do! f_write (pack_fff (f32_zero, f32_zero, f32_zero)) in
  let! c := m_lift (index colors i) in
  do! f_write (pack_BBB (quantise c)) in
  let! o := m_lift (index opacities i) in
  do! f_write (pack_f o) in
  let! s := m_lift (index scales i) in
  do! f_write (pack_fff s) in
  let! r := m_lift (index rotations i) in
  f_write (pack_ffff r).

Definition _export_gaussians (gaussians : Gaussians) (output_path : string)
  : M fs unit :=
  let positions := xyz gaussians in
  let colors := features_dc gaussians in
  let opacities := opacity gaussians in
  let scales := scaling gaussians in
  let rotations := rotation gaussians in
  let num_points := length positions in
  with_open_wb output_path
    (do! f_write (encode_ascii (header num_points)) in
     for_range num_points
       (write_gaussian positions colors opacities scales rotations)).
End Quantise.

End GaussianDreamer.

(** ** [gaussiandreamer_service.py]: [_generate_placeholder_ply] *)

Module Placeholder.
Import Ply.

(** The base colour chosen from the prompt, lines 96-103. *)
Definition base_color (prompt : string) : Z * Z * Z :=
  if contains "red" (lower prompt) then (255, 100, 100)%Z
  else if contains "blue" (lower prompt) then (100, 100, 255)%Z
  else if contains "yellow" (lower prompt) then (255, 255, 100)%Z
  else (150, 150, 180)%Z.

(** [np.clip(v, 0, 255).astype(np.uint8)] on an integer. *)
Definition clip_uint8 (v : Z) : byte := byte.of_Z (Z.max 0 (Z.min 255 v)).

Definition num_points : nat := 5000.

Section Random.
(** Row [i] of [x], [y], [z] after [.astype(np.float32)]: random draws
    and trigonometry, taken as given. *)
Variable sphere_point : nat -> vec3.
(** Row [i] of [np.random.randint(-30, 30, (num_points, 3))]. *)
Variable variation : nat -> Z * Z * Z.

Definition color_array (prompt : string) (i : nat) : rgb :=
  let '(r, g, b) := base_color prompt in
  let '(dr, dg, db) := variation i in
  (clip_uint8 (r + dr), clip_uint8 (g + dg), clip_uint8 (b + db)).

(** One iteration of the loop of lines 143-164; the arrays are built
    with [num_points] rows, so no index leaves them. *)
Definition write_point (prompt : string) (i : nat) : W unit :=
  let '(x, y, z) := sphere_point i in
  do! f_write (pack_f x) in
  do! f_write (pack_f y) in
  do! f_write (pack_f z) in
  do! f_write (pack_f f32_zero) in
  do! f_write (pack_f f32_zero) in
  do! f_write (pack_f f32_zero) in
  do! f_write (pack_BBB (color_array prompt i)) in
  do! f_write (pack_f f32_0_8) in
  do! f_write (pack_fff (f32_0_05, f32_0_05, f32_0_05)) in
  f_write (pack_ffff (f32_one, f32_zero, f32_zero, f32_zero)).

Definition _generate_placeholder_ply (output_path prompt : string)
  : M fs string :=
  do! with_open_wb output_path
        (do! f_write (encode_ascii (header num_points)) in
         for_range num_points (write_point prompt)) in
  m_ret output_path.
End Random.

End Placeholder.

(** ** The task queue and result store

    Celery and Redis are libraries outside the repository.  What the
    sources rely on is modelled here as their documentation states it: a
    FIFO queue of task messages, a result store keyed by task id in which
    an id without an entry reads as [PENDING], and the set of revoked
    ids. *)

Module Celery.

Inductive state : Type :=
| PENDING | STARTED | SUCCESS | FAILURE | RETRY | REVOKED.

#[export] Instance state_eq_dec : EqDecision state.
Proof. solve_decision. Defined.

(** [result.info], the same object as [result.result]: nothing, the
    [meta] dictionary of [update_state] or the returned dictionary, or the
    exception that ended the task. *)
Inductive info : Type :=
| InfoNone
| InfoDict (d : pydict)
| InfoExc (e : pyexc).

Record task_meta : Type := TaskMeta { r_state : state; r_info : info }.

(** The arguments [send_task] ships to ['worker.generate_3d']. *)
Record message : Type := Message {
  task_id : string;
  arg_prompt : string;
  arg_model_name : string;
  arg_guidance_scale : pyfloat;
  arg_num_inference_steps : Z
}.

(** The result store is kept as the sequence of the writes made to it,
    oldest first, so that what a poller saw earlier is a prefix of it: a
    key is set, or deleted when [result_expires] has passed. *)
Inductive store_event : Type :=
| SetMeta (key : string) (m : task_meta)
| Expire (key : string).

Definition event_key (ev : store_event) : string :=
  match ev with SetMeta k _ => k | Expire k => k end.

Definition apply_event (be : gmap string task_meta) (ev : store_event)
  : gmap string task_meta :=
  match ev with
  | SetMeta k m => <[k := m]> be
  | Expire k => delete k be
  end.

(** The content of the store after the writes of [log]. *)
Definition replay (log : list store_event) : gmap string task_meta :=
  fold_left apply_event log ∅.

Record broker : Type := Broker {
  reachable : bool;
  queue : list message;
  backend : list store_event;
  revoked : gset string
}.

Definition connection_error : pyexc :=
  PyExc OSError "Error 111 connecting to localhost:6379. Connection refused.".

(** [celery_app.send_task('worker.generate_3d', args=[...])]: the message
    is appended to the queue under a fresh id ([uuid], drawn by the
    caller); nothing is written to the result store. *)
Definition send_task (uuid prompt model_name : string)
    (guidance_scale : pyfloat) (num_inference_steps : Z) : M broker string :=
  fun b =>
    if reachable b then
      (Broker (reachable b)
         (queue b ++ [Message uuid prompt model_name guidance_scale
                        num_inference_steps])
         (backend b) (revoked b),
       Ok uuid)
    else (b, Raise connection_error).

(** What one access to a property of [celery_app.AsyncResult(job_id)]
    fetches: the stored metadata, and [PENDING] for an id the store has no
    entry for.  The result object keeps nothing between two accesses while
    the task is not ready, so every access reads the store again. *)
Definition get_task_meta (job_id : string) : M broker task_meta :=
  fun b =>
    if reachable b then
      (b, Ok (default (TaskMeta PENDING InfoNone)
                (replay (backend b) !! job_id)))
    else (b, Raise connection_error).

(** [result.state] and [result.info]. *)
Definition result_state (job_id : string) : M broker state :=
  let! r := get_task_meta job_id in m_ret (r_state r).

Definition result_info (job_id : string) : M broker info :=
  let! r := get_task_meta job_id in m_ret (r_info r).

(** [celery_app.control.revoke(job_id, terminate=True)]: the id joins the
    revoked set, whatever it is; the result store is not consulted. *)
Definition revoke (job_id : string) : M broker unit :=
  fun b =>
    if reachable b then
      (Broker (reachable b) (queue b) (backend b) ({[job_id]} ∪ revoked b),
       Ok tt)
    else (b, Raise connection_error).

(** A write to the result store: [task.update_state(state=..., meta=...)]
    and the writes the worker makes around a task body. *)
Definition store_result (job_id : string) (m : task_meta) (b : broker)
  : broker :=
  Broker (reachable b) (queue b) (backend b ++ [SetMeta job_id m]) (revoked b).

End Celery.

(** ** [api/main.py] *)

Module Api.
Import Celery.

(** The JSON body of [POST /generate] before validation: a field may be
    missing. *)
Record RawRequest : Type := {
  raw_prompt : option string;
  raw_model : option string;
  raw_guidance_scale : option pyfloat;
  raw_num_inference_steps : option Z
}.

Record GenerateRequest : Type := {
  prompt : string;
  model : string;
  guidance_scale : pyfloat;
  num_inference_steps : Z
}.

Record JobResponse : Type := {
  jr_job_id : string;
  jr_status : string;
  jr_message : option string
}.

Record JobStatusResponse : Type := {
  job_id : string;
  status : state;
  progress : option pyval;
  message : option pyval;
  result : option info;
  error : option string
}.

(** What a route answers: the body with status 200, or an error status
    with its detail.  FastAPI answers 422 when the body does not validate;
    the handlers raise [HTTPException(status_code=500)]. *)
Inductive http (A : Type) : Type :=
| Http200 (body : A)
| HttpError (status_code : nat) (detail : string).
Arguments Http200 {A} body.
Arguments HttpError {A} status_code detail.

(** The constraints of [GenerateRequest]: [prompt] is required,
    [model] defaults to ["shap_e"], [guidance_scale] to [15.0] within
    [ge=1.0, le=30.0], [num_inference_steps] to [64] within
    [ge=16, le=256]. *)
Definition validate (raw : RawRequest) : pyresult GenerateRequest :=
  match raw_prompt raw with
  | None => Raise (PyExc ValueError "prompt: Field required")
  | Some p =>
      let m := default "shap_e" (raw_model raw) in
      let g := default (Finite 15) (raw_guidance_scale raw) in
      let n := default 64%Z (raw_num_inference_steps raw) in
      if negb (pyfloat_le (Finite 1) g) then
        Raise (PyExc ValueError
                 "guidance_scale: Input should be greater than or equal to 1")
      else if negb (pyfloat_le g (Finite 30)) then
        Raise (PyExc ValueError
                 "guidance_scale: Input should be less than or equal to 30")
      else if negb (16 <=? n)%Z then
        Raise (PyExc ValueError
                 "num_inference_steps: Input should be greater than or equal to 16")
      else if negb (n <=? 256)%Z then
        Raise (PyExc ValueError
                 "num_inference_steps: Input should be less than or equal to 256")
      else Ok {| prompt := p; model := m; guidance_scale := g;
                 num_inference_steps := n |}
  end.

(** The declared bounds, as propositions. *)
Definition guidance_in_bounds (g : pyfloat) : Prop :=
  exists q, g = Finite q /\ (1 <= q)%Q /\ (q <= 30)%Q.

Definition steps_in_bounds (n : Z) : Prop := (16 <= n <= 256)%Z.

(** The handler body turned into a response: an exception becomes
    [HTTPException(status_code=500, detail=str(e))]. *)
Definition respond {S A} (m : M S A) (s : S) : S * http A :=
  match m s with
  | (s', Ok a) => (s', Http200 a)
  | (s', Raise e) => (s', HttpError 500 (str_exc e))
  end.

(** The handler [generate]. *)
Definition generate (uuid : string) (request : GenerateRequest)
  : broker -> broker * http JobResponse :=
  respond
    (let! task :=
       send_task uuid (prompt request) (model request)
         (guidance_scale request) (num_inference_steps request) in
     m_ret {| jr_job_id := task;
              jr_status := "submitted";
              jr_message :=
                Some ("Job submitted for model '" +:+ model request +:+ "'") |}).

(** [POST /generate]: validation first, the handler only on a valid
    body. *)
Definition post_generate (uuid : string) (raw : RawRequest)
  : broker -> broker * http JobResponse :=
  fun b =>
    match validate raw with
    | Raise e => (b, HttpError 422 (str_exc e))
    | Ok request => generate uuid request b
    end.

Section Repr.
(** [str(x)] of a dictionary: Python's rendering of keys and floats,
    taken as given. *)
Variable repr_dict : pydict -> string.

(** [str(result.info)]. *)
Definition str_info (i : info) : string :=
  match i with
  | InfoNone => "None"
  | InfoDict d => repr_dict d
  | InfoExc e => str_exc e
  end.

(** The truth value of [result.info], [isinstance(result.info, dict)] and
    [result.info.get(key, default)]. *)
Definition truthy (i : info) : bool :=
  match i with
  | InfoNone => false
  | InfoDict d => negb (bool_decide (d = ∅))
  | InfoExc _ => true
  end.

Definition is_dict (i : info) : bool :=
  match i with InfoDict _ => true | _ => false end.

Definition info_get (i : info) (key : string) (default : pyval)
  : pyresult pyval :=
  match i with
  | InfoDict d => Ok (dict_get d key default)
  | InfoNone =>
      Raise (PyExc AttributeError "'NoneType' object has no attribute 'get'")
  | InfoExc _ =>
      Raise (PyExc AttributeError "exception object has no attribute 'get'")
  end.

(** Assignments to the fields of [response]. *)
Definition set_message (m : string) (r : JobStatusResponse) : JobStatusResponse :=
  {| job_id := job_id r; status := status r; progress := progress r;
     message := Some (VStr m); result := result r; error := error r |}.

Definition set_progress (p : pyval) (r : JobStatusResponse) : JobStatusResponse :=
  {| job_id := job_id r; status := status r; progress := Some p;
     message := message r; result := result r; error := error r |}.

(** The handler [get_status], access by access. *)
Definition get_status_body (id : string) : M broker JobStatusResponse :=
  let! st := result_state id in
  let response :=
    {| job_id := id; status := st; progress := None; message := None;
       result := None; error := None |} in
  let! s1 := result_state id in
  if decide (s1 = PENDING) then m_ret (set_message "Job is queued" response)
  else
    let! s2 := result_state id in
    if decide (s2 = STARTED) then
      let! i1 := result_info id in
      if truthy i1 then
        let! i2 := result_info id in
        if is_dict i2 then
          let! i3 := result_info id in
          let! p := m_lift (info_get i3 "progress" (VFloat (Finite 0))) in
          let! i4 := result_info id in
          let! m := m_lift (info_get i4 "message" (VStr "Processing...")) in
          m_ret {| job_id := id; status := st; progress := Some p;
                   message := Some m; result := None; error := None |}
        else m_ret (set_message "Job started" response)
      else m_ret (set_message "Job started" response)
    else
      let! s3 := result_state id in
      if decide (s3 = SUCCESS) then
        let! r := result_info id in
        m_ret {| job_id := id; status := st;
                 progress := Some (VFloat (Finite 1));
                 message := Some (VStr "Generation complete");
                 result := Some r; error := None |}
      else
        let! s4 := result_state id in
        if decide (s4 = FAILURE) then
          let! i := result_info id in
          m_ret {| job_id := id; status := st; progress := None;
                   message := Some (VStr "Job failed"); result := None;
                   error := Some (str_info i) |}
        else
          let! s5 := result_state id in
          if decide (s5 = RETRY) then
            m_ret (set_message "Job is being retried" response)
          else m_ret response.

(** [GET /status/{job_id}]. *)
Definition get_status (id : string)
  : broker -> broker * http JobStatusResponse :=
  respond (get_status_body id).

(** The same handler with its accesses to the result object left open,
    so that it can be run against a store that changes during the call. *)
Section Accesses.
Context {St : Type}.
(** What an access to [result.state] and an access to [result.info]
    do. *)
Variable read_state : M St state.
Variable read_info : M St info.

(** The body of [get_status] over these accesses. *)
Definition get_status_reading (id : string) : M St JobStatusResponse :=
  let! st := read_state in
  let response :=
    {| job_id := id; status := st; progress := None; message := None;
       result := None; error := None |} in
  let! s1 := read_state in
  if decide (s1 = PENDING) then m_ret (set_message "Job is queued" response)
  else
    let! s2 := read_state in
    if decide (s2 = STARTED) then
      let! i1 := read_info in
      if truthy i1 then
        let! i2 := read_info in
        if is_dict i2 then
          let! i3 := read_info in
          let! p := m_lift (info_get i3 "progress" (VFloat (Finite 0))) in
          let! i4 := read_info in
          let! m := m_lift (info_get i4 "message" (VStr "Processing...")) in
          m_ret {| job_id := id; status := st; progress := Some p;
                   message := Some m; result := None; error := None |}
        else m_ret (set_message "Job started" response)
      else m_ret (set_message "Job started" response)
    else
      let! s3 := read_state in
      if decide (s3 = SUCCESS) then
        let! r := read_info in
        m_ret {| job_id := id; status := st;
                 progress := Some (VFloat (Finite 1));
                 message := Some (VStr "Generation complete");
                 result := Some r; error := None |}
      else
        let! s4 := read_state in
        if decide (s4 = FAILURE) then
          let! i := read_info in
          m_ret {| job_id := id; status := st; progress := None;
                   message := Some (VStr "Job failed"); result := None;
                   error := Some (str_info i) |}
        else
          let! s5 := read_state in
          if decide (s5 = RETRY) then
            m_ret (set_message "Job is being retried" response)
          else m_ret response.
End Accesses.

(** The states in which Celery takes the metadata as final: the result
    object keeps what it read and asks the store no more. *)
Definition ready (s : state) : bool :=
  match s with
  | SUCCESS | FAILURE | REVOKED => true
  | _ => false
  end.

(** The result store while a call is served and the worker runs:
    [arriving] lists, for the reads of the store still to come, the writes
    of the worker that reach the store before each of them; [kept] is the
    metadata the result object keeps, once it has read a ready state. *)
Record serving : Type := Serving {
  at_broker : broker;
  arriving : list (list store_event);
  kept : option task_meta
}.

(** The writes [evs] reach the store. *)
Definition deliver (evs : list store_event) (b : broker) : broker :=
  Broker (reachable b) (queue b) (backend b ++ evs) (revoked b).

(** One access to a property of the result object: what it kept, or else
    a read of the store, in which the writes due by then have landed. *)
Definition fetch (id : string) : M serving task_meta :=
  fun s =>
    match kept s with
    | Some r => (s, Ok r)
    | None =>
        match get_task_meta id (deliver (hd [] (arriving s)) (at_broker s)) with
        | (b, Ok r) =>
            (Serving b (tl (arriving s))
               (if ready (r_state r) then Some r else None),
             Ok r)
        | (b, Raise e) => (Serving b (tl (arriving s)) None, Raise e)
        end
    end.

(** [GET /status/{job_id}] served while the worker writes. *)
Definition get_status_serving (id : string)
  : serving -> serving * http JobStatusResponse :=
  respond
    (get_status_reading
       (let! r := fetch id in m_ret (r_state r))
       (let! r := fetch id in m_ret (r_info r)) id).

(** The answer when every access of one call sees the same metadata [r],
    as they do when nothing is written to the store during the call. *)
Definition status_response (id : string) (r : task_meta)
  : JobStatusResponse :=
  match r_state r with
  | PENDING =>
      {| job_id := id; status := PENDING; progress := None;
         message := Some (VStr "Job is queued"); result := None; error := None |}
  | STARTED =>
      match r_info r with
      | InfoDict d =>
          if decide (d = ∅) then
            {| job_id := id; status := STARTED; progress := None;
               message := Some (VStr "Job started"); result := None;
               error := None |}
          else
            {| job_id := id; status := STARTED;
               progress := Some (dict_get d "progress" (VFloat (Finite 0)));
               message := Some (dict_get d "message" (VStr "Processing..."));
               result := None; error := None |}
      | _ =>
          {| job_id := id; status := STARTED; progress := None;
             message := Some (VStr "Job started"); result := None; error := None |}
      end
  | SUCCESS =>
      {| job_id := id; status := SUCCESS;
         progress := Some (VFloat (Finite 1));
         message := Some (VStr "Generation complete");
         result := Some (r_info r); error := None |}
  | FAILURE =>
      {| job_id := id; status := FAILURE; progress := None;
         message := Some (VStr "Job failed"); result := None;
         error := Some (str_info (r_info r)) |}
  | RETRY =>
      {| job_id := id; status := RETRY; progress := None;
         message := Some (VStr "Job is being retried"); result := None;
         error := None |}
  | REVOKED =>
      {| job_id := id; status := REVOKED; progress := None; message := None;
         result := None; error := None |}
  end.
End Repr.

(** [DELETE /cancel/{job_id}]: the body is [{job_id, status}]. *)
Definition cancel_job (id : string)
  : broker -> broker * http (string * string) :=
  respond (do! revoke id in m_ret (id, "cancelled")).

End Api.

(** ** [worker/worker.py] *)

Module Worker.
Import Celery.

(** The registry: all it ever holds is [ShapEModel] objects. *)
Abbreviation registry := (gmap string ShapE.ShapEModel).

(** Module start-up, lines 26-34, with what it prints about the load. *)
Definition init_models (DEVICE : string) (env : ShapE.LoadEnv)
  : registry * list string :=
  let MODELS : registry := ∅ in
  let shap_e := ShapE.new DEVICE in
  let '(shap_e, loaded) := ShapE.load env shap_e in
  if loaded then (<["shap_e" := shap_e]> MODELS, ["✓ Shap-E ready"])
  else (MODELS, ["✗ Shap-E failed to load"]).

(** Lines 67-71: the membership test and the lookup. *)
Definition resolve (MODELS : registry) (model_name : string)
  : pyresult ShapE.ShapEModel :=
  match MODELS !! model_name with
  | None =>
      Raise (PyExc ValueError ("Model '" +:+ model_name +:+ "' not available"))
  | Some model => Ok model
  end.

(** A Python [str] is kept as its UTF-8 bytes.  A character of it is then
    one byte below 128, or a byte from 128 up together with the
    continuation bytes (128 to 191) that follow it. *)
Abbreviation pychar := (list ascii).

Definition is_ascii (b : ascii) : bool := (nat_of_ascii b <? 128)%nat.

Definition continuation (b : ascii) : bool :=
  ((128 <=? nat_of_ascii b) && (nat_of_ascii b <? 192))%nat.

(** The characters of a text, as [for c in prompt] meets them. *)
Fixpoint chars (l : list ascii) : list pychar :=
  match l with
  | [] => []
  | b :: l' =>
      match chars l' with
      | (b' :: c) :: rest =>
          if negb (is_ascii b) && continuation b' then (b :: b' :: c) :: rest
          else [b] :: (b' :: c) :: rest
      | rest => [b] :: rest
      end
  end.

(** ["".join(cs)]. *)
Definition join_chars (cs : list pychar) : string :=
  string_of_list_ascii (concat cs).

(** [c == a] for an ASCII character [a]. *)
Definition is_char (a : ascii) (c : pychar) : bool :=
  match c with
  | [b] => Ascii.eqb b a
  | _ => false
  end.

(** [c.isalnum()] within ASCII: the digits and the letters. *)
Definition ascii_alnum (b : ascii) : bool :=
  let n := nat_of_ascii b in
  ((48 <=? n) && (n <=? 57) || (65 <=? n) && (n <=? 90)
   || (97 <=? n) && (n <=? 122))%nat.

Fixpoint lstrip (l : list pychar) : list pychar :=
  match l with
  | c :: l' => if is_char " " c then lstrip l' else l
  | [] => []
  end.

(** [s.strip()] where the only white space left is the blank, as after the
    filter of line 75: no alphanumeric character is white space. *)
Definition strip (l : list pychar) : list pychar :=
  rev (lstrip (rev (lstrip l))).

Section Unicode.
(** [c.isalnum()] for a character outside ASCII: what the Unicode database
    says of it (['é'], ['日'] and ['²'] are alphanumeric), taken as
    given. *)
Variable isalnum_u : pychar -> bool.

(** [c.isalnum()]. *)
Definition isalnum (c : pychar) : bool :=
  match c with
  | [b] => if is_ascii b then ascii_alnum b else isalnum_u c
  | _ => isalnum_u c
  end.

(** [c.isalnum() or c in (' ', '_')]. *)
Definition kept (c : pychar) : bool :=
  isalnum c || is_char " " c || is_char "_" c.

(** [s.replace(' ', '_')], character by character. *)
Definition underscore (c : pychar) : pychar :=
  if is_char " " c then ["_"%char] else c.

(** Lines 75-76. *)
Definition safe_prompt (prompt : string) : string :=
  let filtered :=
    filter (fun c => kept c = true) (chars (list_ascii_of_string prompt)) in
  let cut := take 50 (strip filtered) in
  join_chars (map underscore cut).
End Unicode.

(** The worker process sees the broker and its own disk. *)
Record world : Type := World { wbroker : broker; files : fs }.

Definition on_files {A} (m : M fs A) : M world A :=
  fun w => let '(f, r) := m (files w) in (World (wbroker w) f, r).

(** [self.update_state(state=st, meta=meta)]. *)
Definition update_state (id : string) (st : state) (meta : pydict)
  : M world unit :=
  fun w =>
    (World (store_result id (TaskMeta st (InfoDict meta)) (wbroker w)) (files w),
     Ok tt).

(** [try: m except ValueError as e: h(e)]: the handler raises in its
    turn. *)
Definition except_ValueError {S A} (m : M S A) (h : pyexc -> pyexc) : M S A :=
  fun s =>
    match m s with
    | (s', Raise e) =>
        match exc_kind e with
        | ValueError => (s', Raise (h e))
        | _ => (s', Raise e)
        end
    | r => r
    end.

Definition flat_mesh_advice : string :=
  "Generated mesh is flat/invalid. Try:" +:+ nl
  +:+ "  • More specific prompt (add details about shape/structure)" +:+ nl
  +:+ "  • Higher guidance scale (try 20-25)" +:+ nl
  +:+ "  • Different prompt entirely".

(** Lines 112-122. *)
Definition generation_failed (e : pyexc) : pyexc :=
  let error_msg := str_exc e in
  if contains "flat" (lower error_msg) || contains "degenerate" (lower error_msg)
  then PyExc ValueError flat_mesh_advice
  else e.

Section Task.
Variable isalnum_u : pychar -> bool.
Variable OUTPUT_DIR : string.
(** [datetime.now().strftime("%Y%m%d_%H%M%S")] when the task of this id
    runs. *)
Variable now : string -> string.
(** The stages of [ShapEModel] taken as given. *)
Variable color_stage : ShapE.TriMesh -> pyresult (list Ply.rgb).
Variable scale_stage : list Ply.vec3 -> pyresult (nat -> Ply.vec3).
Variable decode :
  ShapE.ShapEModel -> string -> pyfloat -> Z -> pyresult ShapE.TriMesh.
Variable MODELS : registry.

(** The nested [progress_callback]. *)
Definition progress_callback (id : string) (progress : pyfloat)
    (message : string) : M world unit :=
  update_state id STARTED
    {[ "progress" := VFloat progress; "message" := VStr message ]}.

(** The task body; [id] is [self.request.id].  The outer
    [except Exception] prints and re-raises, which leaves the outcome as
    it is. *)
Definition generate_3d (id prompt model_name : string)
    (guidance_scale : pyfloat) (num_inference_steps : Z) : M world pydict :=
  do! update_state id STARTED
        {[ "progress" := VFloat (Finite 0);
           "message" := VStr ("Starting " +:+ model_name +:+ " generation...") ]} in
  let! model := m_lift (resolve MODELS model_name) in
  let timestamp := now id in
  let output_name :=
    model_name +:+ "_" +:+ safe_prompt isalnum_u prompt +:+ "_" +:+ timestamp
    +:+ ".ply" in
  let output_path := OUTPUT_DIR +:+ "/" +:+ output_name in
  do! progress_callback id (Finite (1 # 10)) "Initializing model..." in
  let! result_path :=
    except_ValueError
      (on_files
         (ShapE.generate color_stage scale_stage decode model prompt
            output_path guidance_scale num_inference_steps))
      generation_failed in
  do! progress_callback id (Finite 1) "Complete!" in
  m_ret ({[ "output_path" := VStr result_path;
            "model" := VStr model_name;
            "prompt" := VStr prompt;
            "guidance_scale" := VFloat guidance_scale;
            "num_inference_steps" := VInt num_inference_steps ]} : pydict).

(** What Celery's worker does with one message (configuration of
    [shared/celery_app.py]: [task_track_started], one task at a time):
    a revoked id is dropped and marked [REVOKED]; otherwise the task is
    marked [STARTED] with the worker's [pid] and [hostname], the body
    runs, and its return value or its exception is stored as [SUCCESS]
    or [FAILURE].  The exception stops there. *)
Variable pid : Z.
Variable hostname : string.

Definition mark_started (id : string) (w : world) : world :=
  World (store_result id
           (TaskMeta STARTED
              (InfoDict {[ "pid" := VInt pid; "hostname" := VStr hostname ]}))
           (wbroker w)) (files w).

Definition task_body (msg : message) : M world pydict :=
  generate_3d (task_id msg) (arg_prompt msg) (arg_model_name msg)
    (arg_guidance_scale msg) (arg_num_inference_steps msg).

Definition run_task (msg : message) (w : world) : world :=
  let id := task_id msg in
  if decide (id ∈ revoked (wbroker w)) then
    World (store_result id
             (TaskMeta REVOKED (InfoExc (PyExc TaskRevokedError "revoked")))
             (wbroker w)) (files w)
  else
    match task_body msg (mark_started id w) with
    | (w2, Ok d) =>
        World (store_result id (TaskMeta SUCCESS (InfoDict d)) (wbroker w2))
          (files w2)
    | (w2, Raise e) =>
        World (store_result id (TaskMeta FAILURE (InfoExc e)) (wbroker w2))
          (files w2)
    end.

(** The worker takes the queued messages one at a time, in order. *)
Definition worker_main (w : world) : world :=
  fold_left (fun w msg => run_task msg w) (queue (wbroker w))
    (World (Broker (reachable (wbroker w)) [] (backend (wbroker w))
              (revoked (wbroker w))) (files w)).
End Task.

End Worker.

(** ** Reading the artifact back *)

Module PlyReader.
Import Ply.

(** Modelled from the spec: the [PointCloud] of section 3, parallel arrays
    of per-point attributes; the sources have no such type, the writers
    take their arrays one by one. *)
Record PointCloud : Type := {
  position : list vec3;
  normal : list vec3;
  color : list rgb;
  opacity : list f32;
  scale : list vec3;
  rotation : list quat
}.

(** Modelled from the spec: [count], the number of points. *)
Definition count (p : PointCloud) : nat := length (position p).

(** Every component is a [float32] value. *)
Definition f32_ok3 (v : vec3) : Prop :=
  let '(a, b, c) := v in f32_ok a /\ f32_ok b /\ f32_ok c.

Definition f32_ok4 (q : quat) : Prop :=
  let '(a, b, c, d) := q in f32_ok a /\ f32_ok b /\ f32_ok c /\ f32_ok d.

(** Modelled from the spec: all arrays have length [count]; and every
    float is a [float32] value. *)
Record well_formed (p : PointCloud) : Prop := {
  wf_normal : length (normal p) = count p;
  wf_color : length (color p) = count p;
  wf_opacity : length (opacity p) = count p;
  wf_scale : length (scale p) = count p;
  wf_rotation : length (rotation p) = count p;
  ok_position : Forall f32_ok3 (position p);
  ok_normal : Forall f32_ok3 (normal p);
  ok_opacity : Forall f32_ok (opacity p);
  ok_scale : Forall f32_ok3 (scale p);
  ok_rotation : Forall f32_ok4 (rotation p)
}.

(** Modelled from the spec: the invariant of section 3 in full, where
    moreover every opacity lies in
    [0, 1], that is between the patterns of [0.0] and [1.0]. *)
Definition valid (p : PointCloud) : Prop :=
  well_formed p /\ Forall (fun o => (0 <= o <= f32_one)%Z) (opacity p).

(** [Write(p)] on the code: the block of [ShapEModel._export_to_ply] that
    writes the file, given the arrays of [p].  It has no parameter for
    normals. *)
Definition Write (p : PointCloud) : list byte * pyresult unit :=
  ShapE.write_splats (count p) (position p) (color p) (opacity p) (scale p)
    (rotation p) [].

(** What comes back from a file: the cloud with its normals as the file
    holds them. *)
Definition zero_normals (p : PointCloud) : PointCloud :=
  {| position := position p;
     normal := replicate (count p) zero3;
     color := color p;
     opacity := opacity p;
     scale := scale p;
     rotation := rotation p |}.

(** Modelled from the spec: [Read] returns a cloud or fails with
    [FormatError]. *)
Inductive read_result : Type :=
| ReadOk (p : PointCloud)
| FormatError (msg : string).

#[export] Instance byte_eq_dec : EqDecision byte := Byte.byte_eq_dec.

(** Modelled from the spec: one header line, up to its line feed. *)
Fixpoint read_line (bs : list byte) : option (list byte * list byte) :=
  match bs with
  | [] => None
  | b :: rest =>
      if Byte.eqb b Byte.x0a then Some ([], rest)
      else match read_line rest with
           | Some (line, rest') => Some (b :: line, rest')
           | None => None
           end
  end.

(** Modelled from the spec: the header tokens that do not vary must be
    the declared ones, in order. *)
Fixpoint expect_lines (ls : list string) (bs : list byte)
  : option (list byte) :=
  match ls with
  | [] => Some bs
  | l :: ls' =>
      match read_line bs with
      | Some (line, rest) =>
          if decide (line = encode_ascii l) then expect_lines ls' rest
          else None
      | None => None
      end
  end.

(** Modelled from the spec: the declared [count] of the line
    [element vertex <count>]. *)
Definition parse_count (line : list byte) : option nat :=
  let s := string_of_list_byte line in
  let digits := substring 15 (String.length s - 15) s in
  if String.prefix "element vertex " s && negb (String.eqb digits "") then
    match NilEmpty.uint_of_string digits with
    | Some d => Some (Nat.of_uint d)
    | None => None
    end
  else None.

(** Modelled from the spec: [Read] parses the header; its result is the
    declared count and the bytes that follow [end_header]. *)
Definition parse_header (source : list byte) : option (nat * list byte) :=
  match expect_lines ["ply"; "format binary_little_endian 1.0"] source with
  | Some r2 =>
      match read_line r2 with
      | Some (l3, r3) =>
          match parse_count l3 with
          | Some n =>
              match expect_lines (property_lines ++ ["end_header"]) r3 with
              | Some body => Some (n, body)
              | None => None
              end
          | None => None
          end
      | None => None
      end
  | None => None
  end.

(** Modelled from the spec: the fields of one 59-byte record, in the
    declared order, little-endian. *)
Definition read_f (bs : list byte) : option (f32 * list byte) :=
  match bs with
  | b0 :: b1 :: b2 :: b3 :: rest => Some (le_combine [b0; b1; b2; b3], rest)
  | _ => None
  end.

Definition read_fff (bs : list byte) : option (vec3 * list byte) :=
  match read_f bs with
  | Some (a, r1) =>
      match read_f r1 with
      | Some (b, r2) =>
          match read_f r2 with
          | Some (c, r3) => Some ((a, b, c), r3)
          | None => None
          end
      | None => None
      end
  | None => None
  end.

Definition read_ffff (bs : list byte) : option (quat * list byte) :=
  match read_fff bs with
  | Some ((a, b, c), r3) =>
      match read_f r3 with
      | Some (d, r4) => Some ((a, b, c, d), r4)
      | None => None
      end
  | None => None
  end.

Definition read_BBB (bs : list byte) : option (rgb * list byte) :=
  match bs with
  | r :: g :: b :: rest => Some ((r, g, b), rest)
  | _ => None
  end.

(** Modelled from the spec: [count] records, materialised into the
    per-point arrays. *)
Fixpoint read_records (n : nat) (bs : list byte) : option PointCloud :=
  match n with
  | 0 =>
      Some {| position := []; normal := []; color := []; opacity := [];
              scale := []; rotation := [] |}
  | S n' =>
      match read_fff bs with
      | Some (pos, r1) =>
      match read_fff r1 with
      | Some (nrm, r2) =>
      match read_BBB r2 with
      | Some (col, r3) =>
      match read_f r3 with
      | Some (opa, r4) =>
      match read_fff r4 with
      | Some (sca, r5) =>
      match read_ffff r5 with
      | Some (rot, r6) =>
      match read_records n' r6 with
      | Some p =>
          Some {| position := pos :: position p;
                  normal := nrm :: normal p;
                  color := col :: color p;
                  opacity := opa :: opacity p;
                  scale := sca :: scale p;
                  rotation := rot :: rotation p |}
      | None => None
      end
      | None => None end
      | None => None end
      | None => None end
      | None => None end
      | None => None end
      | None => None end
  end.

(** Modelled from the spec: [Read(source)] parses the header, validates
    the declared count against the remaining byte length
    ([count * recordSize == remainingBytes]), fails with [FormatError] on
    a mismatch or a malformed header, and otherwise materialises all
    per-point arrays. *)
Definition Read (source : list byte) : read_result :=
  match parse_header source with
  | None => FormatError "malformed header"
  | Some (n, body) =>
      if negb (n * record_size =? length body)%nat then
        FormatError "count does not match the remaining bytes"
      else
        match read_records n body with
        | Some p => ReadOk p
        | None => FormatError "truncated record"
        end
  end.

End PlyReader.

(** ** Notions used to state the properties *)

Module Rows.
Import Ply PlyReader.

Definition identity_quat : quat := (f32_one, f32_zero, f32_zero, f32_zero).

(** The rows [ShapEModel._export_to_ply] writes for a mesh, given what its
    stages returned. *)
Definition shap_e_row (mesh : ShapE.TriMesh) (colors_uint8 : list rgb)
    (scale_row : nat -> vec3) : nat -> option splat_record :=
  let n := length (ShapE.verts mesh) in
  row_at (ShapE.verts mesh) colors_uint8 (replicate n f32_0_95)
    (map scale_row (seq 0 n)) (replicate n identity_quat).

(** The rows [GaussianDreamerModel._export_gaussians] writes. *)
Definition gaussian_row (to_uint8 : f32 -> byte)
    (g : GaussianDreamer.Gaussians) : nat -> option splat_record :=
  row_at (GaussianDreamer.xyz g)
    (map (GaussianDreamer.quantise to_uint8) (GaussianDreamer.features_dc g))
    (GaussianDreamer.opacity g) (GaussianDreamer.scaling g)
    (GaussianDreamer.rotation g).

(** [_generate_placeholder_ply]: the row it writes for point [i]. *)
Definition placeholder_row (sphere_point : nat -> vec3)
    (variation : nat -> Z * Z * Z) (prompt : string) (i : nat) : splat_record :=
  (sphere_point i, zero3, Placeholder.color_array variation prompt i,
   f32_0_8, (f32_0_05, f32_0_05, f32_0_05), identity_quat).

(** A header line holds no line feed. *)
Definition no_newline (line : list byte) : Prop :=
  Forall (fun b => Byte.eqb b Byte.x0a = false) line.

(** The arrays behind a list of records. *)
Definition cloud_of_rows (rows : list splat_record) : PointCloud :=
  {| position := map (fun '(p, _, _, _, _, _) => p) rows;
     normal := map record_normal rows;
     color := map (fun '(_, _, c, _, _, _) => c) rows;
     opacity := map (fun '(_, _, _, o, _, _) => o) rows;
     scale := map (fun '(_, _, _, _, s, _) => s) rows;
     rotation := map (fun '(_, _, _, _, _, q) => q) rows |}.

Definition row_ok (r : splat_record) : Prop :=
  let '(p, n, _, o, s, q) := r in
  f32_ok3 p /\ f32_ok3 n /\ f32_ok o /\ f32_ok3 s /\ f32_ok4 q.

(** The broker [b'] is [b] after the worker wrote [ms] under [id]. *)
Definition extends (id : string) (ms : list Celery.task_meta)
    (b b' : Celery.broker) : Prop :=
  b' = Celery.Broker (Celery.reachable b) (Celery.queue b)
         (Celery.backend b ++ map (Celery.SetMeta id) ms) (Celery.revoked b).

(** What [get_status] answers about [id] at the moment the first [k] writes
    of [log] have reached the result store. *)
Definition poll (repr_dict : pydict -> string) (id : string)
    (log : list Celery.store_event) (k : nat) : Api.JobStatusResponse :=
  Api.status_response repr_dict id
    (default (Celery.TaskMeta Celery.PENDING Celery.InfoNone)
       (Celery.replay (take k log) !! id)).

(** The law of progress between an earlier answer [r1] and a later one
    [r2]: while [STARTED] the progress is a float in [0, 1], it does not
    decrease from one [STARTED] answer to the next, and with [SUCCESS] it
    is [1.0]. *)
Definition progress_law (r1 r2 : Api.JobStatusResponse) : Prop :=
  (Api.status r1 = Celery.STARTED ->
   exists q, Api.progress r1 = Some (VFloat (Finite q))
             /\ (0 <= q)%Q /\ (q <= 1)%Q)
  /\ (Api.status r1 = Celery.STARTED -> Api.status r2 = Celery.STARTED ->
      exists q1 q2,
        Api.progress r1 = Some (VFloat (Finite q1))
        /\ Api.progress r2 = Some (VFloat (Finite q2))
        /\ (q1 <= q2)%Q)
  /\ (Api.status r1 = Celery.SUCCESS ->
      Api.progress r1 = Some (VFloat (Finite 1))).

(** The status an answer carries, if it is an answer. *)
Definition status_of_answer (r : Api.http Api.JobStatusResponse)
  : option Celery.state :=
  match r with
  | Api.Http200 body => Some (Api.status body)
  | Api.HttpError _ _ => None
  end.

End Rows.

(** ** Sample inputs *)

Module Samples.
Import Ply.

(** A mesh of two vertices, [(0.0, 0.0, 1.0)] and [(1.0, 0.0, 0.0)], with a
    normal that is not zero. *)
Definition mesh2 : ShapE.TriMesh :=
  {| ShapE.verts := [(f32_zero, f32_zero, f32_one); (f32_one, f32_zero, f32_zero)];
     ShapE.vertex_channels := ∅;
     ShapE.vertex_normals := Some [(f32_zero, f32_one, f32_zero);
                                   (f32_zero, f32_one, f32_zero)] |}.

Definition empty_mesh : ShapE.TriMesh :=
  {| ShapE.verts := []; ShapE.vertex_channels := ∅;
     ShapE.vertex_normals := None |}.

Definition red_green : list rgb :=
  [(Byte.xff, Byte.x00, Byte.x00); (Byte.x00, Byte.xff, Byte.x00)].

Definition color_stage (_ : ShapE.TriMesh) : pyresult (list rgb) := Ok red_green.

Definition scale_stage (_ : list vec3) : pyresult (nat -> vec3) :=
  Ok (fun _ => (f32_0_05, f32_0_05, f32_0_05)).

Definition gaussians1 : GaussianDreamer.Gaussians :=
  {| GaussianDreamer.xyz := [(f32_zero, f32_zero, f32_one)];
     GaussianDreamer.features_dc := [(f32_one, f32_zero, f32_zero)];
     GaussianDreamer.opacity := [f32_one];
     GaussianDreamer.scaling := [(f32_0_05, f32_0_05, f32_0_05)];
     GaussianDreamer.rotation := [(f32_one, f32_zero, f32_zero, f32_zero)] |}.

Definition no_gaussians : GaussianDreamer.Gaussians :=
  {| GaussianDreamer.xyz := []; GaussianDreamer.features_dc := [];
     GaussianDreamer.opacity := []; GaussianDreamer.scaling := [];
     GaussianDreamer.rotation := [] |}.

(** A cast that sends [1.0] to 255 and everything else to 0. *)
Definition to_uint8 (c : f32) : byte :=
  if (c =? f32_one)%Z then Byte.xff else Byte.x00.

(** One point with the normal [(0.0, 0.0, 1.0)], and the same point with a
    zero normal. *)
Definition cloud1 : PlyReader.PointCloud :=
  {| PlyReader.position := [(f32_zero, f32_zero, f32_zero)];
     PlyReader.normal := [(f32_zero, f32_zero, f32_one)];
     PlyReader.color := [(Byte.xff, Byte.x00, Byte.x00)];
     PlyReader.opacity := [f32_one];
     PlyReader.scale := [(f32_0_05, f32_0_05, f32_0_05)];
     PlyReader.rotation := [(f32_one, f32_zero, f32_zero, f32_zero)] |}.

Definition cloud1_flat : PlyReader.PointCloud := PlyReader.zero_normals cloud1.

(** A reachable broker with nothing queued, stored or revoked. *)
Definition empty_broker : Celery.broker := Celery.Broker true [] [] ∅.

Definition repr_dict (_ : pydict) : string := "{...}".

(** The request of the specification's scenario, with [guidance_scale]
    [0.5]; and with a model name no registry holds. *)
Definition raw_low_guidance : Api.RawRequest :=
  {| Api.raw_prompt := Some "a red sports car";
     Api.raw_model := Some "shap_e";
     Api.raw_guidance_scale := Some (Finite (1 # 2));
     Api.raw_num_inference_steps := Some 64%Z |}.

Definition raw_unknown_model : Api.RawRequest :=
  {| Api.raw_prompt := Some "a red sports car";
     Api.raw_model := Some "nonexistent";
     Api.raw_guidance_scale := Some (Finite 15);
     Api.raw_num_inference_steps := Some 64%Z |}.

(** An environment where Shap-E loads, and one where its package is not
    installed. *)
Definition good_env : ShapE.LoadEnv :=
  {| ShapE.import_shap_e := Ok tt;
     ShapE.load_model := fun name _ => Ok name |}.

Definition bad_env : ShapE.LoadEnv :=
  {| ShapE.import_shap_e := Raise (PyExc ImportError "No module named 'shap_e'");
     ShapE.load_model := fun name _ => Ok name |}.

(** A worker whose registry holds a loaded Shap-E, with nothing on its
    disk; a decoder that raises an exception without text; a decoder that
    fails on the prompt ["boom"] only. *)
Definition MODELS : Worker.registry := (Worker.init_models "cpu" good_env).1.

Definition now (_ : string) : string := "20250101_120000".

(** The part of the Unicode database the samples need: ['é'], ['日'] and
    ['本'] are alphanumeric. *)
Definition isalnum_u (c : Worker.pychar) : bool :=
  String.eqb (string_of_list_ascii c) "é"
  || String.eqb (string_of_list_ascii c) "日"
  || String.eqb (string_of_list_ascii c) "本".

Definition world0 : Worker.world := Worker.World empty_broker ∅.

Definition decode_silent (_ : ShapE.ShapEModel) (_ : string) (_ : pyfloat)
    (_ : Z) : pyresult ShapE.TriMesh :=
  Raise (PyExc AssertionError "").

Definition decode_boom (_ : ShapE.ShapEModel) (prompt : string) (_ : pyfloat)
    (_ : Z) : pyresult ShapE.TriMesh :=
  if String.eqb prompt "boom" then Raise (PyExc RuntimeError "CUDA out of memory")
  else Ok mesh2.

Definition msg_boom : Celery.message :=
  Celery.Message "job-0" "boom" "shap_e" (Finite 15) 64.

Definition msg_car : Celery.message :=
  Celery.Message "job-1" "a red sports car" "shap_e" (Finite 15) 64.

End Samples.

(** ** [models/model.py]: what every model is called with *)

Module Model3D.

(** The keyword arguments of [generate(prompt, output_path, **kwargs)]:
    a key may be absent. *)
Record kwargs : Type := {
  kw_guidance_scale : option pyfloat;
  kw_num_iterations : option Z;
  kw_num_steps : option Z
}.

End Model3D.

(** ** [models/gaussiandreamer.py]: [GaussianDreamerModel] *)

Module GaussianDreamerModel.
Import Ply Model3D.

(** The fields [__init__] and [load] set.  A built pipeline is named by
    the configuration it came from. *)
Record t : Type := {
  device : string;
  pipeline : option string;
  is_loaded : bool
}.

(** [GaussianDreamerModel(device)]. *)
Definition new (device : string) : t :=
  {| device := device; pipeline := None; is_loaded := false |}.

(** What [load] meets: whether the clone of the repository exists, whether
    its modules import, and what [load_config], [GaussianDreamer(...)] and
    [pipeline.to(device)] do. *)
Record LoadEnv : Type := {
  gd_path_exists : bool;
  import_threestudio : pyresult unit;
  load_config : pyresult string;
  build_system : string -> pyresult string;
  to_device : string -> string -> pyresult unit
}.

(** [load]: [False] without the clone; every exception of the [try]
    block makes it return [False] with the fields set so far kept. *)
Definition load (env : LoadEnv) (self : t) : t * bool :=
  if negb (gd_path_exists env) then (self, false)
  else
    match import_threestudio env with
    | Raise _ => (self, false)
    | Ok _ =>
        match load_config env with
        | Raise _ => (self, false)
        | Ok config =>
            match build_system env config with
            | Raise _ => (self, false)
            | Ok p =>
                let self1 :=
                  {| device := device self; pipeline := Some p;
                     is_loaded := is_loaded self |} in
                match to_device env p (device self) with
                | Raise _ => (self1, false)
                | Ok _ =>
                    ({| device := device self; pipeline := Some p;
                        is_loaded := true |}, true)
                end
            end
        end
    end.

(** [get_name]. *)
Definition get_name (self : t) : string := "GaussianDreamer".

Section Pipeline.
Variable to_uint8 : f32 -> byte.
(** Lines 56-66: the prompt and guidance set on the pipeline, the
    [num_iterations] training steps and [get_gaussians()]: the work of the
    network, taken as given; it may raise. *)
Variable optimise :
  t -> string -> pyfloat -> Z -> pyresult GaussianDreamer.Gaussians.

(** [generate(prompt, output_path, **kwargs)]. *)
Definition generate (self : t) (prompt output_path : string) (kw : kwargs)
  : M fs string :=
  if negb (is_loaded self) then
    m_raise (PyExc RuntimeError "GaussianDreamer not loaded")
  else
    let num_iterations := default 3000%Z (kw_num_iterations kw) in
    let guidance_scale := default (Finite (15 # 2)) (kw_guidance_scale kw) in
    let! gaussians :=
      m_lift (optimise self prompt guidance_scale num_iterations) in
    do! GaussianDreamer._export_gaussians to_uint8 gaussians output_path in
    m_ret output_path.
End Pipeline.

End GaussianDreamerModel.

(** ** [models/dreamgaussian.py]: [DreamGaussianModel] *)

Module DreamGaussianModel.
Import Model3D.

Record t : Type := {
  device : string;
  pipeline : option string;
  sd_model : option string;
  is_loaded : bool
}.

(** [DreamGaussianModel(device)]. *)
Definition new (device : string) : t :=
  {| device := device; pipeline := None; sd_model := None;
     is_loaded := false |}.

(** What [load] meets: the clone, the imports, and the two
    constructors. *)
Record LoadEnv : Type := {
  dg_path_exists : bool;
  import_dreamgaussian : pyresult unit;
  stable_diffusion : string -> pyresult string;
  dream_gaussian : string -> pyresult string
}.

Definition load (env : LoadEnv) (self : t) : t * bool :=
  if negb (dg_path_exists env) then (self, false)
  else
    match import_dreamgaussian env with
    | Raise _ => (self, false)
    | Ok _ =>
        match stable_diffusion env (device self) with
        | Raise _ => (self, false)
        | Ok sd =>
            let self1 :=
              {| device := device self; pipeline := pipeline self;
                 sd_model := Some sd; is_loaded := is_loaded self |} in
            match dream_gaussian env (device self) with
            | Raise _ => (self1, false)
            | Ok p =>
                ({| device := device self; pipeline := Some p;
                    sd_model := Some sd; is_loaded := true |}, true)
            end
        end
    end.

Definition get_name (self : t) : string := "DreamGaussian".

Section Pipeline.
(** A PIL image. *)
Variable image : Type.
(** [self.sd_model.prompt_to_img(prompt, **kwargs)]. *)
Variable prompt_to_img : string -> kwargs -> pyresult image.
(** [from rembg import remove; remove(image)]. *)
Variable rembg_remove : image -> pyresult image.
(** Lines 61-70: [initialize_from_image], the [num_steps] optimisation
    steps and [export_ply(str(output_path))], which writes the file: the
    work of the pipeline, taken as given; it may raise. *)
Variable reconstruct : t -> image -> Z -> string -> M fs unit.

(** [_remove_background]: the bare [except] keeps the image as it is. *)
Definition _remove_background (img : image) : image :=
  match rembg_remove img with
  | Ok cut => cut
  | Raise _ => img
  end.

(** [generate(prompt, output_path, **kwargs)]. *)
Definition generate (self : t) (prompt output_path : string) (kw : kwargs)
  : M fs string :=
  if negb (is_loaded self) then
    m_raise (PyExc RuntimeError "DreamGaussian not loaded")
  else
    let! img := m_lift (prompt_to_img prompt kw) in
    let image_rgba := _remove_background img in
    let num_steps := default 500%Z (kw_num_steps kw) in
    do! reconstruct self image_rgba num_steps output_path in
    m_ret output_path.
End Pipeline.

End DreamGaussianModel.

(** ** [multi_model_service.py] *)

Module MultiModel.
Import Model3D.

(** The objects the registry of this service holds. *)
Inductive model : Type :=
| GD (m : GaussianDreamerModel.t)
| DG (m : DreamGaussianModel.t).

Definition get_name (m : model) : string :=
  match m with
  | GD g => GaussianDreamerModel.get_name g
  | DG d => DreamGaussianModel.get_name d
  end.

Definition is_loaded (m : model) : bool :=
  match m with
  | GD g => GaussianDreamerModel.is_loaded g
  | DG d => DreamGaussianModel.is_loaded d
  end.

(** [self.models]: a dictionary, whose keys come back in insertion
    order. *)
Abbreviation models_dict := (list (string * model)).

(** [d[k] = v], [k in d], [d[k]] and [list(d.keys())]. *)
Fixpoint dict_set (k : string) (v : model) (d : models_dict) : models_dict :=
  match d with
  | [] => [(k, v)]
  | (k', v') :: d' =>
      if String.eqb k k' then (k, v) :: d' else (k', v') :: dict_set k v d'
  end.

Fixpoint dict_lookup (k : string) (d : models_dict) : option model :=
  match d with
  | [] => None
  | (k', v') :: d' => if String.eqb k k' then Some v' else dict_lookup k d'
  end.

Definition keys (d : models_dict) : list string := map fst d.

(** [str(l)] for a list of strings that hold no quote and no escape, as
    the keys of the registry do: ['a', 'b']. *)
Fixpoint join (sep : string) (l : list string) : string :=
  match l with
  | [] => EmptyString
  | [x] => x
  | x :: l' => x +:+ sep +:+ join sep l'
  end.

Definition repr_list (l : list string) : string :=
  "[" +:+ join ", " (map (fun s => "'" +:+ s +:+ "'") l) +:+ "]".

Record Service : Type := {
  output_dir : string;
  device : string;
  models : models_dict
}.

(** [load_all_models], lines 38-48. *)
Definition load_all_models (device : string)
    (gd_env : GaussianDreamerModel.LoadEnv)
    (dg_env : DreamGaussianModel.LoadEnv) : models_dict :=
  let models : models_dict := [] in
  let '(gd, gd_ok) :=
    GaussianDreamerModel.load gd_env (GaussianDreamerModel.new device) in
  let models := if gd_ok then dict_set "gaussiandreamer" (GD gd) models
                else models in
  let '(dg, dg_ok) :=
    DreamGaussianModel.load dg_env (DreamGaussianModel.new device) in
  let models := if dg_ok then dict_set "dreamgaussian" (DG dg) models
                else models in
  models.

(** [MultiModelService(output_dir)]; [device] is what
    [torch.cuda.is_available()] selects. *)
Definition new (output_dir device : string)
    (gd_env : GaussianDreamerModel.LoadEnv)
    (dg_env : DreamGaussianModel.LoadEnv) : Service :=
  {| output_dir := output_dir; device := device;
     models := load_all_models device gd_env dg_env |}.

(** The JSON body of [POST /generate]: an object whose fields, when
    present, hold values of the documented types. *)
Record Body : Type := {
  b_prompt : option string;
  b_model : option string;
  b_guidance_scale : option pyfloat;
  b_num_iterations : option Z;
  b_num_steps : option Z
}.

Section Pipelines.
Variable isalnum_u : Worker.pychar -> bool.
Variable to_uint8 : Ply.f32 -> byte.
Variable optimise :
  GaussianDreamerModel.t -> string -> pyfloat -> Z
  -> pyresult GaussianDreamer.Gaussians.
Variable image : Type.
Variable prompt_to_img : string -> kwargs -> pyresult image.
Variable rembg_remove : image -> pyresult image.
Variable reconstruct : DreamGaussianModel.t -> image -> Z -> string -> M fs unit.
(** [datetime.now().strftime("%Y%m%d_%H%M%S")] at the call. *)
Variable timestamp : string.

(** [model.generate(prompt, output_path, **kwargs)] on the object the
    registry holds. *)
Definition model_generate (m : model) (prompt output_path : string)
    (kw : kwargs) : M fs string :=
  match m with
  | GD g =>
      GaussianDreamerModel.generate to_uint8 optimise g prompt output_path kw
  | DG d =>
      DreamGaussianModel.generate image prompt_to_img rembg_remove reconstruct
        d prompt output_path kw
  end.

(** [MultiModelService.generate(prompt, model_name, **kwargs)]. *)
Definition generate (self : Service) (prompt model_name : string)
    (kw : kwargs) : M fs string :=
  match dict_lookup model_name (models self) with
  | None =>
      let available := keys (models self) in
      m_raise (PyExc ValueError
                 ("Model '" +:+ model_name +:+ "' not available. "
                  +:+ "Available models: " +:+ repr_list available))
  | Some model =>
      let safe_prompt := Worker.safe_prompt isalnum_u prompt in
      let output_name :=
        model_name +:+ "_" +:+ safe_prompt +:+ "_" +:+ timestamp +:+ ".ply" in
      let output_path := output_dir self +:+ "/" +:+ output_name in
      let! result_path := model_generate model prompt output_path kw in
      m_ret result_path
  end.

(** The route [POST /generate]: what it answers is a status code and a
    JSON object. *)
Definition route_generate (service : Service) (data : Body)
  : fs -> fs * (nat * pydict) :=
  fun files =>
    let prompt := b_prompt data in
    let model_name := default "gaussiandreamer" (b_model data) in
    match prompt with
    | None | Some EmptyString => (files, (400, {[ "error" := VStr "prompt is required" ]}))
    | Some prompt =>
        let kw :=
          {| kw_guidance_scale :=
               Some (default (Finite (15 # 2)) (b_guidance_scale data));
             kw_num_iterations := Some (default 3000%Z (b_num_iterations data));
             kw_num_steps := Some (default 500%Z (b_num_steps data)) |} in
        match generate service prompt model_name kw files with
        | (files', Ok output_path) =>
            (files',
             (200, {[ "status" := VStr "success";
                      "output_path" := VStr output_path;
                      "model" := VStr model_name;
                      "prompt" := VStr prompt ]}))
        | (files', Raise e) =>
            let body : pydict :=
              {[ "status" := VStr "error"; "error" := VStr (str_exc e) ]} in
            match exc_kind e with
            | ValueError => (files', (400, body))
            | _ => (files', (500, body))
            end
        end
    end.
End Pipelines.

End MultiModel.

(** ** [gaussiandreamer_service.py]: the service and its route *)

Module GaussianDreamerService.

(** Lines 19-26: both branches of the [try] leave the flag [False]. *)
Definition GAUSSIANDREAMER_AVAILABLE : bool := false.

(** [c for c in prompt if ...], then [.rstrip()], [[:50]] and
    [.replace(' ', '_')], lines 58-59. *)
Definition rstrip (l : list Worker.pychar) : list Worker.pychar :=
  rev (Worker.lstrip (rev l)).

Definition safe_prompt (isalnum_u : Worker.pychar -> bool) (prompt : string)
  : string :=
  let filtered :=
    filter (fun c => Worker.kept isalnum_u c = true)
      (Worker.chars (list_ascii_of_string prompt)) in
  let cut := take 50 (rstrip filtered) in
  Worker.join_chars (map Worker.underscore cut).

(** The service object.  [__init__] assigns [pipeline] only in placeholder
    mode, to [None]; with the flag set the attribute would not exist. *)
Record Service : Type := {
  output_dir : string;
  pipeline : option (option unit)
}.

(** [GaussianDreamerService(output_dir)]. *)
Definition new (output_dir : string) : Service :=
  {| output_dir := output_dir;
     pipeline := if GAUSSIANDREAMER_AVAILABLE then None else Some None |}.

Section Service.
Variable isalnum_u : Worker.pychar -> bool.
(** The real pipeline, were one installed: a callable that writes the
    file, taken as given. *)
Variable pipeline_call : string -> pyfloat -> Z -> string -> M fs unit.
Variable sphere_point : nat -> Ply.vec3.
Variable variation : nat -> Z * Z * Z.
(** [datetime.now().strftime("%Y%m%d_%H%M%S")] at the call. *)
Variable timestamp : string.

(** [generate(prompt, guidance_scale, num_iterations)]. *)
Definition generate (self : Service) (prompt : string)
    (guidance_scale : pyfloat) (num_iterations : Z) : M fs string :=
  let safe_prompt := safe_prompt isalnum_u prompt in
  let output_name := safe_prompt +:+ "_" +:+ timestamp in
  let output_path := output_dir self +:+ "/" +:+ output_name +:+ ".ply" in
  let placeholder :=
    Placeholder._generate_placeholder_ply sphere_point variation output_path
      prompt in
  if GAUSSIANDREAMER_AVAILABLE then
    match pipeline self with
    | None =>
        m_raise (PyExc AttributeError
                   "'GaussianDreamerService' object has no attribute 'pipeline'")
    | Some (Some _) =>
        do! pipeline_call prompt guidance_scale num_iterations output_path in
        m_ret output_path
    | Some None => placeholder
    end
  else placeholder.

(** The JSON body of [POST /generate]. *)
Record Body : Type := {
  b_prompt : option string;
  b_guidance_scale : option pyfloat;
  b_num_iterations : option Z
}.

(** The route [POST /generate]. *)
Definition route_generate (service : Service) (data : Body)
  : fs -> fs * (nat * pydict) :=
  fun files =>
    match b_prompt data with
    | None | Some EmptyString => (files, (400, {[ "error" := VStr "prompt is required" ]}))
    | Some prompt =>
        let guidance_scale := default (Finite (15 # 2)) (b_guidance_scale data) in
        let num_iterations := default 500%Z (b_num_iterations data) in
        match generate service prompt guidance_scale num_iterations files with
        | (files', Ok output_path) =>
            (files',
             (200, {[ "status" := VStr "success";
                      "output_path" := VStr output_path;
                      "prompt" := VStr prompt ]}))
        | (files', Raise e) =>
            (files',
             (500, {[ "status" := VStr "error"; "error" := VStr (str_exc e) ]}))
        end
    end.
End Service.

End GaussianDreamerService.

(** ** More sample inputs *)

Module MoreSamples.

(** An installation where GaussianDreamer loads and DreamGaussian has not
    been cloned. *)
Definition gd_env : GaussianDreamerModel.LoadEnv :=
  {| GaussianDreamerModel.gd_path_exists := true;
     GaussianDreamerModel.import_threestudio := Ok tt;
     GaussianDreamerModel.load_config := Ok "configs/gaussiandreamer.yaml";
     GaussianDreamerModel.build_system := fun config => Ok config;
     GaussianDreamerModel.to_device := fun _ _ => Ok tt |}.

Definition dg_env : DreamGaussianModel.LoadEnv :=
  {| DreamGaussianModel.dg_path_exists := false;
     DreamGaussianModel.import_dreamgaussian := Ok tt;
     DreamGaussianModel.stable_diffusion := fun device => Ok device;
     DreamGaussianModel.dream_gaussian := fun device => Ok device |}.

Definition service : MultiModel.Service :=
  MultiModel.new "../outputs" "cpu" gd_env dg_env.

(** Bodies of [POST /generate]: a prompt alone; a prompt with a model the
    registry does not hold; no prompt. *)
Definition body_car : MultiModel.Body :=
  {| MultiModel.b_prompt := Some "a red sports car";
     MultiModel.b_model := None;
     MultiModel.b_guidance_scale := None;
     MultiModel.b_num_iterations := None;
     MultiModel.b_num_steps := None |}.

Definition body_shap_e : MultiModel.Body :=
  {| MultiModel.b_prompt := Some "a red sports car";
     MultiModel.b_model := Some "shap_e";
     MultiModel.b_guidance_scale := None;
     MultiModel.b_num_iterations := None;
     MultiModel.b_num_steps := None |}.

Definition body_no_prompt : GaussianDreamerService.Body :=
  {| GaussianDreamerService.b_prompt := None;
     GaussianDreamerService.b_guidance_scale := Some (Finite 30);
     GaussianDreamerService.b_num_iterations := Some 10%Z |}.

Definition body_chair : GaussianDreamerService.Body :=
  {| GaussianDreamerService.b_prompt := Some "a blue chair";
     GaussianDreamerService.b_guidance_scale := None;
     GaussianDreamerService.b_num_iterations := None |}.

(** An optimisation that returns one gaussian, and one that runs out of
    memory. *)
Definition optimise_one (_ : GaussianDreamerModel.t) (_ : string) (_ : pyfloat)
    (_ : Z) : pyresult GaussianDreamer.Gaussians :=
  Ok Samples.gaussians1.

Definition optimise_oom (_ : GaussianDreamerModel.t) (_ : string) (_ : pyfloat)
    (_ : Z) : pyresult GaussianDreamer.Gaussians :=
  Raise (PyExc RuntimeError "CUDA out of memory").

(** A decoder that returns a mesh without vertices, and a colour stage
    that returns one colour only. *)
Definition decode_empty (_ : ShapE.ShapEModel) (_ : string) (_ : pyfloat)
    (_ : Z) : pyresult ShapE.TriMesh :=
  Ok Samples.empty_mesh.

Definition one_colour (_ : ShapE.TriMesh) : pyresult (list Ply.rgb) :=
  Ok [(Byte.xff, Byte.x00, Byte.x00)].

(** A world with two jobs queued, and the valid request of the
    specification's scenario. *)
Definition world_queued : Worker.world :=
  Worker.World (Celery.Broker true [Samples.msg_boom; Samples.msg_car] [] ∅) ∅.

Definition raw_car : Api.RawRequest :=
  {| Api.raw_prompt := Some "a red sports car";
     Api.raw_model := None;
     Api.raw_guidance_scale := None;
     Api.raw_num_inference_steps := None |}.

(** A request whose prompt is the empty string. *)
Definition raw_empty_prompt : Api.RawRequest :=
  {| Api.raw_prompt := Some EmptyString;
     Api.raw_model := None;
     Api.raw_guidance_scale := None;
     Api.raw_num_inference_steps := None |}.

End MoreSamples.

(** ** Notions used to state the further properties *)

Module Laws.
Import Celery.

(** A character is cut well when it is one byte, or bytes from 128 up
    only. *)
Definition well_cut (c : Worker.pychar) : Prop :=
  (exists b, c = [b]) \/ Forall (fun b => Worker.is_ascii b = false) c.

(** An ASCII character a sanitised file name may hold, and a name made of
    such characters only. *)
Definition name_char (c : ascii) : bool :=
  Worker.ascii_alnum c || Ascii.eqb c "_".

Definition name_safe (s : string) : Prop :=
  Forall (fun c => name_char c = true) (list_ascii_of_string s).

(** The states in which a job stays. *)
Definition terminal (s : state) : Prop :=
  s = SUCCESS \/ s = FAILURE \/ s = REVOKED.

End Laws.

(** * Properties *)

(** ** The layout *)

Section Layout.
Import Ply.

Lemma pack_f_length w : length (pack_f w) = 4.
Proof. apply length_le_split. Qed.

Lemma pack_fff_length v : length (pack_fff v) = 12.
Proof.
  destruct v as [[a b] c]. unfold pack_fff.
  rewrite !length_app, !pack_f_length. reflexivity.
Qed.

Lemma pack_ffff_length q : length (pack_ffff q) = 16.
Proof.
  destruct q as [[[a b] c] d]. unfold pack_ffff.
  rewrite !length_app, !pack_f_length. reflexivity.
Qed.

Lemma pack_BBB_length c : length (pack_BBB c) = 3.
Proof. destruct c as [[r g] b]. reflexivity. Qed.

Lemma record_layout_length r : length (record_layout r) = record_size.
Proof.
  destruct r as [[[[[pos nrm] col] opa] sca] rot]. unfold record_layout.
  rewrite !length_app, !pack_fff_length, pack_BBB_length, pack_f_length,
    pack_ffff_length.
  reflexivity.
Qed.

Lemma concat_layout_length (rows : list splat_record) :
  length (concat (map record_layout rows)) = length rows * record_size.
Proof.
  induction rows as [|r rows IH]; simpl; [reflexivity|].
  rewrite length_app, record_layout_length, IH. reflexivity.
Qed.

(** The bytes of a zero [float32] triple. *)
Lemma pack_zero3 : pack_fff zero3 = replicate 12 Byte.x00.
Proof. vm_compute. reflexivity. Qed.

(** Record [i] sits at offset [59 * i] after the prefix. *)
Lemma record_at_offset (pre : list byte) (rows : list splat_record) i r :
  rows !! i = Some r ->
  take record_size (drop (length pre + record_size * i)
                      (pre ++ concat (map record_layout rows)))
  = record_layout r.
Proof.
  revert pre i. induction rows as [|r0 rows IH]; intros pre i Hi; [discriminate|].
  destruct i as [|i]; simpl in Hi.
  - injection Hi as ->. rewrite Nat.mul_0_r, Nat.add_0_r, drop_app_length.
    simpl. rewrite take_app_length'; [reflexivity|].
    symmetry; apply record_layout_length.
  - simpl map. simpl concat.
    replace (length pre + record_size * S i)
      with (length (pre ++ record_layout r0) + record_size * i)
      by (rewrite length_app, record_layout_length; lia).
    rewrite (app_assoc pre). apply IH, Hi.
Qed.

(** Bytes 12 to 23 of a record are its normal. *)
Lemma normal_in_record r :
  take 12 (drop 12 (record_layout r)) = pack_fff (record_normal r).
Proof.
  destruct r as [[[[[pos nrm] col] opa] sca] rot]. unfold record_layout.
  rewrite drop_app_length' by (symmetry; apply pack_fff_length).
  rewrite take_app_length'; [reflexivity|].
  symmetry; apply pack_fff_length.
Qed.

End Layout.

(** ** The writing loops *)

Section Loops.
Import Ply.

Lemma index_Some {A} (a : list A) i x : a !! i = Some x -> index a i = Ok x.
Proof. unfold index. intros ->. reflexivity. Qed.

Lemma index_None {A} (a : list A) i :
  a !! i = None -> exists e, index a i = Raise e.
Proof. unfold index. intros ->. eexists. reflexivity. Qed.

(** A loop whose iterations each append one record or raise. *)
Lemma for_each_rows {A} (l : list A) (body : A -> W unit)
    (row : A -> option splat_record) :
  (forall i r buf, row i = Some r ->
                   body i buf = (buf ++ record_layout r, Ok tt)) ->
  (forall i buf, row i = None -> exists buf' e, body i buf = (buf', Raise e)) ->
  forall buf,
    match mapM row l with
    | Some rows =>
        for_each l body buf = (buf ++ concat (map record_layout rows), Ok tt)
    | None => exists buf' e, for_each l body buf = (buf', Raise e)
    end.
Proof.
  intros Hok Hraise. induction l as [|i l IH]; intros buf.
  - simpl. unfold m_ret. rewrite app_nil_r. reflexivity.
  - cbn [mapM for_each]. unfold m_bind.
    destruct (row i) as [r|] eqn:Hrow; simpl.
    + rewrite (Hok _ _ _ Hrow). specialize (IH (buf ++ record_layout r)).
      destruct (mapM row l) as [rows|]; simpl.
      * rewrite IH, <- app_assoc. reflexivity.
      * exact IH.
    + destruct (Hraise i buf Hrow) as (buf' & e & ->). eauto.
Qed.

Lemma mapM_rows_lookup (row : nat -> option splat_record) n rows i r :
  mapM row (seq 0 n) = Some rows -> rows !! i = Some r -> row i = Some r.
Proof.
  intros HM Hi. apply mapM_Some in HM.
  destruct (Forall2_lookup_r _ _ _ _ _ HM Hi) as (j & Hj & Hrow).
  apply lookup_seq in Hj as [-> _]. exact Hrow.
Qed.

Lemma mapM_rows_length (row : nat -> option splat_record) n rows :
  mapM row (seq 0 n) = Some rows -> length rows = n.
Proof. intros HM. apply length_mapM in HM. rewrite length_seq in HM. lia. Qed.

Lemma mapM_rows_total (row : nat -> option splat_record) n :
  (forall i, i < n -> is_Some (row i)) -> is_Some (mapM row (seq 0 n)).
Proof.
  intros H. apply mapM_is_Some. apply Forall_forall. intros i Hi.
  apply H. apply elem_of_seq in Hi. lia.
Qed.

(** [ShapEModel._export_to_ply], one iteration. *)
Lemma write_vertex_row vs cs os ss rs i r buf :
  row_at vs cs os ss rs i = Some r ->
  ShapE.write_vertex vs cs os ss rs i buf = (buf ++ record_layout r, Ok tt).
Proof.
  unfold row_at. intros H.
  destruct (vs !! i) as [v|] eqn:Hv; [|discriminate].
  destruct (cs !! i) as [c|] eqn:Hc; [|discriminate].
  destruct (os !! i) as [o|] eqn:Ho; [|discriminate].
  destruct (ss !! i) as [s|] eqn:Hs; [|discriminate].
  destruct (rs !! i) as [q|] eqn:Hq; [|discriminate].
  injection H as <-.
  unfold ShapE.write_vertex, m_bind, m_lift, f_write.
  rewrite (index_Some _ _ _ Hv), (index_Some _ _ _ Hc), (index_Some _ _ _ Ho),
    (index_Some _ _ _ Hs), (index_Some _ _ _ Hq).
  unfold record_layout, zero3. rewrite <- !app_assoc. reflexivity.
Qed.

Lemma write_vertex_raise vs cs os ss rs i buf :
  row_at vs cs os ss rs i = None ->
  exists buf' e, ShapE.write_vertex vs cs os ss rs i buf = (buf', Raise e).
Proof.
  unfold row_at, ShapE.write_vertex, m_bind, m_lift, f_write. intros H.
  destruct (vs !! i) as [v|] eqn:Hv;
    [rewrite (index_Some _ _ _ Hv)
    |destruct (index_None _ _ Hv) as [e ->]; eauto].
  destruct (cs !! i) as [c|] eqn:Hc;
    [rewrite (index_Some _ _ _ Hc)
    |destruct (index_None _ _ Hc) as [e ->]; eauto].
  destruct (os !! i) as [o|] eqn:Ho;
    [rewrite (index_Some _ _ _ Ho)
    |destruct (index_None _ _ Ho) as [e ->]; eauto].
  destruct (ss !! i) as [s|] eqn:Hs;
    [rewrite (index_Some _ _ _ Hs)
    |destruct (index_None _ _ Hs) as [e ->]; eauto].
  destruct (rs !! i) as [q|] eqn:Hq;
    [discriminate|destruct (index_None _ _ Hq) as [e ->]; eauto].
Qed.

(** The block that writes the file: header, then one record per row, or
    an exception when an array is too short. *)
Lemma write_splats_rows n vs cs os ss rs :
  match mapM (row_at vs cs os ss rs) (seq 0 n) with
  | Some rows =>
      ShapE.write_splats n vs cs os ss rs []
      = (encode_ascii (header n) ++ concat (map record_layout rows), Ok tt)
  | None =>
      exists buf e, ShapE.write_splats n vs cs os ss rs [] = (buf, Raise e)
  end.
Proof.
  pose proof (for_each_rows (seq 0 n) (ShapE.write_vertex vs cs os ss rs)
                (row_at vs cs os ss rs)
                (fun i r buf => write_vertex_row _ _ _ _ _ i r buf)
                (fun i buf => write_vertex_raise _ _ _ _ _ i buf)
                (encode_ascii (header n))) as Hloop.
  destruct (mapM _ (seq 0 n)) as [rows|];
    unfold ShapE.write_splats, for_range, m_bind at 1, f_write at 1;
    rewrite app_nil_l; exact Hloop.
Qed.

End Loops.

(** ** What each writer leaves in the file *)

Section Writers.
Import Ply Rows.

Lemma shap_e_row_Some mesh cs scale_row i r :
  shap_e_row mesh cs scale_row i = Some r ->
  exists v c,
    ShapE.verts mesh !! i = Some v /\ cs !! i = Some c
    /\ r = (v, zero3, c, f32_0_95, scale_row i, identity_quat).
Proof.
  unfold shap_e_row, row_at. intros H.
  destruct (ShapE.verts mesh !! i) as [v|] eqn:Hv; [|discriminate].
  destruct (cs !! i) as [c|] eqn:Hc; [|discriminate].
  destruct (replicate _ f32_0_95 !! i) as [o|] eqn:Ho; [|discriminate].
  destruct (map scale_row _ !! i) as [s|] eqn:Hs; [|discriminate].
  destruct (replicate _ identity_quat !! i) as [q|] eqn:Hq; [|discriminate].
  injection H as <-. exists v, c. repeat split.
  apply lookup_lt_Some in Hv as Hlt.
  apply lookup_replicate in Ho as [-> _]. apply lookup_replicate in Hq as [-> _].
  change (map scale_row) with (fmap (M:=list) scale_row) in Hs.
  rewrite list_lookup_fmap, lookup_seq_lt in Hs by exact Hlt.
  simpl in Hs. injection Hs as <-. reflexivity.
Qed.

(** The outcome of [_export_to_ply] when it returns. *)
Lemma export_to_ply_returns color_stage scale_stage mesh path files files' :
  ShapE._export_to_ply color_stage scale_stage mesh path files = (files', Ok tt) ->
  let n := length (ShapE.verts mesh) in
  exists cs scale_row rows,
    n <> 0
    /\ color_stage mesh = Ok cs
    /\ scale_stage (ShapE.verts mesh) = Ok scale_row
    /\ mapM (shap_e_row mesh cs scale_row) (seq 0 n) = Some rows
    /\ files'
       = <[path := encode_ascii (header n) ++ concat (map record_layout rows)]>
           files.
Proof.
  intros H. cbv zeta. unfold ShapE._export_to_ply in H. cbv zeta in H.
  set (n := length (ShapE.verts mesh)) in *.
  destruct (n =? 0)%nat eqn:Hn; [discriminate|]. apply Nat.eqb_neq in Hn.
  unfold m_bind at 1, m_lift at 1 in H.
  destruct (color_stage mesh) as [cs|e]; [|discriminate].
  unfold m_bind at 1, m_lift at 1 in H.
  destruct (scale_stage (ShapE.verts mesh)) as [scale_row|e]; [|discriminate].
  exists cs, scale_row.
  unfold m_bind at 1, with_open_wb in H.
  match type of H with
  | context [ShapE.write_splats ?a ?b ?c ?d ?e ?f []] =>
      pose proof (write_splats_rows a b c d e f) as Hw
  end.
  destruct (mapM _ (seq 0 n)) as [rows|] eqn:Hrows.
  - exists rows. rewrite Hw in H.
    unfold m_bind, st_size in H. rewrite lookup_insert_eq in H.
    destruct (negb _); [discriminate|]. unfold m_ret in H.
    injection H as <-. repeat split; auto.
  - destruct Hw as (buf & e & Hw). rewrite Hw in H. discriminate.
Qed.

(** And it does return whenever its stages do and the colours cover the
    vertices. *)
Lemma export_to_ply_succeeds color_stage scale_stage mesh path files cs scale_row :
  ShapE.verts mesh <> [] ->
  color_stage mesh = Ok cs ->
  scale_stage (ShapE.verts mesh) = Ok scale_row ->
  length (ShapE.verts mesh) <= length cs ->
  exists files',
    ShapE._export_to_ply color_stage scale_stage mesh path files = (files', Ok tt).
Proof.
  intros Hne Hcs Hss Hlen. unfold ShapE._export_to_ply. cbv zeta.
  set (n := length (ShapE.verts mesh)).
  assert (Hn : n <> 0) by (subst n; destruct (ShapE.verts mesh); simpl; congruence).
  apply Nat.eqb_neq in Hn as ->.
  unfold m_bind at 1, m_lift at 1. rewrite Hcs.
  unfold m_bind at 1, m_lift at 1. rewrite Hss.
  unfold m_bind at 1, with_open_wb.
  match goal with
  | |- context [ShapE.write_splats ?a ?b ?c ?d ?e ?f []] =>
      pose proof (write_splats_rows a b c d e f) as Hw;
      destruct (mapM_rows_total (row_at b c d e f) n) as [rows Hrows]
  end.
  { intros i Hi. unfold row_at.
    destruct (ShapE.verts mesh !! i) eqn:E1;
      [|apply lookup_ge_None in E1; lia].
    destruct (cs !! i) eqn:E2;
      [|apply lookup_ge_None in E2; unfold n in Hi; lia].
    destruct (replicate n f32_0_95 !! i) eqn:E3;
      [|apply lookup_ge_None in E3; rewrite length_replicate in E3; lia].
    destruct (map scale_row (seq 0 n) !! i) eqn:E4;
      [|apply lookup_ge_None in E4; rewrite length_map, length_seq in E4; lia].
    match goal with
    | |- is_Some (match ?x with Some _ => _ | None => _ end) =>
        destruct x eqn:E5;
        [|apply lookup_ge_None in E5; rewrite length_replicate in E5; lia]
    end.
    eexists; reflexivity. }
  rewrite Hrows in Hw. rewrite Hw.
  unfold m_bind, st_size. rewrite lookup_insert_eq.
  rewrite length_app, concat_layout_length.
  apply mapM_rows_length in Hrows. rewrite Hrows. unfold record_size.
  rewrite Nat.eqb_refl. simpl. eauto.
Qed.

Lemma lookup_map_Some {A B} (f : A -> B) (l : list A) i :
  map f l !! i = option_map f (l !! i).
Proof.
  revert i. induction l as [|x l IH]; intros [|i]; simpl; auto.
Qed.

Lemma write_gaussian_row to_uint8 ps cs os ss rs i r buf :
  row_at ps (map (GaussianDreamer.quantise to_uint8) cs) os ss rs i = Some r ->
  GaussianDreamer.write_gaussian to_uint8 ps cs os ss rs i buf
  = (buf ++ record_layout r, Ok tt).
Proof.
  unfold row_at. rewrite lookup_map_Some. intros H.
  destruct (ps !! i) as [v|] eqn:Hv; [|discriminate].
  destruct (cs !! i) as [c|] eqn:Hc; [|discriminate].
  destruct (os !! i) as [o|] eqn:Ho; [|discriminate].
  destruct (ss !! i) as [s|] eqn:Hs; [|discriminate].
  destruct (rs !! i) as [q|] eqn:Hq; [|discriminate].
  injection H as <-.
  unfold GaussianDreamer.write_gaussian, m_bind, m_lift, f_write.
  rewrite (index_Some _ _ _ Hv), (index_Some _ _ _ Hc), (index_Some _ _ _ Ho),
    (index_Some _ _ _ Hs), (index_Some _ _ _ Hq).
  unfold record_layout, zero3. rewrite <- !app_assoc. reflexivity.
Qed.

Lemma write_gaussian_raise to_uint8 ps cs os ss rs i buf :
  row_at ps (map (GaussianDreamer.quantise to_uint8) cs) os ss rs i = None ->
  exists buf' e,
    GaussianDreamer.write_gaussian to_uint8 ps cs os ss rs i buf = (buf', Raise e).
Proof.
  unfold row_at, GaussianDreamer.write_gaussian, m_bind, m_lift, f_write.
  rewrite lookup_map_Some. intros H.
  destruct (ps !! i) as [v|] eqn:Hv;
    [rewrite (index_Some _ _ _ Hv)
    |destruct (index_None _ _ Hv) as [e ->]; eauto].
  destruct (cs !! i) as [c|] eqn:Hc;
    [rewrite (index_Some _ _ _ Hc)
    |destruct (index_None _ _ Hc) as [e ->]; eauto].
  destruct (os !! i) as [o|] eqn:Ho;
    [rewrite (index_Some _ _ _ Ho)
    |destruct (index_None _ _ Ho) as [e ->]; eauto].
  destruct (ss !! i) as [s|] eqn:Hs;
    [rewrite (index_Some _ _ _ Hs)
    |destruct (index_None _ _ Hs) as [e ->]; eauto].
  destruct (rs !! i) as [q|] eqn:Hq;
    [discriminate|destruct (index_None _ _ Hq) as [e ->]; eauto].
Qed.

(** The outcome of [_export_gaussians]: the header and one record per
    row, or an exception when an array is shorter than [xyz]. *)
Lemma export_gaussians_outcome to_uint8 g path files :
  let n := length (GaussianDreamer.xyz g) in
  match mapM (gaussian_row to_uint8 g) (seq 0 n) with
  | Some rows =>
      GaussianDreamer._export_gaussians to_uint8 g path files
      = (<[path := encode_ascii (header n) ++ concat (map record_layout rows)]>
           files, Ok tt)
  | None =>
      exists files' e,
        GaussianDreamer._export_gaussians to_uint8 g path files
        = (files', Raise e)
  end.
Proof.
  intros n.
  pose proof (for_each_rows (seq 0 n)
                (GaussianDreamer.write_gaussian to_uint8
                   (GaussianDreamer.xyz g) (GaussianDreamer.features_dc g)
                   (GaussianDreamer.opacity g) (GaussianDreamer.scaling g)
                   (GaussianDreamer.rotation g))
                (gaussian_row to_uint8 g)) as Hloop.
  specialize (Hloop (fun i r buf => write_gaussian_row _ _ _ _ _ _ i r buf)
                (fun i buf => write_gaussian_raise _ _ _ _ _ _ i buf)
                (encode_ascii (header n))).
  destruct (mapM (gaussian_row to_uint8 g) (seq 0 n)) as [rows|];
    unfold GaussianDreamer._export_gaussians, with_open_wb; cbv zeta;
    fold n; unfold for_range, m_bind at 1, f_write at 1; rewrite app_nil_l.
  - destruct (for_each _ _ _) as [buf r].
    injection Hloop as -> ->. reflexivity.
  - destruct Hloop as (buf' & e & Hl).
    destruct (for_each _ _ _) as [buf r].
    injection Hl as -> ->. do 2 eexists; reflexivity.
Qed.

Lemma for_each_total_rows {A} (l : list A) (body : A -> W unit)
    (row : A -> splat_record) :
  (forall i buf, body i buf = (buf ++ record_layout (row i), Ok tt)) ->
  forall buf,
    for_each l body buf = (buf ++ concat (map record_layout (map row l)), Ok tt).
Proof.
  intros Hbody. induction l as [|i l IH]; intros buf; simpl.
  - unfold m_ret. rewrite app_nil_r. reflexivity.
  - unfold m_bind. rewrite Hbody, IH, <- app_assoc. reflexivity.
Qed.

Lemma write_point_row sphere_point variation prompt i buf :
  Placeholder.write_point sphere_point variation prompt i buf
  = (buf ++ record_layout (placeholder_row sphere_point variation prompt i),
     Ok tt).
Proof.
  unfold Placeholder.write_point, placeholder_row, record_layout.
  destruct (sphere_point i) as [[x y] z].
  unfold m_bind, f_write, pack_fff, zero3. rewrite <- !app_assoc. reflexivity.
Qed.

Lemma placeholder_outcome sphere_point variation path prompt files :
  Placeholder._generate_placeholder_ply sphere_point variation path prompt files
  = (<[path :=
         encode_ascii (header Placeholder.num_points)
         ++ concat (map record_layout
                      (map (placeholder_row sphere_point variation prompt)
                         (seq 0 Placeholder.num_points)))]> files,
     Ok path).
Proof.
  unfold Placeholder._generate_placeholder_ply, with_open_wb, for_range.
  generalize Placeholder.num_points. intros n.
  unfold m_bind at 1. unfold m_bind at 1. unfold f_write at 1.
  rewrite app_nil_l.
  rewrite (for_each_total_rows _ _ (placeholder_row sphere_point variation prompt))
    by (intros; apply write_point_row).
  reflexivity.
Qed.

End Writers.

(** ** Normals in the file *)

Section Normals.
Import Ply Rows.

Lemma row_at_normal ps cs os ss rs i r :
  row_at ps cs os ss rs i = Some r -> record_normal r = zero3.
Proof.
  unfold row_at. intros H.
  destruct (ps !! i), (cs !! i), (os !! i), (ss !! i), (rs !! i);
    try discriminate.
  injection H as <-. reflexivity.
Qed.

Lemma mapM_rows_normal (row : nat -> option splat_record) n rows :
  (forall i r, row i = Some r -> record_normal r = zero3) ->
  mapM row (seq 0 n) = Some rows ->
  Forall (fun r => record_normal r = zero3) rows.
Proof.
  intros Hrow HM. apply Forall_lookup. intros i r Hi.
  eapply Hrow, mapM_rows_lookup; eauto.
Qed.

(** In a file made of a prefix and records with zero normals, the twelve
    bytes at offset 12 of every record are zero. *)
Lemma normal_bytes_zero (pre : list byte) (rows : list splat_record) i :
  Forall (fun r => record_normal r = zero3) rows ->
  i < length rows ->
  take 12 (drop (length pre + record_size * i + 12)
             (pre ++ concat (map record_layout rows)))
  = replicate 12 Byte.x00.
Proof.
  intros Hz Hi.
  destruct (lookup_lt_is_Some_2 rows i Hi) as [r Hr].
  pose proof (record_at_offset pre rows i r Hr) as Hrec.
  rewrite <- drop_drop, take_drop_commute.
  replace (take (12 + 12)) with (take (A:=byte) (Nat.min (12 + 12) record_size))
    by reflexivity.
  rewrite <- take_take, Hrec, <- take_drop_commute, normal_in_record.
  rewrite (proj1 (Forall_lookup _ _) Hz i r Hr). apply pack_zero3.
Qed.

End Normals.

(** ** Decimal text and header lines *)

Section HeaderText.
Import Ply PlyReader Rows.

Lemma to_uint_nonnil n : Nat.to_uint n <> Decimal.Nil.
Proof.
  rewrite <- (DecimalNat.Unsigned.of_to n) at 1.
  rewrite DecimalNat.Unsigned.to_of. apply DecimalFacts.unorm_nonnil.
Qed.

Lemma str_nat_nonempty n : str_nat n <> "".
Proof.
  unfold str_nat. pose proof (to_uint_nonnil n) as H.
  destruct (Nat.to_uint n); simpl; congruence.
Qed.

Lemma encode_ascii_app s1 s2 :
  encode_ascii (s1 +:+ s2) = encode_ascii s1 ++ encode_ascii s2.
Proof.
  unfold encode_ascii, list_byte_of_string.
  induction s1 as [|c s1 IH]; simpl; [reflexivity|]. now rewrite IH.
Qed.

Lemma encode_unlines ls :
  encode_ascii (unlines ls)
  = concat (map (fun l => encode_ascii l ++ [Byte.x0a]) ls).
Proof.
  induction ls as [|l ls IH]; simpl; [reflexivity|].
  rewrite !encode_ascii_app, IH, <- app_assoc. reflexivity.
Qed.

Lemma read_line_app line rest :
  no_newline line -> read_line (line ++ Byte.x0a :: rest) = Some (line, rest).
Proof.
  induction 1 as [|b line Hb _ IH]; simpl; [reflexivity|].
  rewrite Hb, IH. reflexivity.
Qed.

Lemma expect_lines_app ls rest :
  Forall (fun l => no_newline (encode_ascii l)) ls ->
  expect_lines ls
    (concat (map (fun l => encode_ascii l ++ [Byte.x0a]) ls) ++ rest)
  = Some rest.
Proof.
  induction 1 as [|l ls Hl _ IH]; simpl; [reflexivity|].
  rewrite <- !app_assoc. simpl. rewrite (read_line_app _ _ Hl).
  rewrite decide_True by reflexivity. exact IH.
Qed.

Lemma digits_no_newline d :
  no_newline (encode_ascii (NilEmpty.string_of_uint d)).
Proof.
  induction d; simpl; constructor; auto.
Qed.

Lemma substring_all s : substring 0 (String.length s) s = s.
Proof. induction s as [|c s IH]; simpl; [reflexivity|]. now rewrite IH. Qed.

Lemma parse_count_line n :
  parse_count (encode_ascii ("element vertex " +:+ str_nat n)) = Some n.
Proof.
  unfold parse_count, encode_ascii. rewrite string_of_list_byte_of_string.
  generalize (str_nat_nonempty n). unfold str_nat.
  generalize (NilEmpty.usu (Nat.to_uint n)).
  generalize (NilEmpty.string_of_uint (Nat.to_uint n)). intros d Hd Hne.
  replace (String.prefix "element vertex " ("element vertex " +:+ d)) with true
    by (destruct d; reflexivity).
  change (substring 15 (String.length ("element vertex " +:+ d) - 15)
            ("element vertex " +:+ d))
    with (substring 0 (String.length d - 0) d).
  rewrite Nat.sub_0_r, substring_all.
  destruct (String.eqb d "") eqn:He.
  - apply String.eqb_eq in He. contradiction.
  - simpl. rewrite Hd, DecimalNat.Unsigned.of_to. reflexivity.
Qed.

Lemma fixed_lines_no_newline :
  Forall (fun l => no_newline (encode_ascii l))
    (["ply"; "format binary_little_endian 1.0"] ++ property_lines
     ++ ["end_header"]).
Proof. repeat constructor. Qed.

(** The header the writers produce parses back to its count. *)
Lemma parse_header_written n body :
  parse_header (encode_ascii (header n) ++ body) = Some (n, body).
Proof.
  unfold parse_header, header, header_lines.
  rewrite encode_unlines.
  change (map ?f ([?a; ?b; ?c] ++ ?l))
    with (map f [a; b] ++ [f c] ++ map f l).
  rewrite !concat_app, <- !app_assoc.
  pose proof fixed_lines_no_newline as Hfixed.
  apply Forall_app in Hfixed as [H2 Hrest].
  rewrite (expect_lines_app _ _ H2).
  cbn [concat app]. rewrite app_nil_r, <- (app_assoc _ [Byte.x0a]).
  change ([Byte.x0a] ++ ?l) with (Byte.x0a :: l).
  rewrite read_line_app.
  2:{ rewrite encode_ascii_app. apply Forall_app. split.
      - repeat constructor.
      - apply digits_no_newline. }
  rewrite parse_count_line.
  rewrite (expect_lines_app _ _ Hrest). reflexivity.
Qed.

End HeaderText.

(** ** Reading back what was written *)

Section ReadBack.
Import Ply PlyReader Rows.

Lemma read_f_pack w rest :
  f32_ok w -> read_f (pack_f w ++ rest) = Some (w, rest).
Proof.
  intros [Hw _]. unfold pack_f.
  change (le_split 4 w)
    with [byte.of_Z w; byte.of_Z (Z.shiftr w 8);
          byte.of_Z (Z.shiftr (Z.shiftr w 8) 8);
          byte.of_Z (Z.shiftr (Z.shiftr (Z.shiftr w 8) 8) 8)].
  cbn [app read_f]. do 2 f_equal.
  change (le_combine (le_split 4 w) = w).
  rewrite le_combine_split. apply Z.mod_small. exact Hw.
Qed.

Lemma read_fff_pack v rest :
  f32_ok3 v -> read_fff (pack_fff v ++ rest) = Some (v, rest).
Proof.
  destruct v as [[a b] c]. intros (Ha & Hb & Hc).
  unfold read_fff, pack_fff. rewrite <- !app_assoc.
  rewrite (read_f_pack _ _ Ha), (read_f_pack _ _ Hb), (read_f_pack _ _ Hc).
  reflexivity.
Qed.

Lemma read_ffff_pack q rest :
  f32_ok4 q -> read_ffff (pack_ffff q ++ rest) = Some (q, rest).
Proof.
  destruct q as [[[a b] c] d]. intros (Ha & Hb & Hc & Hd).
  unfold read_ffff, pack_ffff.
  change (pack_f a ++ pack_f b ++ pack_f c ++ pack_f d)
    with (pack_fff (a, b, c) ++ pack_f d).
  rewrite <- !app_assoc.
  rewrite (read_fff_pack (a, b, c) _ (conj Ha (conj Hb Hc))).
  rewrite (read_f_pack _ _ Hd). reflexivity.
Qed.

Lemma read_BBB_pack c rest : read_BBB (pack_BBB c ++ rest) = Some (c, rest).
Proof. destruct c as [[r g] b]. reflexivity. Qed.

Lemma f32_zero_ok : f32_ok f32_zero.
Proof. split; [unfold f32_zero; lia|reflexivity]. Qed.

Lemma read_records_rows rows :
  Forall row_ok rows ->
  read_records (length rows) (concat (map record_layout rows))
  = Some (cloud_of_rows rows).
Proof.
  induction 1 as [|r rows Hr _ IH]; [reflexivity|].
  destruct r as [[[[[p n] c] o] s] q].
  destruct Hr as (Hp & Hn & Ho & Hs & Hq).
  cbn [length map concat read_records]. unfold record_layout at 1.
  rewrite <- !app_assoc.
  rewrite (read_fff_pack _ _ Hp), (read_fff_pack _ _ Hn), read_BBB_pack,
    (read_f_pack _ _ Ho), (read_fff_pack _ _ Hs), (read_ffff_pack _ _ Hq), IH.
  reflexivity.
Qed.

Lemma rows_field {A} (proj : splat_record -> A) (arr : list A)
    (row : nat -> option splat_record) n rows :
  mapM row (seq 0 n) = Some rows ->
  length arr = n ->
  (forall i r, row i = Some r -> arr !! i = Some (proj r)) ->
  map proj rows = arr.
Proof.
  intros HM Hlen Hrow. apply list_eq. intros i. rewrite lookup_map_Some.
  destruct (rows !! i) as [r|] eqn:Hi; simpl.
  - symmetry. eapply Hrow, mapM_rows_lookup; eauto.
  - symmetry. apply lookup_ge_None. apply lookup_ge_None in Hi.
    apply mapM_rows_length in HM. lia.
Qed.

Lemma rows_normals (rows : list splat_record) :
  Forall (fun r => record_normal r = zero3) rows ->
  map record_normal rows = replicate (length rows) zero3.
Proof. induction 1 as [|r rows Hr _ IH]; simpl; congruence. Qed.

Lemma row_at_fields ps cs os ss rs i r :
  row_at ps cs os ss rs i = Some r ->
  exists v c o s q,
    r = (v, zero3, c, o, s, q)
    /\ ps !! i = Some v /\ cs !! i = Some c /\ os !! i = Some o
    /\ ss !! i = Some s /\ rs !! i = Some q.
Proof.
  unfold row_at. intros H.
  destruct (ps !! i) as [v|], (cs !! i) as [c|], (os !! i) as [o|],
    (ss !! i) as [s|], (rs !! i) as [q|]; try discriminate.
  injection H as <-. exists v, c, o, s, q. auto 10.
Qed.

(** The rows of a well-formed cloud, as the writing block forms them. *)
Lemma cloud_rows (p : PointCloud) :
  well_formed p ->
  exists rows,
    mapM (row_at (position p) (color p) (opacity p) (scale p) (rotation p))
      (seq 0 (count p)) = Some rows
    /\ Forall row_ok rows
    /\ cloud_of_rows rows = zero_normals p.
Proof.
  intros [Hn Hc Ho Hs Hr Fp Fn Fo Fs Fr].
  destruct (mapM_rows_total
              (row_at (position p) (color p) (opacity p) (scale p) (rotation p))
              (count p)) as [rows HM].
  { intros i Hi. unfold row_at, count in *.
    destruct (lookup_lt_is_Some_2 (position p) i) as [v ->]; [lia|].
    destruct (lookup_lt_is_Some_2 (color p) i) as [c ->]; [lia|].
    destruct (lookup_lt_is_Some_2 (opacity p) i) as [o ->]; [lia|].
    destruct (lookup_lt_is_Some_2 (scale p) i) as [s ->]; [lia|].
    destruct (lookup_lt_is_Some_2 (rotation p) i) as [q ->]; [lia|].
    eexists; reflexivity. }
  exists rows. split; [exact HM|]. split.
  - apply Forall_lookup. intros i r Hi.
    apply (mapM_rows_lookup _ _ _ _ _ HM) in Hi.
    destruct (row_at_fields _ _ _ _ _ _ _ Hi)
      as (v & c & o & s & q & -> & Hv & _ & Ho' & Hs' & Hq).
    unfold row_ok. split; [|split; [|split; [|split]]].
    + exact (proj1 (Forall_lookup _ _) Fp _ _ Hv).
    + exact (conj f32_zero_ok (conj f32_zero_ok f32_zero_ok)).
    + exact (proj1 (Forall_lookup _ _) Fo _ _ Ho').
    + exact (proj1 (Forall_lookup _ _) Fs _ _ Hs').
    + exact (proj1 (Forall_lookup _ _) Fr _ _ Hq).
  - unfold cloud_of_rows, zero_normals.
    rewrite rows_normals
      by (eapply mapM_rows_normal; [|exact HM]; intros; eapply row_at_normal; eauto).
    rewrite (mapM_rows_length _ _ _ HM).
    f_equal; eapply rows_field; try exact HM; try assumption; try reflexivity;
      intros i r Hi;
      destruct (row_at_fields _ _ _ _ _ _ _ Hi)
        as (v & c & o & s & q & -> & Hv & Hc' & Ho' & Hs' & Hq);
      assumption.
Qed.

(** The writing block on a well-formed cloud, and the reader on its
    output. *)
Lemma write_then_read (p : PointCloud) :
  well_formed p ->
  exists bytes,
    Write p = (bytes, Ok tt)
    /\ length bytes
       = length (encode_ascii (header (count p))) + count p * record_size
    /\ Read bytes = ReadOk (zero_normals p).
Proof.
  intros Hwf. destruct (cloud_rows p Hwf) as (rows & HM & Hok & Hcl).
  pose proof (write_splats_rows (count p) (position p) (color p) (opacity p)
                (scale p) (rotation p)) as Hw.
  rewrite HM in Hw. pose proof (mapM_rows_length _ _ _ HM) as Hlen.
  eexists. split; [exact Hw|]. split.
  - rewrite length_app, concat_layout_length, Hlen. reflexivity.
  - unfold Read. rewrite parse_header_written.
    rewrite concat_layout_length, Hlen, Nat.eqb_refl. simpl negb. cbv iota.
    rewrite <- Hlen at 1. rewrite (read_records_rows _ Hok), Hcl. reflexivity.
Qed.

End ReadBack.

(** * The serialiser: claims *)

Section SerialiserClaims.
Import Ply PlyReader Rows.

Lemma f32_ok_const w :
  ((0 <=? w) && (w <? 2 ^ 32))%Z && negb (f32_is_nan w) = true -> f32_ok w.
Proof.
  intros H. apply andb_true_iff in H as [H Hn].
  apply andb_true_iff in H as [H1 H2].
  apply Z.leb_le in H1. apply Z.ltb_lt in H2. apply negb_true_iff in Hn.
  split; [lia|exact Hn].
Qed.

Lemma cloud1_well_formed : well_formed Samples.cloud1.
Proof.
  split; try reflexivity; repeat constructor; apply f32_ok_const; reflexivity.
Qed.

Lemma cloud1_valid : valid Samples.cloud1.
Proof.
  split; [exact cloud1_well_formed|].
  repeat constructor; unfold f32_one; lia.
Qed.

Lemma cloud1_flat_valid : valid Samples.cloud1_flat.
Proof.
  split.
  - split; try reflexivity; repeat constructor; apply f32_ok_const; reflexivity.
  - repeat constructor; unfold f32_one; lia.
Qed.

(** C1, as stated, fails: the cloud [cloud1] is valid, the writing block
    of [_export_to_ply] accepts it, and the reader of the specification
    does not return it from the bytes written, because the file holds a
    zero normal where the cloud has [(0.0, 0.0, 1.0)].  No reader could do
    better: the valid cloud [cloud1_flat] differs from [cloud1] and is
    written to the very same bytes. *)
Lemma C1_counterexample :
  valid Samples.cloud1
  /\ (exists bytes,
         Write Samples.cloud1 = (bytes, Ok tt)
         /\ Read bytes <> ReadOk Samples.cloud1)
  /\ valid Samples.cloud1_flat
  /\ Samples.cloud1_flat <> Samples.cloud1
  /\ Write Samples.cloud1_flat = Write Samples.cloud1.
Proof.
  split; [exact cloud1_valid|]. split; [|split; [exact cloud1_flat_valid|split]].
  - destruct (write_then_read _ cloud1_well_formed) as (bytes & Hw & _ & Hr).
    exists bytes. split; [exact Hw|]. rewrite Hr. intros H.
    assert (Hn : normal (zero_normals Samples.cloud1) = normal Samples.cloud1)
      by congruence.
    vm_compute in Hn. discriminate Hn.
  - intros H. apply (f_equal normal) in H. vm_compute in H. discriminate H.
  - reflexivity.
Qed.

(** C1, amended: for every point cloud whose arrays all have length
    [count] and whose floats are non-NaN [float32] values, the writing
    block succeeds and reading its bytes back returns the cloud with
    every normal replaced by [(0.0, 0.0, 0.0)]: positions, opacities,
    scales and rotations come back bit for bit and colours byte for byte.
    The cloud itself comes back exactly when its normals are all zero. *)
Theorem C1_roundtrip_except_normals (p : PointCloud) :
  well_formed p ->
  exists bytes,
    Write p = (bytes, Ok tt)
    /\ Read bytes = ReadOk (zero_normals p)
    /\ (normal p = replicate (count p) zero3 -> Read bytes = ReadOk p).
Proof.
  intros Hwf. destruct (write_then_read p Hwf) as (bytes & Hw & _ & Hr).
  exists bytes. split; [exact Hw|]. split; [exact Hr|].
  intros Hn. rewrite Hr. f_equal. destruct p as [ps ns cs os ss rs].
  unfold zero_normals, count in *. simpl in *. now rewrite Hn.
Qed.

Lemma C1_roundtrip_witness :
  well_formed Samples.cloud1
  /\ exists bytes,
       Write Samples.cloud1 = (bytes, Ok tt)
       /\ Read bytes = ReadOk (zero_normals Samples.cloud1)
       /\ (normal Samples.cloud1 = replicate (count Samples.cloud1) zero3 ->
           Read bytes = ReadOk Samples.cloud1).
Proof.
  split; [exact cloud1_well_formed|].
  apply (C1_roundtrip_except_normals Samples.cloud1). exact cloud1_well_formed.
Defined.

(** The fields of a record and their sizes. *)
Lemma record_fields pos nrm col opa sca rot :
  record_layout (pos, nrm, col, opa, sca, rot)
  = pack_fff pos ++ pack_fff nrm ++ pack_BBB col ++ pack_f opa
    ++ pack_fff sca ++ pack_ffff rot
  /\ length (pack_fff pos) = 12 /\ length (pack_fff nrm) = 12
  /\ length (pack_BBB col) = 3 /\ length (pack_f opa) = 4
  /\ length (pack_fff sca) = 12 /\ length (pack_ffff rot) = 16.
Proof.
  repeat split; auto using pack_fff_length, pack_BBB_length, pack_f_length,
    pack_ffff_length.
Qed.

(** C2: whenever [ShapEModel._export_to_ply] or
    [GaussianDreamerModel._export_gaussians] returns, the file at the
    output path is the ASCII header followed by one record per point;
    record [i] is the position, three zero floats, the colour, the
    opacity, the scale and the rotation of point [i], in that order, of
    12, 12, 3, 4, 12 and 16 bytes; and the file size is the header length
    plus 59 times the number of points. *)
Theorem C2_header_then_fixed_records :
  (forall color_stage scale_stage mesh path files files',
      ShapE._export_to_ply color_stage scale_stage mesh path files
      = (files', Ok tt) ->
      let n := length (ShapE.verts mesh) in
      exists rows file,
        files' !! path = Some file
        /\ file = encode_ascii (header n) ++ concat (map record_layout rows)
        /\ length rows = n
        /\ (forall i r, rows !! i = Some r ->
              exists v c s,
                ShapE.verts mesh !! i = Some v
                /\ r = (v, zero3, c, f32_0_95, s, identity_quat))
        /\ length file = length (encode_ascii (header n)) + n * 59)
  /\ (forall to_uint8 g path files files',
        GaussianDreamer._export_gaussians to_uint8 g path files
        = (files', Ok tt) ->
        let n := length (GaussianDreamer.xyz g) in
        exists rows file,
          files' !! path = Some file
          /\ file = encode_ascii (header n) ++ concat (map record_layout rows)
          /\ length rows = n
          /\ (forall i r, rows !! i = Some r ->
                exists v c o s q,
                  GaussianDreamer.xyz g !! i = Some v
                  /\ GaussianDreamer.features_dc g !! i = Some c
                  /\ GaussianDreamer.opacity g !! i = Some o
                  /\ GaussianDreamer.scaling g !! i = Some s
                  /\ GaussianDreamer.rotation g !! i = Some q
                  /\ r = (v, zero3, GaussianDreamer.quantise to_uint8 c, o, s, q))
          /\ length file = length (encode_ascii (header n)) + n * 59)
  /\ (forall pos nrm col opa sca rot,
        record_layout (pos, nrm, col, opa, sca, rot)
        = pack_fff pos ++ pack_fff nrm ++ pack_BBB col ++ pack_f opa
          ++ pack_fff sca ++ pack_ffff rot
        /\ length (pack_fff pos) = 12 /\ length (pack_fff nrm) = 12
        /\ length (pack_BBB col) = 3 /\ length (pack_f opa) = 4
        /\ length (pack_fff sca) = 12 /\ length (pack_ffff rot) = 16).
Proof.
  split; [|split; [|exact record_fields]].
  - intros color_stage scale_stage mesh path files files' H n.
    destruct (export_to_ply_returns _ _ _ _ _ _ H)
      as (cs & scale_row & rows & Hn & _ & _ & HM & ->).
    fold n in HM. pose proof (mapM_rows_length _ _ _ HM) as Hlen.
    exists rows. eexists. split; [apply lookup_insert_eq|].
    split; [reflexivity|]. split; [exact Hlen|]. split.
    + intros i r Hi. apply (mapM_rows_lookup _ _ _ _ _ HM) in Hi.
      destruct (shap_e_row_Some _ _ _ _ _ Hi) as (v & c & Hv & _ & ->).
      eauto.
    + rewrite length_app, concat_layout_length, Hlen. reflexivity.
  - intros to_uint8 g path files files' H n.
    pose proof (export_gaussians_outcome to_uint8 g path files) as Hout.
    cbv zeta in Hout. fold n in Hout.
    destruct (mapM (gaussian_row to_uint8 g) (seq 0 n)) as [rows|] eqn:HM.
    2:{ destruct Hout as (f' & e & Hout). rewrite Hout in H. discriminate. }
    rewrite Hout in H. apply (f_equal fst) in H. cbn [fst] in H.
    subst files'.
    pose proof (mapM_rows_length _ _ _ HM) as Hlen.
    exists rows. eexists. split; [apply lookup_insert_eq|].
    split; [reflexivity|]. split; [exact Hlen|]. split.
    + intros i r Hi. apply (mapM_rows_lookup _ _ _ _ _ HM) in Hi.
      unfold gaussian_row in Hi.
      destruct (row_at_fields _ _ _ _ _ _ _ Hi)
        as (v & c & o & s & q & -> & Hv & Hc & Ho & Hs & Hq).
      rewrite lookup_map_Some in Hc.
      destruct (GaussianDreamer.features_dc g !! i) as [c0|] eqn:Hc0;
        [|discriminate].
      injection Hc as <-. exists v, c0, o, s, q. auto 10.
    + rewrite length_app, concat_layout_length, Hlen. reflexivity.
Qed.

Lemma C2_witness :
  ShapE._export_to_ply Samples.color_stage Samples.scale_stage Samples.mesh2
    "out.ply" ∅
  = ((ShapE._export_to_ply Samples.color_stage Samples.scale_stage
        Samples.mesh2 "out.ply" ∅).1, Ok tt)
  /\ exists rows file,
       (ShapE._export_to_ply Samples.color_stage Samples.scale_stage
          Samples.mesh2 "out.ply" ∅).1 !! "out.ply" = Some file
       /\ file = encode_ascii (header 2) ++ concat (map record_layout rows)
       /\ length rows = 2
       /\ (forall i r, rows !! i = Some r ->
             exists v c s,
               ShapE.verts Samples.mesh2 !! i = Some v
               /\ r = (v, zero3, c, f32_0_95, s, identity_quat))
       /\ length file = length (encode_ascii (header 2)) + 2 * 59.
Proof.
  assert (H : ShapE._export_to_ply Samples.color_stage Samples.scale_stage
                Samples.mesh2 "out.ply" ∅
              = ((ShapE._export_to_ply Samples.color_stage Samples.scale_stage
                    Samples.mesh2 "out.ply" ∅).1, Ok tt))
    by (vm_compute; reflexivity).
  split; [exact H|].
  exact (proj1 C2_header_then_fixed_records _ _ _ _ _ _ H).
Defined.

(** C7, as stated, fails on the path it cites: for a mesh without
    vertices [ShapEModel._export_to_ply] raises [ValueError] at its guard
    and creates no file. *)
Lemma C7_counterexample :
  length (ShapE.verts Samples.empty_mesh) = 0
  /\ ShapE._export_to_ply Samples.color_stage Samples.scale_stage
       Samples.empty_mesh "out.ply" ∅
     = (∅, Raise (PyExc ValueError "Mesh has no vertices!"))
  /\ (∅ : fs) !! "out.ply" = None.
Proof. split; [reflexivity|]. split; reflexivity. Qed.

(** C7, amended: with no points, [ShapEModel._export_to_ply] raises
    [ValueError("Mesh has no vertices!")] and leaves the file system as
    it was, whatever its stages would do; the writing block itself and
    [GaussianDreamerModel._export_gaussians] succeed and produce exactly
    the header bytes, of the header length, and no record. *)
Theorem C7_zero_points :
  (forall color_stage scale_stage mesh path files,
      ShapE.verts mesh = [] ->
      ShapE._export_to_ply color_stage scale_stage mesh path files
      = (files, Raise (PyExc ValueError "Mesh has no vertices!")))
  /\ (forall cs os ss rs,
        ShapE.write_splats 0 [] cs os ss rs []
        = (encode_ascii (header 0), Ok tt))
  /\ (forall to_uint8 g path files,
        GaussianDreamer.xyz g = [] ->
        GaussianDreamer._export_gaussians to_uint8 g path files
        = (<[path := encode_ascii (header 0)]> files, Ok tt)
        /\ length (encode_ascii (header 0)) + 0 * record_size
           = length (encode_ascii (header 0))).
Proof.
  split; [|split].
  - intros color_stage scale_stage mesh path files Hv.
    unfold ShapE._export_to_ply. rewrite Hv. reflexivity.
  - intros. reflexivity.
  - intros to_uint8 g path files Hv. split; [|lia].
    unfold GaussianDreamer._export_gaussians. rewrite Hv. reflexivity.
Qed.

Lemma C7_witness :
  (ShapE.verts Samples.empty_mesh = []
   /\ ShapE._export_to_ply Samples.color_stage Samples.scale_stage
        Samples.empty_mesh "out.ply" ∅
      = (∅, Raise (PyExc ValueError "Mesh has no vertices!")))
  /\ (GaussianDreamer.xyz Samples.no_gaussians = []
      /\ GaussianDreamer._export_gaussians Samples.to_uint8
           Samples.no_gaussians "out.ply" ∅
         = (<["out.ply" := encode_ascii (header 0)]> ∅, Ok tt)).
Proof.
  split; (split; [reflexivity|]).
  - apply (proj1 C7_zero_points). reflexivity.
  - apply (proj2 (proj2 C7_zero_points)). reflexivity.
Defined.

(** C10: in the file every writer leaves, the twelve bytes of the normal
    of every record, at offset 12 of the record, are zero, whatever the
    input holds: for [ShapEModel._export_to_ply] and
    [GaussianDreamerModel._export_gaussians] whenever they return, for
    [_generate_placeholder_ply] always. *)
Theorem C10_normals_written_as_zero :
  (forall color_stage scale_stage mesh path files files',
      ShapE._export_to_ply color_stage scale_stage mesh path files
      = (files', Ok tt) ->
      let n := length (ShapE.verts mesh) in
      exists file,
        files' !! path = Some file
        /\ forall i, i < n ->
             take 12 (drop (length (encode_ascii (header n)) + 59 * i + 12) file)
             = replicate 12 Byte.x00)
  /\ (forall to_uint8 g path files files',
        GaussianDreamer._export_gaussians to_uint8 g path files
        = (files', Ok tt) ->
        let n := length (GaussianDreamer.xyz g) in
        exists file,
          files' !! path = Some file
          /\ forall i, i < n ->
               take 12 (drop (length (encode_ascii (header n)) + 59 * i + 12) file)
               = replicate 12 Byte.x00)
  /\ (forall sphere_point variation path prompt files,
        let n := Placeholder.num_points in
        exists file,
          (Placeholder._generate_placeholder_ply sphere_point variation path
             prompt files).1 !! path = Some file
          /\ forall i, i < n ->
               take 12 (drop (length (encode_ascii (header n)) + 59 * i + 12) file)
               = replicate 12 Byte.x00)
  /\ pack_fff (f32_zero, f32_zero, f32_zero) = replicate 12 Byte.x00.
Proof.
  split; [|split; [|split; [|exact pack_zero3]]].
  - intros color_stage scale_stage mesh path files files' H n.
    destruct (export_to_ply_returns _ _ _ _ _ _ H)
      as (cs & scale_row & rows & Hn & _ & _ & HM & ->).
    fold n in HM. pose proof (mapM_rows_length _ _ _ HM) as Hlen.
    eexists. split; [apply lookup_insert_eq|]. intros i Hi.
    apply (normal_bytes_zero _ rows i); [|lia].
    eapply mapM_rows_normal; [|exact HM].
    intros j r Hj. unfold shap_e_row in Hj. eapply row_at_normal; eauto.
  - intros to_uint8 g path files files' H n.
    pose proof (export_gaussians_outcome to_uint8 g path files) as Hout.
    cbv zeta in Hout. fold n in Hout.
    destruct (mapM (gaussian_row to_uint8 g) (seq 0 n)) as [rows|] eqn:HM.
    2:{ destruct Hout as (f' & e & Hout). rewrite Hout in H. discriminate. }
    rewrite Hout in H. apply (f_equal fst) in H. cbn [fst] in H.
    subst files'.
    pose proof (mapM_rows_length _ _ _ HM) as Hlen.
    eexists. split; [apply lookup_insert_eq|]. intros i Hi.
    apply (normal_bytes_zero _ rows i); [|lia].
    eapply mapM_rows_normal; [|exact HM].
    intros j r Hj. unfold gaussian_row in Hj. eapply row_at_normal; eauto.
  - intros sphere_point variation path prompt files n.
    rewrite placeholder_outcome. cbn [fst].
    eexists. split; [apply lookup_insert_eq|]. intros i Hi.
    apply (normal_bytes_zero _ _ i).
    + apply Forall_forall. intros r Hr. apply list_elem_of_In in Hr.
      apply in_map_iff in Hr as (j & <- & _). reflexivity.
    + rewrite length_map, length_seq. exact Hi.
Qed.

Lemma C10_witness :
  ShapE._export_to_ply Samples.color_stage Samples.scale_stage Samples.mesh2
    "out.ply" ∅
  = ((ShapE._export_to_ply Samples.color_stage Samples.scale_stage
        Samples.mesh2 "out.ply" ∅).1, Ok tt)
  /\ exists file,
       (ShapE._export_to_ply Samples.color_stage Samples.scale_stage
          Samples.mesh2 "out.ply" ∅).1 !! "out.ply" = Some file
       /\ forall i, i < 2 ->
            take 12 (drop (length (encode_ascii (header 2)) + 59 * i + 12) file)
            = replicate 12 Byte.x00.
Proof.
  assert (H : ShapE._export_to_ply Samples.color_stage Samples.scale_stage
                Samples.mesh2 "out.ply" ∅
              = ((ShapE._export_to_ply Samples.color_stage Samples.scale_stage
                    Samples.mesh2 "out.ply" ∅).1, Ok tt))
    by (vm_compute; reflexivity).
  split; [exact H|].
  exact (proj1 C10_normals_written_as_zero _ _ _ _ _ _ H).
Defined.

End SerialiserClaims.

(** * The API: claims *)

Section ApiClaims.
Import Celery Api.

Lemma guidance_check (g : pyfloat) :
  pyfloat_le (Finite 1) g && pyfloat_le g (Finite 30) = true
  <-> guidance_in_bounds g.
Proof.
  unfold guidance_in_bounds. destruct g as [q| | |]; simpl.
  - rewrite andb_true_iff, !Qle_bool_iff. split.
    + intros [H1 H2]. exists q. auto.
    + intros (q' & [= <-] & H1 & H2). auto.
  - split; [discriminate|]. intros (q & [=] & _).
  - split; [discriminate|]. intros (q & [=] & _).
  - split; [discriminate|]. intros (q & [=] & _).
Qed.

Lemma steps_check (n : Z) :
  (16 <=? n)%Z && (n <=? 256)%Z = true <-> steps_in_bounds n.
Proof. unfold steps_in_bounds. rewrite andb_true_iff, !Z.leb_le. tauto. Qed.

(** What [validate] accepts and what it rejects. *)
Lemma validate_outcome (raw : RawRequest) :
  let g := default (Finite 15) (raw_guidance_scale raw) in
  let n := default 64%Z (raw_num_inference_steps raw) in
  match raw_prompt raw with
  | Some p =>
      if pyfloat_le (Finite 1) g && pyfloat_le g (Finite 30)
         && ((16 <=? n)%Z && (n <=? 256)%Z)
      then validate raw
           = Ok {| prompt := p; model := default "shap_e" (raw_model raw);
                   guidance_scale := g; num_inference_steps := n |}
      else exists e, validate raw = Raise e
  | None => exists e, validate raw = Raise e
  end.
Proof.
  intros g n. unfold validate. fold g n.
  destruct (raw_prompt raw) as [p|]; [|eauto].
  destruct (pyfloat_le (Finite 1) g); simpl; [|eauto].
  destruct (pyfloat_le g (Finite 30)); simpl; [|eauto].
  destruct (16 <=? n)%Z; simpl; [|eauto].
  destruct (n <=? 256)%Z; simpl; eauto.
Qed.

(** C3, as stated, fails: a request whose model name no registry holds
    passes validation; the handler enqueues it and answers
    ["submitted"]. *)
Lemma C3_counterexample :
  (Worker.init_models "cpu" Samples.good_env).1 !! "nonexistent" = None
  /\ post_generate "job-1" Samples.raw_unknown_model Samples.empty_broker
     = (Broker true
          [Message "job-1" "a red sports car" "nonexistent" (Finite 15) 64]
          [] ∅,
        Http200 {| jr_job_id := "job-1"; jr_status := "submitted";
                   jr_message := Some "Job submitted for model 'nonexistent'" |}).
Proof. split; vm_compute; reflexivity. Qed.

(** C3, amended: a request whose guidance scale is outside [1.0, 30.0],
    whose step count is outside [16, 256] or that has no prompt is answered
    with the validation error 422 and the broker is left as it was, so no
    job is created or enqueued; this holds in particular for
    [guidance_scale = 0.5].  The model name is not checked at submission:
    a request within the bounds with a non-empty prompt is enqueued under
    its fresh id whatever its model name, and the worker resolves the name
    when it runs the job. *)
Theorem C3_bounds_checked_before_enqueue :
  (forall uuid raw b,
      ~ guidance_in_bounds (default (Finite 15) (raw_guidance_scale raw))
      \/ ~ steps_in_bounds (default 64%Z (raw_num_inference_steps raw))
      \/ raw_prompt raw = None ->
      exists detail, post_generate uuid raw b = (b, HttpError 422 detail))
  /\ (forall uuid raw b,
        raw_guidance_scale raw = Some (Finite (1 # 2)) ->
        exists detail, post_generate uuid raw b = (b, HttpError 422 detail))
  /\ (forall uuid raw b p,
        raw_prompt raw = Some p -> p <> "" ->
        guidance_in_bounds (default (Finite 15) (raw_guidance_scale raw)) ->
        steps_in_bounds (default 64%Z (raw_num_inference_steps raw)) ->
        reachable b = true ->
        post_generate uuid raw b
        = (Broker true
             (queue b
              ++ [Message uuid p (default "shap_e" (raw_model raw))
                    (default (Finite 15) (raw_guidance_scale raw))
                    (default 64%Z (raw_num_inference_steps raw))])
             (backend b) (revoked b),
           Http200 {| jr_job_id := uuid; jr_status := "submitted";
                      jr_message :=
                        Some ("Job submitted for model '"
                              +:+ default "shap_e" (raw_model raw) +:+ "'") |})).
Proof.
  assert (Hreject : forall uuid raw b,
             ~ guidance_in_bounds (default (Finite 15) (raw_guidance_scale raw))
             \/ ~ steps_in_bounds (default 64%Z (raw_num_inference_steps raw))
             \/ raw_prompt raw = None ->
             exists detail, post_generate uuid raw b = (b, HttpError 422 detail)).
  { intros uuid raw b H. unfold post_generate.
    pose proof (validate_outcome raw) as Hv. cbv zeta in Hv.
    destruct (raw_prompt raw) as [p|] eqn:Hp.
    - destruct (pyfloat_le (Finite 1) _ && pyfloat_le _ (Finite 30)
                && ((16 <=? _)%Z && (_ <=? 256)%Z)) eqn:Hb.
      + apply andb_true_iff in Hb as [Hg Hn].
        apply guidance_check in Hg. apply steps_check in Hn.
        destruct H as [H|[H|H]]; [contradiction|contradiction|discriminate].
      + destruct Hv as [e ->]. eauto.
    - destruct Hv as [e ->]. eauto. }
  split; [exact Hreject|]. split.
  - intros uuid raw b Hg. apply Hreject. left. rewrite Hg. simpl.
    intros (q & [= <-] & H1 & _). unfold Qle in H1. simpl in H1. lia.
  - intros uuid raw b p Hp Hne Hg Hn Hr. unfold post_generate.
    pose proof (validate_outcome raw) as Hv. cbv zeta in Hv. rewrite Hp in Hv.
    apply guidance_check in Hg. apply steps_check in Hn. rewrite Hg, Hn in Hv.
    simpl in Hv. rewrite Hv.
    unfold generate, respond, m_bind, send_task, m_ret. simpl. rewrite Hr.
    reflexivity.
Qed.

Lemma C3_witness :
  (~ guidance_in_bounds
       (default (Finite 15) (raw_guidance_scale Samples.raw_low_guidance))
   \/ ~ steps_in_bounds
         (default 64%Z (raw_num_inference_steps Samples.raw_low_guidance))
   \/ raw_prompt Samples.raw_low_guidance = None)
  /\ exists detail,
       post_generate "job-1" Samples.raw_low_guidance Samples.empty_broker
       = (Samples.empty_broker, HttpError 422 detail).
Proof.
  assert (H : ~ guidance_in_bounds
                  (default (Finite 15)
                     (raw_guidance_scale Samples.raw_low_guidance))).
  { simpl. intros (q & Hq & H1 & _). injection Hq as <-.
    unfold Qle in H1. simpl in H1. lia. }
  split; [left; exact H|].
  apply (proj1 C3_bounds_checked_before_enqueue). left. exact H.
Defined.

(** The store after one more write. *)
Lemma replay_snoc log ev : replay (log ++ [ev]) = apply_event (replay log) ev.
Proof. unfold replay. rewrite fold_left_app. reflexivity. Qed.

Lemma replay_set id m log : replay (log ++ [SetMeta id m]) !! id = Some m.
Proof. rewrite replay_snoc. simpl. apply lookup_insert_eq. Qed.

Lemma replay_expire id log : replay (log ++ [Expire id]) !! id = None.
Proof. rewrite replay_snoc. simpl. apply lookup_delete_eq. Qed.

Lemma replay_other id ev log :
  event_key ev <> id -> replay (log ++ [ev]) !! id = replay log !! id.
Proof.
  intros Hne. rewrite replay_snoc. destruct ev as [k m|k]; simpl in *.
  - apply lookup_insert_ne. exact Hne.
  - apply lookup_delete_ne. exact Hne.
Qed.

(** An id no write mentions has no entry. *)
Lemma replay_fresh id log :
  Forall (fun ev => event_key ev <> id) log -> replay log !! id = None.
Proof.
  induction log as [|ev log IH] using rev_ind; intros H.
  - reflexivity.
  - apply Forall_app in H as [Hlog Hev]. apply Forall_cons in Hev as [Hev _].
    rewrite replay_other by exact Hev. apply IH, Hlog.
Qed.

(** Writes under other ids do not disturb an id. *)
Lemma replay_app_other id log later :
  Forall (fun ev => event_key ev <> id) later ->
  replay (log ++ later) !! id = replay log !! id.
Proof.
  induction later as [|ev later IH] using rev_ind; intros H.
  - rewrite app_nil_r. reflexivity.
  - apply Forall_app in H as [Hl Hev]. apply Forall_cons in Hev as [Hev _].
    rewrite app_assoc, replay_other by exact Hev. apply IH, Hl.
Qed.

Lemma m_bind_Ok {S A B} (m : M S A) (k : A -> M S B) s s' a :
  m s = (s', Ok a) -> m_bind m k s = k a s'.
Proof. unfold m_bind. intros ->. reflexivity. Qed.

Lemma result_state_ok id b :
  reachable b = true ->
  result_state id b
  = (b, Ok (r_state (default (TaskMeta PENDING InfoNone)
                       (replay (backend b) !! id)))).
Proof.
  intros Hr. unfold result_state, m_bind, get_task_meta, m_ret. rewrite Hr.
  reflexivity.
Qed.

Lemma result_info_ok id b :
  reachable b = true ->
  result_info id b
  = (b, Ok (r_info (default (TaskMeta PENDING InfoNone)
                      (replay (backend b) !! id)))).
Proof.
  intros Hr. unfold result_info, m_bind, get_task_meta, m_ret. rewrite Hr.
  reflexivity.
Qed.

Ltac read_step Hr Hm :=
  first [ erewrite m_bind_Ok by (apply result_state_ok, Hr)
        | erewrite m_bind_Ok by (apply result_info_ok, Hr)
        | erewrite m_bind_Ok by reflexivity ];
  rewrite ?Hm; cbn [r_state r_info truthy is_dict info_get];
  try first [ rewrite decide_True by reflexivity
            | rewrite decide_False by discriminate ].

(** With the broker reachable and nothing written during the call, every
    access of [get_status] sees the same metadata. *)
Lemma get_status_reachable repr id b :
  reachable b = true ->
  get_status repr id b
  = (b, Http200 (status_response repr id
                   (default (TaskMeta PENDING InfoNone)
                      (replay (backend b) !! id)))).
Proof.
  intros Hr. unfold get_status, respond, get_status_body.
  destruct (default _ _) as [st i] eqn:Hm.
  destruct st; repeat read_step Hr Hm; try reflexivity.
  destruct i as [|d|e]; cbn [truthy]; repeat read_step Hr Hm;
    try reflexivity.
  unfold status_response. cbn [r_state r_info].
  destruct (decide (d = ∅)) as [->|Hd].
  - rewrite bool_decide_eq_true_2 by reflexivity. reflexivity.
  - rewrite bool_decide_eq_false_2 by exact Hd. cbn [negb].
    repeat read_step Hr Hm. reflexivity.
Qed.

Lemma get_status_unreachable repr id b :
  reachable b = false ->
  get_status repr id b = (b, HttpError 500 (str_exc connection_error)).
Proof.
  intros Hr. unfold get_status, respond, get_status_body.
  cbv [m_bind result_state get_task_meta]. rewrite Hr. reflexivity.
Qed.

(** [get_status] is the handler over the accesses [result.state] and
    [result.info] of Celery. *)
Lemma get_status_body_reading repr id :
  get_status_body repr id
  = get_status_reading repr (result_state id) (result_info id) id.
Proof. reflexivity. Qed.

Lemma deliver_nil b : deliver [] b = b.
Proof. destruct b. unfold deliver. cbn. rewrite app_nil_r. reflexivity. Qed.

(** A read of the store into which nothing arrives, and an access served
    from what the result object kept. *)
Lemma fetch_quiet id b :
  reachable b = true ->
  let r := default (TaskMeta PENDING InfoNone) (replay (backend b) !! id) in
  fetch id (Serving b [] None)
  = (Serving b [] (if ready (r_state r) then Some r else None), Ok r).
Proof.
  intros Hr r. unfold fetch. cbn [kept arriving at_broker hd tl].
  rewrite deliver_nil. unfold get_task_meta. rewrite Hr. reflexivity.
Qed.

Lemma fetch_kept id b evs r :
  fetch id (Serving b evs (Some r)) = (Serving b evs (Some r), Ok r).
Proof. reflexivity. Qed.

Ltac quiet_step Hf :=
  first [ erewrite m_bind_Ok
            by (erewrite m_bind_Ok by first [exact Hf|apply fetch_kept];
                reflexivity)
        | erewrite m_bind_Ok by reflexivity ];
  cbn [r_state r_info truthy is_dict info_get ready];
  try first [ rewrite decide_True by reflexivity
            | rewrite decide_False by discriminate ].

(** When nothing reaches the store during the call, the handler served
    while the worker runs answers as [get_status] does. *)
Lemma get_status_serving_quiet repr id b :
  (get_status_serving repr id (Serving b [] None)).2
  = (get_status repr id b).2.
Proof.
  destruct (reachable b) eqn:Hr.
  2:{ rewrite get_status_unreachable by exact Hr.
      unfold get_status_serving, respond, get_status_reading.
      unfold m_bind at 1 2, fetch. cbn [kept arriving at_broker hd tl].
      rewrite deliver_nil. unfold get_task_meta. rewrite Hr. reflexivity. }
  rewrite get_status_reachable by exact Hr. cbn [snd].
  pose proof (fetch_quiet id b Hr) as Hf. cbv zeta in Hf.
  unfold get_status_serving, respond, get_status_reading.
  destruct (default _ _) as [st i] eqn:Hm. cbn [r_state r_info] in Hf.
  destruct st; cbn [ready] in Hf; repeat quiet_step Hf; try reflexivity.
  destruct i as [|d|e]; cbn [truthy]; repeat quiet_step Hf; try reflexivity.
  unfold status_response. cbn [r_state r_info].
  destruct (decide (d = ∅)) as [->|Hd].
  - rewrite bool_decide_eq_true_2 by reflexivity. reflexivity.
  - rewrite bool_decide_eq_false_2 by exact Hd. cbn [negb].
    repeat quiet_step Hf. reflexivity.
Qed.

(** C4, as stated, fails: on a broker that never saw it, the status of an
    id is answered with 200 and a [PENDING] snapshot; so is the status of
    an id whose result has expired. *)
Lemma C4_counterexample :
  queue Samples.empty_broker = []
  /\ get_status Samples.repr_dict "never-assigned" Samples.empty_broker
     = (Samples.empty_broker,
        Http200 {| job_id := "never-assigned"; status := PENDING;
                   progress := None; message := Some (VStr "Job is queued");
                   result := None; error := None |})
  /\ (get_status Samples.repr_dict "old"
        (Broker true []
           [SetMeta "old" (TaskMeta SUCCESS (InfoDict ∅)); Expire "old"] ∅)).2
     = Http200 {| job_id := "old"; status := PENDING;
                  progress := None; message := Some (VStr "Job is queued");
                  result := None; error := None |}.
Proof. split; [reflexivity|]. split; vm_compute; reflexivity. Qed.

(** C4, amended: for every job id the result store has no entry for,
    which is the case of an id no write mentions and of an id whose entry
    has expired, [get_status] answers 200 with status [PENDING] and the
    message ["Job is queued"]; it has no not-found answer: its only error
    is the 500 of an unreachable broker. *)
Theorem C4_unknown_id_reads_pending :
  (forall repr id b,
      reachable b = true ->
      replay (backend b) !! id = None ->
      get_status repr id b
      = (b, Http200 {| job_id := id; status := PENDING; progress := None;
                       message := Some (VStr "Job is queued");
                       result := None; error := None |}))
  /\ (forall id log,
        Forall (fun ev => event_key ev <> id) log -> replay log !! id = None)
  /\ (forall id log, replay (log ++ [Expire id]) !! id = None)
  /\ (forall repr id b b' code detail,
        get_status repr id b = (b', HttpError code detail) ->
        code = 500 /\ reachable b = false).
Proof.
  split; [|split; [exact replay_fresh|split; [exact replay_expire|]]].
  - intros repr id b Hr Hnone. rewrite get_status_reachable by exact Hr.
    rewrite Hnone. reflexivity.
  - intros repr id b b' code detail H.
    destruct (reachable b) eqn:Hr.
    + rewrite get_status_reachable in H by exact Hr. discriminate.
    + rewrite get_status_unreachable in H by exact Hr.
      injection H as _ <- _. auto.
Qed.

Lemma C4_witness :
  (reachable Samples.empty_broker = true
   /\ replay (backend Samples.empty_broker) !! "never-assigned" = None)
  /\ get_status Samples.repr_dict "never-assigned" Samples.empty_broker
     = (Samples.empty_broker,
        Http200 {| job_id := "never-assigned"; status := PENDING;
                   progress := None; message := Some (VStr "Job is queued");
                   result := None; error := None |}).
Proof.
  split; [split; reflexivity|].
  apply (proj1 C4_unknown_id_reads_pending); reflexivity.
Defined.

(** C6, as stated, fails: cancelling an id the broker never saw is
    answered with 200 and ["cancelled"], and the id joins the revoked
    set. *)
Lemma C6_counterexample :
  queue Samples.empty_broker = []
  /\ replay (backend Samples.empty_broker) !! "unknown" = None
  /\ (cancel_job "unknown" Samples.empty_broker).2
     = Http200 ("unknown", "cancelled")
  /\ "unknown" ∈ revoked (cancel_job "unknown" Samples.empty_broker).1.
Proof.
  split; [reflexivity|]. split; [reflexivity|]. split; [reflexivity|].
  simpl. set_solver.
Qed.

(** C6, amended: [cancel_job] never answers not-found.  On a reachable
    broker it answers 200 with [{job_id, status: "cancelled"}] for every
    id, known or not, and adds the id to the revoked set; it never touches
    the queue or the result store, so the snapshot of a job already in a
    terminal state reads the same before and after.  Its only error is the
    500 of an unreachable broker. *)
Theorem C6_cancel_never_not_found :
  (forall id b,
      reachable b = true ->
      cancel_job id b
      = (Broker true (queue b) (backend b) ({[id]} ∪ revoked b),
         Http200 (id, "cancelled")))
  /\ (forall id b,
        backend (cancel_job id b).1 = backend b
        /\ queue (cancel_job id b).1 = queue b
        /\ reachable (cancel_job id b).1 = reachable b)
  /\ (forall repr id id' b,
        (get_status repr id' (cancel_job id b).1).2 = (get_status repr id' b).2)
  /\ (forall id b b' code detail,
        cancel_job id b = (b', HttpError code detail) ->
        code = 500 /\ reachable b = false).
Proof.
  assert (Hsame : forall id b,
             backend (cancel_job id b).1 = backend b
             /\ queue (cancel_job id b).1 = queue b
             /\ reachable (cancel_job id b).1 = reachable b).
  { intros id b. unfold cancel_job, respond, m_bind, revoke, m_ret.
    destruct (reachable b) eqn:Hr; simpl; auto. }
  split; [|split; [exact Hsame|split]].
  - intros id b Hr. unfold cancel_job, respond, m_bind, revoke, m_ret.
    rewrite Hr. reflexivity.
  - intros repr id id' b. destruct (Hsame id b) as (Hb & _ & Hr).
    destruct (reachable b) eqn:Hrb.
    + rewrite !get_status_reachable by congruence. rewrite Hb. reflexivity.
    + rewrite !get_status_unreachable by congruence. reflexivity.
  - intros id b b' code detail H.
    unfold cancel_job, respond, m_bind, revoke, m_ret in H.
    destruct (reachable b); [discriminate|]. injection H as _ <- _. auto.
Qed.

Lemma C6_witness :
  reachable Samples.empty_broker = true
  /\ cancel_job "unknown" Samples.empty_broker
     = (Broker true [] [] ({["unknown"]} ∪ ∅), Http200 ("unknown", "cancelled")).
Proof.
  split; [reflexivity|].
  apply (proj1 C6_cancel_never_not_found "unknown" Samples.empty_broker).
  reflexivity.
Defined.

End ApiClaims.

(** * The registry: claims *)

Section RegistryClaims.
Import Worker.

(** [load] answers [True] only with [is_loaded] set. *)
Lemma load_true_is_loaded env self :
  (ShapE.load env self).2 = true -> ShapE.is_loaded (ShapE.load env self).1 = true.
Proof.
  unfold ShapE.load.
  destruct (ShapE.import_shap_e env); [|discriminate].
  destruct (ShapE.load_model env "text300M" _); [|discriminate].
  destruct (ShapE.load_model env "transmitter" _); [|discriminate].
  reflexivity.
Qed.

Lemma init_models_outcome DEVICE env :
  init_models DEVICE env
  = if (ShapE.load env (ShapE.new DEVICE)).2
    then ({[ "shap_e" := (ShapE.load env (ShapE.new DEVICE)).1 ]},
          ["✓ Shap-E ready"])
    else (∅, ["✗ Shap-E failed to load"]).
Proof.
  unfold init_models. destruct (ShapE.load env (ShapE.new DEVICE)) as [m []];
    reflexivity.
Qed.

(** C9: after start-up every entry of [MODELS] has [is_loaded] set, so
    resolving a name returns a loaded model or raises; a model whose
    [load()] answers [False] is not installed, the failure is reported and
    the registry stays as it was, empty; resolving a name the registry does
    not hold, ["nonexistent"] among them, raises
    [ValueError("Model '...' not available")]. *)
Theorem C9_registry_holds_loaded_models :
  forall DEVICE env,
    let MODELS := (init_models DEVICE env).1 in
    (forall name m, MODELS !! name = Some m -> ShapE.is_loaded m = true)
    /\ (forall name m, resolve MODELS name = Ok m -> ShapE.is_loaded m = true)
    /\ (forall name,
          MODELS !! name = None ->
          resolve MODELS name
          = Raise (PyExc ValueError ("Model '" +:+ name +:+ "' not available")))
    /\ resolve MODELS "nonexistent"
       = Raise (PyExc ValueError "Model 'nonexistent' not available")
    /\ ((ShapE.load env (ShapE.new DEVICE)).2 = false ->
        init_models DEVICE env = (∅, ["✗ Shap-E failed to load"])).
Proof.
  intros DEVICE env MODELS.
  assert (Hall : forall name m, MODELS !! name = Some m -> ShapE.is_loaded m = true).
  { subst MODELS. rewrite init_models_outcome. intros name m.
    destruct (ShapE.load env (ShapE.new DEVICE)).2 eqn:Hl; simpl.
    - intros H. apply lookup_singleton_Some in H as [_ <-].
      apply load_true_is_loaded, Hl.
    - rewrite lookup_empty. discriminate. }
  split; [exact Hall|]. split; [|split; [|split]].
  - intros name m. unfold resolve.
    destruct (MODELS !! name) as [m'|] eqn:Hm; [|discriminate].
    intros [= <-]. eapply Hall, Hm.
  - intros name Hnone. unfold resolve. rewrite Hnone. reflexivity.
  - unfold resolve.
    assert (Hnone : MODELS !! "nonexistent" = None).
    { subst MODELS. rewrite init_models_outcome.
      destruct (ShapE.load env (ShapE.new DEVICE)).2; simpl.
      - apply lookup_singleton_ne. discriminate.
      - apply lookup_empty. }
    rewrite Hnone. reflexivity.
  - intros Hl. rewrite init_models_outcome, Hl. reflexivity.
Qed.

Lemma C9_witness :
  (ShapE.load Samples.bad_env (ShapE.new "cpu")).2 = false
  /\ init_models "cpu" Samples.bad_env = (∅, ["✗ Shap-E failed to load"])
  /\ (init_models "cpu" Samples.good_env).1 !! "shap_e"
     = Some (ShapE.load Samples.good_env (ShapE.new "cpu")).1
  /\ ShapE.is_loaded (ShapE.load Samples.good_env (ShapE.new "cpu")).1 = true.
Proof.
  split; [reflexivity|]. split; [|split].
  - apply (C9_registry_holds_loaded_models "cpu" Samples.bad_env). reflexivity.
  - vm_compute. reflexivity.
  - apply (proj1 (C9_registry_holds_loaded_models "cpu" Samples.good_env) "shap_e").
    vm_compute. reflexivity.
Defined.

End RegistryClaims.

(** * The worker: claims *)

Section WorkerClaims.
Import Celery Api Worker Rows.

Variable isalnum_u : Worker.pychar -> bool.
Variable OUTPUT_DIR : string.
Variable now : string -> string.
Variable color_stage : ShapE.TriMesh -> pyresult (list Ply.rgb).
Variable scale_stage : list Ply.vec3 -> pyresult (nat -> Ply.vec3).
Variable decode :
  ShapE.ShapEModel -> string -> pyfloat -> Z -> pyresult ShapE.TriMesh.
Variable MODELS : registry.
Variable pid : Z.
Variable hostname : string.
Variable repr_dict : pydict -> string.

#[local] Abbreviation body :=
  (task_body isalnum_u OUTPUT_DIR now color_stage scale_stage decode MODELS).
#[local] Abbreviation run :=
  (run_task isalnum_u OUTPUT_DIR now color_stage scale_stage decode MODELS pid hostname).
#[local] Abbreviation started := (mark_started pid hostname).

(** The metadata the worker writes. *)
#[local] Abbreviation m_started :=
  (TaskMeta STARTED
     (InfoDict {[ "pid" := VInt pid; "hostname" := VStr hostname ]})).
#[local] Abbreviation m_progress p msg :=
  (TaskMeta STARTED
     (InfoDict {[ "progress" := VFloat p; "message" := VStr msg ]})).
#[local] Abbreviation m_zero name :=
  (m_progress (Finite 0) ("Starting " +:+ name +:+ " generation...")).
#[local] Abbreviation m_init := (m_progress (Finite (1 # 10)) "Initializing model...").
#[local] Abbreviation m_complete := (m_progress (Finite 1) "Complete!").

(** The writes of the task body: the start, the initialisation when the
    model resolves, the completion when it returns. *)
Lemma generate_3d_writes id prompt model_name gs steps w :
  let out :=
    generate_3d isalnum_u OUTPUT_DIR now color_stage scale_stage decode MODELS id prompt
      model_name gs steps w in
  match out.2 with
  | Ok _ => extends id [m_zero model_name; m_init; m_complete]
              (wbroker w) (wbroker out.1)
  | Raise _ =>
      extends id [m_zero model_name] (wbroker w) (wbroker out.1)
      \/ extends id [m_zero model_name; m_init] (wbroker w) (wbroker out.1)
  end.
Proof.
  unfold extends. destruct w as [[r q be rv] fs0].
  cbv [generate_3d m_bind update_state progress_callback m_lift store_result].
  cbn [wbroker files backend reachable queue revoked].
  destruct (resolve MODELS model_name) as [model|e]; cbn [fst snd].
  2:{ left. reflexivity. }
  cbv [except_ValueError on_files m_bind update_state m_ret store_result].
  cbn [wbroker files backend reachable queue revoked].
  match goal with
  | |- context [ShapE.generate ?a ?b ?c ?d ?e ?f ?g ?h ?i] =>
      destruct (ShapE.generate a b c d e f g h i) as [f' [path|e']]
  end; cbn [fst snd wbroker files backend reachable queue revoked].
  - cbn [map]. rewrite <- !app_assoc. reflexivity.
  - destruct (exc_kind e');
      cbn [fst snd map wbroker files backend reachable queue revoked];
      right; rewrite <- !app_assoc; reflexivity.
Qed.

#[local] Abbreviation m_revoked :=
  (TaskMeta REVOKED (InfoExc (PyExc TaskRevokedError "revoked"))).

(** The writes of the worker for one message. *)
Lemma run_task_writes msg w :
  let id := task_id msg in
  exists ms,
    extends id ms (wbroker w) (wbroker (run msg w))
    /\ match decide (id ∈ revoked (wbroker w)) with
       | left _ => ms = [m_revoked]
       | right _ =>
           match (body msg (started id w)).2 with
           | Ok d =>
               ms = [m_started; m_zero (arg_model_name msg); m_init; m_complete;
                     TaskMeta SUCCESS (InfoDict d)]
           | Raise e =>
               ms = [m_started; m_zero (arg_model_name msg);
                     TaskMeta FAILURE (InfoExc e)]
               \/ ms = [m_started; m_zero (arg_model_name msg); m_init;
                        TaskMeta FAILURE (InfoExc e)]
           end
       end.
Proof.
  intros id. unfold run_task. fold id.
  destruct (decide (id ∈ revoked (wbroker w))) as [Hrev|Hrev].
  - eexists. split; [|reflexivity]. reflexivity.
  - pose proof (generate_3d_writes id (arg_prompt msg) (arg_model_name msg)
                  (arg_guidance_scale msg) (arg_num_inference_steps msg)
                  (started id w)) as Hw.
    cbv zeta in Hw. unfold task_body. fold id.
    destruct (generate_3d _ _ _ _ _ _ _ _ _ _ _ _ _) as [w2 [d|e]];
      cbn [fst snd] in *; unfold extends in *;
      cbn [wbroker mark_started store_result backend reachable queue revoked] in *.
    + exists [m_started; m_zero (arg_model_name msg); m_init; m_complete;
              TaskMeta SUCCESS (InfoDict d)].
      split; [|reflexivity]. rewrite Hw. unfold store_result.
      cbn [backend reachable queue revoked map].
      rewrite <- !app_assoc. reflexivity.
    + destruct Hw as [Hw|Hw].
      * exists [m_started; m_zero (arg_model_name msg);
                TaskMeta FAILURE (InfoExc e)].
        split; [|left; reflexivity]. rewrite Hw. unfold store_result.
        cbn [backend reachable queue revoked map].
        rewrite <- !app_assoc. reflexivity.
      * exists [m_started; m_zero (arg_model_name msg); m_init;
                TaskMeta FAILURE (InfoExc e)].
        split; [|right; reflexivity]. rewrite Hw. unfold store_result.
        cbn [backend reachable queue revoked map].
        rewrite <- !app_assoc. reflexivity.
Qed.

(** Writes under one id: that id reads its last write, the others are not
    disturbed. *)
Lemma replay_sets id log ms :
  replay (log ++ map (SetMeta id) ms) !! id
  = match last ms with
    | Some m => Some m
    | None => replay log !! id
    end.
Proof.
  induction ms as [|m ms _] using rev_ind.
  - simpl. rewrite app_nil_r. reflexivity.
  - rewrite last_snoc, map_app, app_assoc. simpl. apply replay_set.
Qed.

Lemma replay_sets_other id id' log ms :
  id <> id' -> replay (log ++ map (SetMeta id) ms) !! id' = replay log !! id'.
Proof.
  intros Hne. induction ms as [|m ms IH] using rev_ind.
  - simpl. rewrite app_nil_r. reflexivity.
  - rewrite map_app, app_assoc. simpl. rewrite replay_other by exact Hne.
    exact IH.
Qed.

(** Polling a job whose id is fresh: the answer follows the last of the
    writes made so far under its id, whatever is written later under other
    ids. *)
Lemma poll_fresh id log ms later k :
  Forall (fun ev => event_key ev <> id) log ->
  Forall (fun ev => event_key ev <> id) later ->
  poll repr_dict id ((log ++ map (SetMeta id) ms) ++ later) k
  = status_response repr_dict id
      (default (TaskMeta PENDING InfoNone) (last (take (k - length log) ms))).
Proof.
  intros Hfresh Hlater. unfold poll. f_equal. f_equal.
  rewrite take_app, replay_app_other by (apply Forall_take; exact Hlater).
  rewrite take_app, firstn_map, replay_sets.
  rewrite (replay_fresh id (take k log)) by (apply Forall_take; exact Hfresh).
  destruct (last _); reflexivity.
Qed.

(** The answers to the metadata the worker writes. *)
Lemma response_progress id p msg :
  status_response repr_dict id (m_progress p msg)
  = {| job_id := id; status := STARTED; progress := Some (VFloat p);
       message := Some (VStr msg); result := None; error := None |}.
Proof.
  unfold status_response. cbn [r_state r_info].
  rewrite decide_False by apply insert_non_empty.
  unfold dict_get. rewrite lookup_insert_eq.
  rewrite lookup_insert_ne by discriminate. rewrite lookup_singleton_eq.
  reflexivity.
Qed.

Lemma response_started id :
  status_response repr_dict id m_started
  = {| job_id := id; status := STARTED; progress := Some (VFloat (Finite 0));
       message := Some (VStr "Processing..."); result := None; error := None |}.
Proof.
  unfold status_response. cbn [r_state r_info].
  rewrite decide_False by apply insert_non_empty.
  unfold dict_get.
  rewrite !lookup_insert_ne by discriminate.
  rewrite !lookup_singleton_ne by discriminate. reflexivity.
Qed.

(** The answer after [j] of the writes [ms]. *)
#[local] Abbreviation answer id ms j :=
  (status_response repr_dict id
     (default (TaskMeta PENDING InfoNone) (last (take j ms)))).

Ltac q_le := apply Qle_bool_imp_le; reflexivity.

Ltac law_case :=
  cbn [take firstn last default from_option Datatypes.id]; rewrite ?firstn_nil;
  cbn [last default from_option Datatypes.id];
  rewrite ?response_progress, ?response_started;
  unfold progress_law; cbn [status progress status_response r_state r_info];
  split; [|split]; intros; try discriminate;
  try (eexists; split; [reflexivity|split; q_le]);
  try (do 2 eexists; split; [reflexivity|split; [reflexivity|q_le]]);
  try reflexivity.

(** Every trace the worker can write obeys the law of progress. *)
Lemma answers_follow_law id name ms :
  ms = [m_revoked]
  \/ (exists e, ms = [m_started; m_zero name; TaskMeta FAILURE (InfoExc e)])
  \/ (exists e, ms = [m_started; m_zero name; m_init;
                      TaskMeta FAILURE (InfoExc e)])
  \/ (exists d, ms = [m_started; m_zero name; m_init; m_complete;
                      TaskMeta SUCCESS (InfoDict d)]) ->
  forall j1 j2, j1 <= j2 -> progress_law (answer id ms j1) (answer id ms j2).
Proof.
  intros [->|[[e ->]|[[e ->]|[d ->]]]] j1 j2 Hle.
  - destruct j1 as [|[|j1]], j2 as [|[|j2]]; try lia; law_case.
  - destruct j1 as [|[|[|[|j1]]]], j2 as [|[|[|[|j2]]]]; try lia; law_case.
  - destruct j1 as [|[|[|[|[|j1]]]]], j2 as [|[|[|[|[|j2]]]]]; try lia; law_case.
  - destruct j1 as [|[|[|[|[|[|j1]]]]]], j2 as [|[|[|[|[|[|j2]]]]]]; try lia;
      law_case.
Qed.

(** The worker never touches the connection, the queue or the revoked
    set. *)
Lemma run_task_frame msg w :
  reachable (wbroker (run msg w)) = reachable (wbroker w)
  /\ queue (wbroker (run msg w)) = queue (wbroker w)
  /\ revoked (wbroker (run msg w)) = revoked (wbroker w).
Proof.
  destruct (run_task_writes msg w) as (ms & -> & _). auto.
Qed.

(** The answer about a job once the worker is done with its message. *)
Lemma run_task_answer msg w :
  reachable (wbroker w) = true ->
  task_id msg ∉ revoked (wbroker w) ->
  (get_status repr_dict (task_id msg) (wbroker (run msg w))).2
  = Http200
      (status_response repr_dict (task_id msg)
         match (body msg (started (task_id msg) w)).2 with
         | Ok d => TaskMeta SUCCESS (InfoDict d)
         | Raise e => TaskMeta FAILURE (InfoExc e)
         end).
Proof.
  intros Hr Hrev.
  destruct (run_task_frame msg w) as (Hr' & _ & _).
  rewrite get_status_reachable by congruence. cbn [snd]. do 2 f_equal.
  destruct (run_task_writes msg w) as (ms & -> & Hms). cbn [backend].
  rewrite replay_sets.
  destruct (decide (task_id msg ∈ revoked (wbroker w))); [contradiction|].
  destruct (body msg (started (task_id msg) w)).2 as [d|e].
  - subst ms. reflexivity.
  - destruct Hms as [->| ->]; reflexivity.
Qed.

(** A later message under another id leaves the answer as it is. *)
Lemma run_task_other msg w id :
  task_id msg <> id ->
  (get_status repr_dict id (wbroker (run msg w))).2
  = (get_status repr_dict id (wbroker w)).2.
Proof.
  intros Hne. destruct (run_task_frame msg w) as (Hr & _ & _).
  destruct (run_task_writes msg w) as (ms & Hext & _).
  destruct (reachable (wbroker w)) eqn:Hrw.
  - rewrite !get_status_reachable by congruence.
    rewrite Hext. cbn [backend snd]. rewrite replay_sets_other by exact Hne.
    reflexivity.
  - rewrite !get_status_unreachable by congruence. reflexivity.
Qed.

(** C5, amended: whatever exception [e] ends the task body, the worker
    stores [FAILURE] with it and [get_status] then answers status
    [FAILURE], message ["Job failed"] and [error = str(e)], a string that
    is non-empty exactly when the text of the exception is; the worker goes
    on with the next message: a later job whose body returns ends in
    [SUCCESS] with its result, while the failed job still reads as
    before.  An unknown model name is such an exception, with the text
    ["Model '...' not available"]. *)
Theorem C5_failure_captured_worker_goes_on msg1 msg2 w e d :
  reachable (wbroker w) = true ->
  task_id msg1 ∉ revoked (wbroker w) ->
  task_id msg2 ∉ revoked (wbroker w) ->
  task_id msg1 <> task_id msg2 ->
  (body msg1 (started (task_id msg1) w)).2 = Raise e ->
  (body msg2 (started (task_id msg2) (run msg1 w))).2 = Ok d ->
  let failed :=
    Http200 {| job_id := task_id msg1; status := FAILURE; progress := None;
               message := Some (VStr "Job failed"); result := None;
               error := Some (str_exc e) |} in
  (get_status repr_dict (task_id msg1) (wbroker (run msg1 w))).2 = failed
  /\ (str_exc e <> "" <-> Some (str_exc e) <> Some "")
  /\ (get_status repr_dict (task_id msg2) (wbroker (run msg2 (run msg1 w)))).2
     = Http200 {| job_id := task_id msg2; status := SUCCESS;
                  progress := Some (VFloat (Finite 1));
                  message := Some (VStr "Generation complete");
                  result := Some (InfoDict d); error := None |}
  /\ (get_status repr_dict (task_id msg1) (wbroker (run msg2 (run msg1 w)))).2
     = failed
  /\ (MODELS !! arg_model_name msg1 = None ->
      e = PyExc ValueError
            ("Model '" +:+ arg_model_name msg1 +:+ "' not available")).
Proof.
  intros Hr Hrev1 Hrev2 Hne Hb1 Hb2 failed.
  destruct (run_task_frame msg1 w) as (Hr1 & _ & Hrv1).
  assert (H1 : (get_status repr_dict (task_id msg1) (wbroker (run msg1 w))).2
               = failed).
  { rewrite run_task_answer by assumption. rewrite Hb1. reflexivity. }
  split; [exact H1|]. split; [|split; [|split]].
  - split; congruence.
  - rewrite run_task_answer by congruence. rewrite Hb2. reflexivity.
  - rewrite run_task_other by congruence. exact H1.
  - intros Hnone. revert Hb1. unfold task_body.
    cbv [generate_3d m_bind update_state m_lift]. unfold resolve.
    rewrite Hnone. cbn [snd]. congruence.
Qed.

(** The law of progress for reads that each see one state of the store
    (what C8 says, short of a read during which the job ends): for a job
    whose id the result store has not seen before, the answers
    [get_status] gives while and after the worker processes the job,
    whatever is written later under other ids, obey the law of progress:
    between an answer after [k1] writes and an answer after [k2 >= k1]
    writes, a [STARTED] answer carries a progress in [0, 1], progress does
    not decrease from one [STARTED] answer to a later one, and a [SUCCESS]
    answer carries progress [1.0].  Each answer is the one [get_status]
    computes on the store as it is after that many writes. *)
Theorem C8_progress_monotone msg w later k1 k2 :
  Forall (fun ev => event_key ev <> task_id msg) (backend (wbroker w)) ->
  Forall (fun ev => event_key ev <> task_id msg) later ->
  k1 <= k2 ->
  let log := backend (wbroker (run msg w)) ++ later in
  progress_law (poll repr_dict (task_id msg) log k1)
    (poll repr_dict (task_id msg) log k2)
  /\ (forall q rv k,
        (get_status repr_dict (task_id msg) (Broker true q (take k log) rv)).2
        = Http200 (poll repr_dict (task_id msg) log k)).
Proof.
  intros Hfresh Hlater Hle log. split.
  - subst log. destruct (run_task_writes msg w) as (ms & -> & Hms).
    cbn [backend]. rewrite !poll_fresh by assumption.
    apply (answers_follow_law _ (arg_model_name msg)); [|lia].
    destruct (decide _); [left; exact Hms|].
    destruct (body msg _).2 as [d|e].
    + right. right. right. eauto.
    + destruct Hms as [->| ->]; [right; left|right; right; left]; eauto.
  - intros q rv k. rewrite get_status_reachable by reflexivity. reflexivity.
Qed.

End WorkerClaims.

(** * The worker: instances *)

Lemma is_ok_Ok {A} (r : pyresult A) : is_ok r = true -> exists a, r = Ok a.
Proof. destruct r as [a|e]; [eauto|discriminate]. Qed.

Section WorkerInstances.
Import Celery Api Worker Rows.

#[local] Abbreviation run_with decode :=
  (run_task Samples.isalnum_u "../outputs" Samples.now Samples.color_stage Samples.scale_stage
     decode Samples.MODELS 4242 "celery@worker").
#[local] Abbreviation body_with decode :=
  (task_body Samples.isalnum_u "../outputs" Samples.now Samples.color_stage Samples.scale_stage
     decode Samples.MODELS).

(** C5, as stated, fails: when the model raises an exception that carries
    no text, here [AssertionError()], the job ends in [FAILURE] and the
    error string of its status is empty. *)
Lemma C5_counterexample :
  (body_with Samples.decode_silent Samples.msg_car
     (mark_started 4242 "celery@worker" "job-1" Samples.world0)).2
  = Raise (PyExc AssertionError "")
  /\ (get_status Samples.repr_dict "job-1"
        (wbroker (run_with Samples.decode_silent Samples.msg_car Samples.world0))).2
     = Http200 {| job_id := "job-1"; status := FAILURE; progress := None;
                  message := Some (VStr "Job failed"); result := None;
                  error := Some "" |}.
Proof. split; vm_compute; reflexivity. Qed.

Lemma C5_witness :
  (reachable (wbroker Samples.world0) = true
   /\ (task_id Samples.msg_boom ∉ revoked (wbroker Samples.world0))
   /\ (task_id Samples.msg_car ∉ revoked (wbroker Samples.world0))
   /\ task_id Samples.msg_boom <> task_id Samples.msg_car
   /\ (body_with Samples.decode_boom Samples.msg_boom
         (mark_started 4242 "celery@worker" "job-0" Samples.world0)).2
      = Raise (PyExc RuntimeError "CUDA out of memory")
   /\ is_ok (body_with Samples.decode_boom Samples.msg_car
               (mark_started 4242 "celery@worker" "job-1"
                  (run_with Samples.decode_boom Samples.msg_boom Samples.world0))).2
      = true)
  /\ (get_status Samples.repr_dict "job-0"
        (wbroker (run_with Samples.decode_boom Samples.msg_car
                    (run_with Samples.decode_boom Samples.msg_boom
                       Samples.world0)))).2
     = Http200 {| job_id := "job-0"; status := FAILURE; progress := None;
                  message := Some (VStr "Job failed"); result := None;
                  error := Some "CUDA out of memory" |}
  /\ status_of_answer
       (get_status Samples.repr_dict "job-1"
          (wbroker (run_with Samples.decode_boom Samples.msg_car
                      (run_with Samples.decode_boom Samples.msg_boom
                         Samples.world0)))).2
     = Some SUCCESS.
Proof.
  assert (Hrev0 : task_id Samples.msg_boom ∉ revoked (wbroker Samples.world0))
    by (vm_compute; set_solver).
  assert (Hrev1 : task_id Samples.msg_car ∉ revoked (wbroker Samples.world0))
    by (vm_compute; set_solver).
  assert (Hne : task_id Samples.msg_boom <> task_id Samples.msg_car)
    by (vm_compute; discriminate).
  assert (Hb0 : (body_with Samples.decode_boom Samples.msg_boom
                   (mark_started 4242 "celery@worker" "job-0" Samples.world0)).2
                = Raise (PyExc RuntimeError "CUDA out of memory"))
    by (vm_compute; reflexivity).
  assert (Hok : is_ok (body_with Samples.decode_boom Samples.msg_car
                         (mark_started 4242 "celery@worker" "job-1"
                            (run_with Samples.decode_boom Samples.msg_boom
                               Samples.world0))).2 = true)
    by (vm_compute; reflexivity).
  destruct (is_ok_Ok _ Hok) as [d Hb1].
  pose proof (C5_failure_captured_worker_goes_on Samples.isalnum_u "../outputs" Samples.now
                Samples.color_stage Samples.scale_stage Samples.decode_boom
                Samples.MODELS 4242 "celery@worker" Samples.repr_dict
                Samples.msg_boom Samples.msg_car Samples.world0 _ d
                eq_refl Hrev0 Hrev1 Hne Hb0 Hb1) as (_ & _ & H1 & H0 & _).
  split; [repeat split; assumption|].
  split; [exact H0|].
  change (task_id Samples.msg_car) with "job-1" in H1. rewrite H1. reflexivity.
Defined.

Lemma C8_witness :
  (Forall (fun ev => event_key ev <> task_id Samples.msg_car)
     (backend (wbroker Samples.world0))
   /\ Forall (fun ev => event_key ev <> task_id Samples.msg_car)
        [SetMeta "job-2" (TaskMeta STARTED InfoNone)]
   /\ 2 <= 4)
  /\ progress_law
       (poll Samples.repr_dict "job-1"
          (backend (wbroker (run_with Samples.decode_boom Samples.msg_car
                               Samples.world0))
           ++ [SetMeta "job-2" (TaskMeta STARTED InfoNone)]) 2)
       (poll Samples.repr_dict "job-1"
          (backend (wbroker (run_with Samples.decode_boom Samples.msg_car
                               Samples.world0))
           ++ [SetMeta "job-2" (TaskMeta STARTED InfoNone)]) 4).
Proof.
  assert (Hfresh : Forall (fun ev => event_key ev <> task_id Samples.msg_car)
                     (backend (wbroker Samples.world0)))
    by (simpl; constructor).
  assert (Hlater : Forall (fun ev => event_key ev <> task_id Samples.msg_car)
                     [SetMeta "job-2" (TaskMeta STARTED InfoNone)])
    by (repeat constructor; simpl; discriminate).
  split; [split; [exact Hfresh|split; [exact Hlater|lia]]|].
  apply (C8_progress_monotone Samples.isalnum_u "../outputs" Samples.now Samples.color_stage
           Samples.scale_stage Samples.decode_boom Samples.MODELS 4242
           "celery@worker" Samples.repr_dict Samples.msg_car Samples.world0
           [SetMeta "job-2" (TaskMeta STARTED InfoNone)] 2 4 Hfresh Hlater).
  lia.
Defined.

(** C8 fails when the job ends during a read.  The handler fetches the
    state and the info of the result anew at each access.  The job
    ["job-1"] runs to its end; a first read, made after the worker's
    ["Complete!"] update, answers [STARTED] with progress [1.0]; a second
    read begins before the worker stores [SUCCESS], which reaches the store
    after the handler has tested the state against ['STARTED'] and before
    it reads the info: the info is then the returned dictionary, which
    holds no ['progress'], and the answer is [STARTED] with the default
    progress [0.0] and the message ['Processing...'].  Progress has
    decreased between two successive [STARTED] answers. *)
Theorem C8_progress_drops_when_job_ends_during_read :
  let log :=
    backend (wbroker (run_with Samples.decode_boom Samples.msg_car
                        Samples.world0)) in
  let before := Broker true [] (take 4 log) ∅ in
  let first_answer :=
    {| job_id := "job-1"; status := STARTED;
       progress := Some (VFloat (Finite 1));
       message := Some (VStr "Complete!"); result := None; error := None |} in
  let second_answer :=
    {| job_id := "job-1"; status := STARTED;
       progress := Some (VFloat (Finite 0));
       message := Some (VStr "Processing..."); result := None;
       error := None |} in
  (exists d, drop 4 log = [SetMeta "job-1" (TaskMeta SUCCESS (InfoDict d))])
  /\ (get_status Samples.repr_dict "job-1" before).2 = Http200 first_answer
  /\ (get_status_serving Samples.repr_dict "job-1"
        (Serving before [[]; []; []; drop 4 log] None)).2
     = Http200 second_answer
  /\ ~ progress_law first_answer second_answer.
Proof.
  cbv zeta. split; [|split; [|split]].
  - eexists. vm_compute. reflexivity.
  - vm_compute. reflexivity.
  - vm_compute. reflexivity.
  - intros (_ & H & _).
    destruct (H eq_refl eq_refl) as (q1 & q2 & H1 & H2 & Hle).
    cbn [progress] in H1, H2. injection H1 as <-. injection H2 as <-.
    revert Hle. vm_compute. intros Hle. apply Hle. reflexivity.
Qed.

End WorkerInstances.
(** * Further properties *)

(** ** File names *)

Section Sanitiser.
Import Worker Laws.

Variable isalnum_u : pychar -> bool.

#[local] Abbreviation keep := (fun c : pychar => kept isalnum_u c = true).

Lemma continuation_not_ascii b : continuation b = true -> is_ascii b = false.
Proof.
  unfold continuation, is_ascii. intros H.
  apply andb_true_iff in H as [H _]. apply Nat.leb_le in H.
  apply Nat.ltb_ge. lia.
Qed.

Lemma chars_concat l : concat (chars l) = l.
Proof.
  induction l as [|b l IH]; [reflexivity|]. cbn [chars].
  destruct (chars l) as [|[|b' c] rest]; cbn [concat app] in *;
    [congruence|congruence|].
  destruct (negb (is_ascii b) && continuation b'); cbn [concat app];
    congruence.
Qed.

Lemma chars_well_cut l : Forall well_cut (chars l).
Proof.
  induction l as [|b l IH]; [constructor|]. cbn [chars].
  destruct (chars l) as [|[|b' c] rest].
  - constructor; [left; eauto|constructor].
  - constructor; [left; eauto|exact IH].
  - destruct (negb (is_ascii b) && continuation b') eqn:Hm.
    + apply andb_true_iff in Hm as [Hb Hb'].
      apply negb_true_iff in Hb. apply continuation_not_ascii in Hb'.
      inversion IH as [|? ? Hc Hrest]; subst. constructor; [|exact Hrest].
      right. constructor; [exact Hb|].
      destruct Hc as [[b0 Hc]|Hc]; [|exact Hc].
      injection Hc as -> ->. repeat constructor. exact Hb'.
    + constructor; [left; eauto|exact IH].
Qed.

(** Text within ASCII is cut byte by byte. *)
Lemma chars_ascii l :
  Forall (fun b => is_ascii b = true) l -> chars l = map (fun b => [b]) l.
Proof.
  induction 1 as [|b l Hb Hl IH]; [reflexivity|]. cbn [chars map].
  rewrite IH. destruct l as [|b' l']; [reflexivity|]. cbn [map].
  rewrite Hb. reflexivity.
Qed.

Lemma sublist_Forall {A} (P : A -> Prop) (l1 l2 : list A) :
  l1 `sublist_of` l2 -> Forall P l2 -> Forall P l1.
Proof.
  intros Hsub H. rewrite Forall_forall in *. intros x Hx.
  eapply H, elem_of_sublist; eassumption.
Qed.

Lemma lstrip_drop l : exists k, lstrip l = drop k l.
Proof.
  induction l as [|c l [k IH]]; [exists 0; reflexivity|]. cbn [lstrip].
  destruct (is_char " " c); [exists (S k); exact IH|exists 0; reflexivity].
Qed.

Lemma rstrip_take l : exists k, GaussianDreamerService.rstrip l = take k l.
Proof.
  unfold GaussianDreamerService.rstrip.
  destruct (lstrip_drop (rev l)) as [k ->].
  exists (length l - k). rewrite skipn_rev. apply rev_involutive.
Qed.

Lemma rstrip_sublist l : GaussianDreamerService.rstrip l `sublist_of` l.
Proof. destruct (rstrip_take l) as [k ->]. apply sublist_take. Qed.

Lemma strip_sublist l : strip l `sublist_of` l.
Proof.
  change (strip l) with (GaussianDreamerService.rstrip (lstrip l)).
  etransitivity; [apply rstrip_sublist|].
  destruct (lstrip_drop l) as [k ->]. apply sublist_drop.
Qed.

(** What both sanitisers do after the filter: trimming, cutting and
    replacing leave at most fifty of the prompt's characters, in their
    order, each one kept by the filter. *)
Lemma sanitised (trim : list pychar -> list pychar) prompt :
  (forall l, trim l `sublist_of` l) ->
  let cs := take 50 (trim (filter keep (chars (list_ascii_of_string prompt)))) in
  cs `sublist_of` chars (list_ascii_of_string prompt)
  /\ length cs <= 50
  /\ Forall keep cs
  /\ Forall well_cut cs.
Proof.
  intros Htrim cs.
  assert (H1 : cs `sublist_of` filter keep (chars (list_ascii_of_string prompt))).
  { subst cs. etransitivity; [apply sublist_take|apply Htrim]. }
  split; [|split; [|split]].
  - etransitivity; [exact H1|apply sublist_filter].
  - subst cs. rewrite length_take. lia.
  - eapply sublist_Forall; [exact H1|].
    apply Forall_forall. intros c Hc.
    apply list_elem_of_filter in Hc as [Hc _]. exact Hc.
  - eapply sublist_Forall; [|apply chars_well_cut].
    etransitivity; [exact H1|apply sublist_filter].
Qed.

Lemma is_char_eq a c : is_char a c = true -> c = [a].
Proof.
  destruct c as [|b [|b' c]]; try discriminate. cbn [is_char].
  intros H. apply Ascii.eqb_eq in H. congruence.
Qed.

(** A kept character, once its blank is replaced, is alphanumeric or the
    underscore. *)
Lemma keep_underscore c :
  keep c -> isalnum isalnum_u (underscore c) = true \/ underscore c = ["_"%char].
Proof.
  unfold kept, underscore. intros H.
  destruct (is_char " " c) eqn:Hs; [right; reflexivity|].
  rewrite orb_false_r in H. apply orb_true_iff in H as [H|H]; [left; exact H|].
  right. apply is_char_eq, H.
Qed.

(** Its bytes within ASCII are letters, digits and underscores. *)
Lemma keep_underscore_ascii c b :
  keep c -> well_cut c -> In b (underscore c) -> is_ascii b = true ->
  name_char b = true.
Proof.
  unfold kept, underscore. intros H Hc Hb Ha.
  destruct (is_char " " c) eqn:Hs.
  { destruct Hb as [<-|[]]. reflexivity. }
  rewrite orb_false_r in H.
  assert (Hcb : c = [b]).
  { destruct Hc as [[b0 ->]|Hc]; [destruct Hb as [->|[]]; reflexivity|].
    rewrite Forall_forall in Hc. apply list_elem_of_In, Hc in Hb. congruence. }
  subst c. unfold name_char. apply orb_true_iff in H as [H|H].
  - cbn [isalnum] in H. rewrite Ha in H. rewrite H. reflexivity.
  - cbn [is_char] in H. rewrite H. apply orb_true_r.
Qed.

Lemma sanitised_ascii cs b :
  Forall keep cs -> Forall well_cut cs ->
  In b (list_ascii_of_string (join_chars (map underscore cs))) ->
  is_ascii b = true -> name_char b = true.
Proof.
  unfold join_chars. rewrite list_ascii_of_string_of_list_ascii.
  intros Hk Hw Hb Ha. apply in_concat in Hb as (c' & Hc' & Hb).
  apply in_map_iff in Hc' as (c & <- & Hc).
  rewrite Forall_forall in Hk, Hw.
  apply (keep_underscore_ascii c); auto using list_elem_of_In.
  - apply Hk, list_elem_of_In, Hc.
  - apply Hw, list_elem_of_In, Hc.
Qed.

Lemma name_char_ascii b : name_char b = true -> is_ascii b = true.
Proof.
  unfold name_char, ascii_alnum, is_ascii. intros H. apply Nat.ltb_lt.
  apply orb_true_iff in H as [H|H].
  - repeat (apply orb_true_iff in H as [H|H]);
      apply andb_true_iff in H as [_ H]; apply Nat.leb_le in H; lia.
  - apply Ascii.eqb_eq in H as ->. vm_compute. lia.
Qed.

Lemma name_char_not_space b : name_char b = true -> Ascii.eqb b " " = false.
Proof.
  destruct (Ascii.eqb b " ") eqn:Hs; [|reflexivity].
  apply Ascii.eqb_eq in Hs as ->. vm_compute. discriminate.
Qed.

Lemma filter_all {A} (P : A -> Prop) `{forall x, Decision (P x)} (l : list A) :
  Forall P l -> filter P l = l.
Proof.
  induction 1 as [|x l Hx Hl IH]; [reflexivity|].
  rewrite filter_cons_True by exact Hx. rewrite IH. reflexivity.
Qed.

Lemma lstrip_no_space l :
  Forall (fun c => is_char " " c = false) l -> lstrip l = l.
Proof. destruct 1 as [|c l Hc Hl]; simpl; [reflexivity|]. rewrite Hc. reflexivity. Qed.

Lemma underscore_no_space l :
  Forall (fun c => is_char " " c = false) l -> map underscore l = l.
Proof.
  induction 1 as [|c l Hc Hl IH]; simpl; [reflexivity|]. unfold underscore at 1.
  rewrite Hc, IH. reflexivity.
Qed.

Lemma concat_singletons {A} (l : list A) : concat (map (fun b => [b]) l) = l.
Proof. induction l; simpl; congruence. Qed.

(** A safe name of at most fifty characters is left as it is. *)
Lemma sanitise_safe (trim : list pychar -> list pychar) s :
  (forall l, Forall (fun c => is_char " " c = false) l -> trim l = l) ->
  name_safe s -> String.length s <= 50 ->
  join_chars
    (map underscore
       (take 50 (trim (filter keep (chars (list_ascii_of_string s)))))) = s.
Proof.
  intros Htrim Hs Hlen. unfold name_safe in Hs.
  rewrite chars_ascii
    by (eapply Forall_impl; [exact Hs|]; intros b; apply name_char_ascii).
  set (l := list_ascii_of_string s) in *.
  assert (Hns : Forall (fun c => is_char " " c = false) (map (fun b => [b]) l)).
  { apply Forall_map. eapply Forall_impl; [exact Hs|]. intros b.
    apply name_char_not_space. }
  rewrite filter_all.
  2:{ apply Forall_map. eapply Forall_impl; [exact Hs|]. intros b Hb.
      pose proof (name_char_ascii b Hb) as Ha.
      unfold name_char in Hb. unfold kept. cbn [isalnum is_char]. rewrite Ha.
      apply orb_true_iff in Hb as [->| ->]; [reflexivity|apply orb_true_r]. }
  rewrite Htrim by exact Hns.
  assert (H : String.length s = length l).
  { subst l. clear. induction s; simpl; congruence. }
  rewrite take_ge by (rewrite length_map; lia).
  rewrite underscore_no_space by exact Hns.
  unfold join_chars. rewrite concat_singletons.
  apply string_of_list_ascii_of_string.
Qed.

(** X1: the name the worker and the multi-model service derive from a
    prompt is made of at most fifty of the prompt's characters, in their
    order, each of them alphanumeric, a blank or an underscore, with every
    blank replaced by an underscore; so each character of the name is
    alphanumeric or an underscore, and within ASCII the name holds letters,
    digits and underscores only: no path separator, no dot, no blank.  The
    same holds for the name the GaussianDreamer service derives; and a
    prompt that is already a name of ASCII letters, digits and underscores,
    at most fifty of them, is kept as it is. *)
Theorem X1_safe_prompt_is_a_file_name :
  (forall prompt,
      exists cs,
        cs `sublist_of` chars (list_ascii_of_string prompt)
        /\ length cs <= 50
        /\ safe_prompt isalnum_u prompt = join_chars (map underscore cs)
        /\ Forall (fun c => isalnum isalnum_u c = true \/ c = ["_"%char])
             (map underscore cs))
  /\ (forall prompt,
        exists cs,
          cs `sublist_of` chars (list_ascii_of_string prompt)
          /\ length cs <= 50
          /\ GaussianDreamerService.safe_prompt isalnum_u prompt
             = join_chars (map underscore cs)
          /\ Forall (fun c => isalnum isalnum_u c = true \/ c = ["_"%char])
               (map underscore cs))
  /\ (forall prompt b,
        In b (list_ascii_of_string (safe_prompt isalnum_u prompt))
        \/ In b (list_ascii_of_string
                   (GaussianDreamerService.safe_prompt isalnum_u prompt)) ->
        (is_ascii b = true -> name_char b = true)
        /\ b <> "/"%char /\ b <> "."%char /\ b <> " "%char)
  /\ (forall s,
        name_safe s -> String.length s <= 50 ->
        safe_prompt isalnum_u s = s
        /\ GaussianDreamerService.safe_prompt isalnum_u s = s).
Proof.
  split; [|split; [|split]].
  - intros prompt.
    destruct (sanitised strip prompt strip_sublist) as (Hsub & Hlen & Hk & _).
    eexists. split; [exact Hsub|]. split; [exact Hlen|].
    split; [reflexivity|].
    apply Forall_map. eapply Forall_impl; [exact Hk|]. apply keep_underscore.
  - intros prompt.
    destruct (sanitised GaussianDreamerService.rstrip prompt rstrip_sublist)
      as (Hsub & Hlen & Hk & _).
    eexists. split; [exact Hsub|]. split; [exact Hlen|].
    split; [reflexivity|].
    apply Forall_map. eapply Forall_impl; [exact Hk|]. apply keep_underscore.
  - intros prompt b Hb.
    assert (Ha : is_ascii b = true -> name_char b = true).
    { destruct Hb as [Hb|Hb].
      - destruct (sanitised strip prompt strip_sublist) as (_ & _ & Hk & Hw).
        eapply sanitised_ascii; eassumption.
      - destruct (sanitised GaussianDreamerService.rstrip prompt rstrip_sublist)
          as (_ & _ & Hk & Hw).
        eapply sanitised_ascii; eassumption. }
    split; [exact Ha|].
    repeat split; intros ->; specialize (Ha eq_refl); vm_compute in Ha;
      discriminate.
  - intros s Hs Hlen. split.
    + apply (sanitise_safe strip); [|exact Hs|exact Hlen].
      intros l Hl. unfold strip. rewrite (lstrip_no_space l) by exact Hl.
      rewrite lstrip_no_space by (apply Forall_rev; exact Hl).
      apply rev_involutive.
    + apply (sanitise_safe GaussianDreamerService.rstrip); [|exact Hs|exact Hlen].
      intros l Hl. unfold GaussianDreamerService.rstrip.
      rewrite lstrip_no_space by (apply Forall_rev; exact Hl).
      apply rev_involutive.
Qed.

End Sanitiser.

Lemma X1_witness :
  (Laws.name_safe "red_car" /\ String.length "red_car" <= 50)
  /\ Worker.safe_prompt Samples.isalnum_u "red_car" = "red_car"
  /\ GaussianDreamerService.safe_prompt Samples.isalnum_u "red_car" = "red_car".
Proof.
  assert (Hs : Laws.name_safe "red_car") by (repeat constructor).
  assert (Hl : String.length "red_car" <= 50) by (simpl; lia).
  split; [split; assumption|].
  exact (proj2 (proj2 (proj2 (X1_safe_prompt_is_a_file_name Samples.isalnum_u)))
           "red_car" Hs Hl).
Defined.

(** A prompt outside ASCII keeps its letters. *)
Example safe_prompt_cafe :
  Worker.safe_prompt Samples.isalnum_u "  café au lait/../x.ply "
  = "café_au_laitxply".
Proof. vm_compute. reflexivity. Qed.

Example safe_prompt_nihon :
  GaussianDreamerService.safe_prompt Samples.isalnum_u " 日本! " = "_日本".
Proof. vm_compute. reflexivity. Qed.


(** ** The writers: when they return and what a failure leaves *)

Section ExportOutcomes.
Import Ply Rows.

Lemma index_None_raise {A} (a : list A) i :
  a !! i = None -> exists e, index a i = Raise e /\ exc_kind e = IndexError.
Proof. unfold index. intros ->. eexists. split; reflexivity. Qed.

(** A loop that stops at the first row an array lacks: what was written
    before stays written. *)
Lemma for_each_rows_stop {A} (l : list A) (body : A -> W unit)
    (row : A -> option splat_record) :
  (forall i r buf, row i = Some r ->
                   body i buf = (buf ++ record_layout r, Ok tt)) ->
  (forall i buf, row i = None ->
     exists part e, body i buf = (buf ++ part, Raise e)
                    /\ length part < record_size /\ exc_kind e = IndexError) ->
  forall buf, mapM row l = None ->
    exists part e, for_each l body buf = (buf ++ part, Raise e)
                   /\ length part < record_size * length l
                   /\ exc_kind e = IndexError.
Proof.
  intros Hok Hstop. induction l as [|i l IH]; intros buf HM; [discriminate|].
  cbn [mapM for_each] in *. unfold m_bind.
  destruct (row i) as [r|] eqn:Hrow; simpl in HM.
  - rewrite (Hok _ _ _ Hrow).
    destruct (mapM row l) as [rows|] eqn:Hrows; [discriminate|].
    destruct (IH (buf ++ record_layout r) eq_refl) as (part & e & -> & Hlen & Hk).
    exists (record_layout r ++ part), e. rewrite <- app_assoc.
    split; [reflexivity|]. split; [|exact Hk].
    rewrite length_app, record_layout_length. simpl length. lia.
  - destruct (Hstop i buf Hrow) as (part & e & -> & Hlen & Hk).
    exists part, e. split; [reflexivity|]. split; [|exact Hk].
    simpl length. lia.
Qed.

Ltac stop_with part :=
  exists part; eexists; split;
  [rewrite <- ?app_assoc, ?app_nil_r; reflexivity
  |split; [rewrite ?length_app, ?pack_fff_length, ?pack_f_length, ?pack_BBB_length;
           unfold record_size; simpl; lia
          |assumption]].

Lemma write_vertex_stop vs cs os ss rs i buf :
  row_at vs cs os ss rs i = None ->
  exists part e,
    ShapE.write_vertex vs cs os ss rs i buf = (buf ++ part, Raise e)
    /\ length part < record_size /\ exc_kind e = IndexError.
Proof.
  unfold row_at, ShapE.write_vertex, m_bind, m_lift, f_write. intros H.
  destruct (vs !! i) as [v|] eqn:Hv;
    [rewrite (index_Some _ _ _ Hv)
    |destruct (index_None_raise _ _ Hv) as (e & -> & He);
     stop_with (@nil byte)].
  destruct (cs !! i) as [c|] eqn:Hc;
    [rewrite (index_Some _ _ _ Hc)
    |destruct (index_None_raise _ _ Hc) as (e & -> & He);
     stop_with (pack_fff v ++ pack_fff (f32_zero, f32_zero, f32_zero))].
  destruct (os !! i) as [o|] eqn:Ho;
    [rewrite (index_Some _ _ _ Ho)
    |destruct (index_None_raise _ _ Ho) as (e & -> & He);
     stop_with (pack_fff v ++ pack_fff (f32_zero, f32_zero, f32_zero)
                ++ pack_BBB c)].
  destruct (ss !! i) as [s|] eqn:Hs;
    [rewrite (index_Some _ _ _ Hs)
    |destruct (index_None_raise _ _ Hs) as (e & -> & He);
     stop_with (pack_fff v ++ pack_fff (f32_zero, f32_zero, f32_zero)
                ++ pack_BBB c ++ pack_f o)].
  destruct (rs !! i) as [q|] eqn:Hq;
    [discriminate
    |destruct (index_None_raise _ _ Hq) as (e & -> & He);
     stop_with (pack_fff v ++ pack_fff (f32_zero, f32_zero, f32_zero)
                ++ pack_BBB c ++ pack_f o ++ pack_fff s)].
Qed.

Lemma write_gaussian_stop to_uint8 ps cs os ss rs i buf :
  row_at ps (map (GaussianDreamer.quantise to_uint8) cs) os ss rs i = None ->
  exists part e,
    GaussianDreamer.write_gaussian to_uint8 ps cs os ss rs i buf
    = (buf ++ part, Raise e)
    /\ length part < record_size /\ exc_kind e = IndexError.
Proof.
  unfold row_at, GaussianDreamer.write_gaussian, m_bind, m_lift, f_write.
  rewrite lookup_map_Some. intros H.
  destruct (ps !! i) as [v|] eqn:Hv;
    [rewrite (index_Some _ _ _ Hv)
    |destruct (index_None_raise _ _ Hv) as (e & -> & He);
     stop_with (@nil byte)].
  destruct (cs !! i) as [c|] eqn:Hc;
    [rewrite (index_Some _ _ _ Hc)
    |destruct (index_None_raise _ _ Hc) as (e & -> & He);
     stop_with (pack_fff v ++ pack_fff (f32_zero, f32_zero, f32_zero))].
  destruct (os !! i) as [o|] eqn:Ho;
    [rewrite (index_Some _ _ _ Ho)
    |destruct (index_None_raise _ _ Ho) as (e & -> & He);
     stop_with (pack_fff v ++ pack_fff (f32_zero, f32_zero, f32_zero)
                ++ pack_BBB (GaussianDreamer.quantise to_uint8 c))].
  destruct (ss !! i) as [s|] eqn:Hs;
    [rewrite (index_Some _ _ _ Hs)
    |destruct (index_None_raise _ _ Hs) as (e & -> & He);
     stop_with (pack_fff v ++ pack_fff (f32_zero, f32_zero, f32_zero)
                ++ pack_BBB (GaussianDreamer.quantise to_uint8 c) ++ pack_f o)].
  destruct (rs !! i) as [q|] eqn:Hq;
    [discriminate
    |destruct (index_None_raise _ _ Hq) as (e & -> & He);
     stop_with (pack_fff v ++ pack_fff (f32_zero, f32_zero, f32_zero)
                ++ pack_BBB (GaussianDreamer.quantise to_uint8 c) ++ pack_f o
                ++ pack_fff s)].
Qed.

(** All rows exist exactly when every array covers the index range. *)
Lemma row_at_covered {ps : list vec3} {cs : list rgb} {os : list f32}
    {ss : list vec3} {rs : list quat} n :
  is_Some (mapM (row_at ps cs os ss rs) (seq 0 n))
  <-> (n <= length ps /\ n <= length cs /\ n <= length os /\ n <= length ss
       /\ n <= length rs) \/ n = 0.
Proof.
  rewrite mapM_is_Some, Forall_forall. split.
  - intros H. destruct n as [|n]; [right; reflexivity|left].
    specialize (H n). destruct H as [r Hr].
    { apply elem_of_seq. lia. }
    unfold row_at in Hr.
    destruct (ps !! n) eqn:E1; [|discriminate].
    destruct (cs !! n) eqn:E2; [|discriminate].
    destruct (os !! n) eqn:E3; [|discriminate].
    destruct (ss !! n) eqn:E4; [|discriminate].
    destruct (rs !! n) eqn:E5; [|discriminate].
    apply lookup_lt_Some in E1, E2, E3, E4, E5. lia.
  - intros [(H1 & H2 & H3 & H4 & H5)| ->] i Hi.
    2:{ apply elem_of_seq in Hi. lia. }
    apply elem_of_seq in Hi. simpl. unfold row_at.
    destruct (lookup_lt_is_Some_2 ps i) as [? ->]; [lia|].
    destruct (lookup_lt_is_Some_2 cs i) as [? ->]; [lia|].
    destruct (lookup_lt_is_Some_2 os i) as [? ->]; [lia|].
    destruct (lookup_lt_is_Some_2 ss i) as [? ->]; [lia|].
    destruct (lookup_lt_is_Some_2 rs i) as [? ->]; [lia|].
    eexists; reflexivity.
Qed.

(** When [_export_to_ply] returns, the colours covered the vertices. *)
Lemma export_to_ply_returns_covered color_stage scale_stage mesh path files
    files' :
  ShapE._export_to_ply color_stage scale_stage mesh path files
  = (files', Ok tt) ->
  ShapE.verts mesh <> []
  /\ exists cs scale_row,
       color_stage mesh = Ok cs
       /\ scale_stage (ShapE.verts mesh) = Ok scale_row
       /\ length (ShapE.verts mesh) <= length cs.
Proof.
  intros H.
  destruct (export_to_ply_returns _ _ _ _ _ _ H)
    as (cs & scale_row & rows & Hn & Hcs & Hss & HM & _).
  split; [intros Hv; rewrite Hv in Hn; apply Hn; reflexivity|].
  exists cs, scale_row. split; [exact Hcs|]. split; [exact Hss|].
  unfold shap_e_row in HM.
  assert (Hsome : is_Some (mapM
            (row_at (ShapE.verts mesh) cs
               (replicate (length (ShapE.verts mesh)) f32_0_95)
               (map scale_row (seq 0 (length (ShapE.verts mesh))))
               (replicate (length (ShapE.verts mesh)) identity_quat))
            (seq 0 (length (ShapE.verts mesh)))))
    by (rewrite HM; eexists; reflexivity).
  apply row_at_covered in Hsome as [(_ & H2 & _)|H0]; [exact H2|].
  contradiction.
Qed.

(** X2: [ShapEModel._export_to_ply] returns exactly when the mesh has a
    vertex, the colour and scale stages return and the colours cover the
    vertices; the size check that ends it never fails. *)
Theorem X2_export_to_ply_returns_iff color_stage scale_stage mesh path files :
  (exists files',
      ShapE._export_to_ply color_stage scale_stage mesh path files
      = (files', Ok tt))
  <-> (ShapE.verts mesh <> []
       /\ exists cs scale_row,
            color_stage mesh = Ok cs
            /\ scale_stage (ShapE.verts mesh) = Ok scale_row
            /\ length (ShapE.verts mesh) <= length cs).
Proof.
  split.
  - intros [files' H]. eapply export_to_ply_returns_covered, H.
  - intros (Hv & cs & scale_row & Hcs & Hss & Hlen).
    eapply export_to_ply_succeeds; eassumption.
Qed.

Lemma X2_witness :
  (ShapE.verts Samples.mesh2 <> []
   /\ exists cs scale_row,
        Samples.color_stage Samples.mesh2 = Ok cs
        /\ Samples.scale_stage (ShapE.verts Samples.mesh2) = Ok scale_row
        /\ length (ShapE.verts Samples.mesh2) <= length cs)
  /\ exists files',
       ShapE._export_to_ply Samples.color_stage Samples.scale_stage
         Samples.mesh2 "out.ply" ∅ = (files', Ok tt).
Proof.
  assert (H : ShapE.verts Samples.mesh2 <> []
              /\ exists cs scale_row,
                   Samples.color_stage Samples.mesh2 = Ok cs
                   /\ Samples.scale_stage (ShapE.verts Samples.mesh2)
                      = Ok scale_row
                   /\ length (ShapE.verts Samples.mesh2) <= length cs).
  { split; [discriminate|]. do 2 eexists.
    split; [reflexivity|]. split; [reflexivity|]. simpl. lia. }
  split; [exact H|].
  exact (proj2 (X2_export_to_ply_returns_iff Samples.color_stage
                  Samples.scale_stage Samples.mesh2 "out.ply" ∅) H).
Defined.

Lemma write_splats_stop n vs cs os ss rs :
  mapM (row_at vs cs os ss rs) (seq 0 n) = None ->
  exists part e,
    ShapE.write_splats n vs cs os ss rs []
    = (encode_ascii (header n) ++ part, Raise e)
    /\ length part < n * record_size /\ exc_kind e = IndexError.
Proof.
  intros HM.
  destruct (for_each_rows_stop (seq 0 n) (ShapE.write_vertex vs cs os ss rs)
              (row_at vs cs os ss rs)
              (fun i r buf => write_vertex_row _ _ _ _ _ i r buf)
              (fun i buf => write_vertex_stop _ _ _ _ _ i buf)
              (encode_ascii (header n)) HM) as (part & e & Hl & Hlen & Hk).
  exists part, e. rewrite length_seq in Hlen.
  split; [|split; [lia|exact Hk]].
  unfold ShapE.write_splats, for_range, m_bind at 1, f_write at 1.
  rewrite app_nil_l. exact Hl.
Qed.

(** A failure of [_export_to_ply] after its stages returned is a failure
    of the writing loop. *)
Lemma export_to_ply_stops color_stage scale_stage mesh path files files' e
    cs scale_row :
  let n := length (ShapE.verts mesh) in
  n <> 0 ->
  color_stage mesh = Ok cs ->
  scale_stage (ShapE.verts mesh) = Ok scale_row ->
  ShapE._export_to_ply color_stage scale_stage mesh path files
  = (files', Raise e) ->
  exists part,
    length cs < n
    /\ exc_kind e = IndexError
    /\ files' = <[path := encode_ascii (header n) ++ part]> files
    /\ length part < n * record_size.
Proof.
  intros n Hn Hcs Hss H. unfold ShapE._export_to_ply in H. cbv zeta in H.
  fold n in H. apply Nat.eqb_neq in Hn. rewrite Hn in H.
  unfold m_bind at 1, m_lift at 1 in H. rewrite Hcs in H.
  unfold m_bind at 1, m_lift at 1 in H. rewrite Hss in H.
  unfold m_bind at 1, with_open_wb in H.
  match type of H with
  | context [ShapE.write_splats ?a ?b ?c ?d ?e ?f []] =>
      pose proof (write_splats_rows a b c d e f) as Hw;
      pose proof (write_splats_stop a b c d e f) as Hstop;
      pose proof (@row_at_covered b c d e f a) as Hcov
  end.
  destruct (mapM _ (seq 0 n)) as [rows|] eqn:Hrows.
  - exfalso. rewrite Hw in H.
    unfold m_bind, st_size in H. rewrite lookup_insert_eq in H.
    rewrite length_app, concat_layout_length in H.
    apply mapM_rows_length in Hrows. rewrite Hrows in H.
    unfold record_size in H. rewrite Nat.eqb_refl in H. discriminate.
  - destruct (Hstop eq_refl) as (part & e1 & Hs & Hlen & Hk).
    rewrite Hs in H. injection H as <- <-.
    exists part. repeat split; auto.
    destruct (Nat.lt_ge_cases (length cs) n) as [Hlt|Hge]; [exact Hlt|].
    exfalso. assert (Hsome : is_Some (@None (list splat_record))).
    { apply Hcov. left. rewrite !length_replicate, length_map, length_seq.
      fold n. lia. }
    destruct Hsome as [? [=]].
Qed.

(** X3: when [ShapEModel._export_to_ply] raises, it is at its guard, with
    no vertex; or in one of its stages; or in the writing loop, with an
    [IndexError] because the colours are fewer than the vertices.  In the
    first three cases no file is touched; in the last the file stays at
    the output path, with the header that declares all the points and
    fewer bytes than that many records.  It never raises its own
    size-mismatch error. *)
Theorem X3_export_to_ply_failures color_stage scale_stage mesh path files
    files' e :
  ShapE._export_to_ply color_stage scale_stage mesh path files
  = (files', Raise e) ->
  let n := length (ShapE.verts mesh) in
  (n = 0 /\ e = PyExc ValueError "Mesh has no vertices!" /\ files' = files)
  \/ (n <> 0 /\ color_stage mesh = Raise e /\ files' = files)
  \/ (n <> 0 /\ is_ok (color_stage mesh) = true
      /\ scale_stage (ShapE.verts mesh) = Raise e /\ files' = files)
  \/ (exists cs scale_row part,
        color_stage mesh = Ok cs
        /\ scale_stage (ShapE.verts mesh) = Ok scale_row
        /\ length cs < n
        /\ exc_kind e = IndexError
        /\ files' = <[path := encode_ascii (header n) ++ part]> files
        /\ length part < n * record_size).
Proof.
  intros H n. pose proof H as H0.
  unfold ShapE._export_to_ply in H. cbv zeta in H. fold n in H.
  destruct (n =? 0)%nat eqn:Hn.
  { apply Nat.eqb_eq in Hn. left. unfold m_raise in H.
    injection H as <- <-. auto. }
  apply Nat.eqb_neq in Hn. right.
  unfold m_bind at 1, m_lift at 1 in H.
  destruct (color_stage mesh) as [cs|e0] eqn:Hcs.
  2:{ left. injection H as <- <-. auto. }
  right.
  unfold m_bind at 1, m_lift at 1 in H.
  destruct (scale_stage (ShapE.verts mesh)) as [scale_row|e0] eqn:Hss.
  2:{ left. injection H as <- <-. auto. }
  right. clear H.
  destruct (export_to_ply_stops color_stage scale_stage mesh path files files'
              e cs scale_row Hn Hcs Hss H0) as (part & H1 & H2 & H3 & H4).
  exists cs, scale_row, part. auto 10.
Qed.

Lemma X3_witness :
  ShapE._export_to_ply MoreSamples.one_colour
    Samples.scale_stage Samples.mesh2 "out.ply" ∅
  = ((ShapE._export_to_ply MoreSamples.one_colour
        Samples.scale_stage Samples.mesh2 "out.ply" ∅).1,
     Raise (PyExc IndexError "index 1 is out of bounds for axis 0 with size 1"))
  /\ exists part,
       (ShapE._export_to_ply MoreSamples.one_colour
          Samples.scale_stage Samples.mesh2 "out.ply" ∅).1
       = <["out.ply" := encode_ascii (header 2) ++ part]> ∅
       /\ length part < 2 * record_size.
Proof.
  assert (H : ShapE._export_to_ply MoreSamples.one_colour
                Samples.scale_stage Samples.mesh2 "out.ply" ∅
              = ((ShapE._export_to_ply
                    MoreSamples.one_colour
                    Samples.scale_stage Samples.mesh2 "out.ply" ∅).1,
                 Raise (PyExc IndexError
                          "index 1 is out of bounds for axis 0 with size 1")))
    by (vm_compute; reflexivity).
  split; [exact H|].
  destruct (X3_export_to_ply_failures _ _ _ _ _ _ _ H)
    as [(H0 & _)|[(_ & H0 & _)|[(_ & _ & H0 & _)
       |(cs & sr & part & _ & _ & _ & _ & Hf & Hlen)]]];
    [discriminate H0|discriminate H0|discriminate H0|].
  exists part. split; [exact Hf|exact Hlen].
Defined.

(** [_export_gaussians] with every array covering the positions, and with
    one that does not. *)
Lemma export_gaussians_covered to_uint8 g path files :
  let n := length (GaussianDreamer.xyz g) in
  n <= length (GaussianDreamer.features_dc g) ->
  n <= length (GaussianDreamer.opacity g) ->
  n <= length (GaussianDreamer.scaling g) ->
  n <= length (GaussianDreamer.rotation g) ->
  exists rows,
    GaussianDreamer._export_gaussians to_uint8 g path files
    = (<[path := encode_ascii (header n) ++ concat (map record_layout rows)]>
         files, Ok tt)
    /\ length rows = n.
Proof.
  intros n H1 H2 H3 H4.
  pose proof (@row_at_covered (GaussianDreamer.xyz g)
                (map (GaussianDreamer.quantise to_uint8)
                   (GaussianDreamer.features_dc g))
                (GaussianDreamer.opacity g) (GaussianDreamer.scaling g)
                (GaussianDreamer.rotation g) n) as Hcov.
  rewrite length_map in Hcov. fold n in Hcov.
  change (row_at _ _ _ _ _) with (gaussian_row to_uint8 g) in Hcov.
  destruct (proj2 Hcov) as [rows Hrows]; [left; unfold n; auto|].
  pose proof (export_gaussians_outcome to_uint8 g path files) as Hout.
  cbv zeta in Hout. fold n in Hout. rewrite Hrows in Hout.
  exists rows. split; [exact Hout|]. eapply mapM_rows_length, Hrows.
Qed.

Lemma export_gaussians_uncovered to_uint8 g path files :
  let n := length (GaussianDreamer.xyz g) in
  ~ (n <= length (GaussianDreamer.features_dc g)
     /\ n <= length (GaussianDreamer.opacity g)
     /\ n <= length (GaussianDreamer.scaling g)
     /\ n <= length (GaussianDreamer.rotation g)) ->
  exists part e,
    GaussianDreamer._export_gaussians to_uint8 g path files
    = (<[path := encode_ascii (header n) ++ part]> files, Raise e)
    /\ exc_kind e = IndexError
    /\ length part < n * record_size.
Proof.
  intros n Hnot.
  pose proof (@row_at_covered (GaussianDreamer.xyz g)
                (map (GaussianDreamer.quantise to_uint8)
                   (GaussianDreamer.features_dc g))
                (GaussianDreamer.opacity g) (GaussianDreamer.scaling g)
                (GaussianDreamer.rotation g) n) as Hcov.
  rewrite length_map in Hcov. fold n in Hcov.
  change (row_at _ _ _ _ _) with (gaussian_row to_uint8 g) in Hcov.
  destruct (mapM (gaussian_row to_uint8 g) (seq 0 n)) as [rows|] eqn:Hrows.
  { exfalso. destruct (proj1 Hcov) as [(_ & H)|H]; [eexists; reflexivity| |].
    - apply Hnot. exact H.
    - apply Hnot. rewrite H. repeat split; lia. }
  destruct (for_each_rows_stop (seq 0 n)
              (GaussianDreamer.write_gaussian to_uint8
                 (GaussianDreamer.xyz g) (GaussianDreamer.features_dc g)
                 (GaussianDreamer.opacity g) (GaussianDreamer.scaling g)
                 (GaussianDreamer.rotation g))
              (gaussian_row to_uint8 g)
              (fun i r buf => write_gaussian_row _ _ _ _ _ _ i r buf)
              (fun i buf => write_gaussian_stop _ _ _ _ _ _ i buf)
              (encode_ascii (header n)) Hrows) as (part & e & Hl & Hlen & Hk).
  exists part, e. rewrite length_seq in Hlen.
  split; [|split; [exact Hk|lia]].
  unfold GaussianDreamer._export_gaussians, with_open_wb. cbv zeta. fold n.
  unfold for_range, m_bind at 1, f_write at 1. rewrite app_nil_l.
  destruct (for_each _ _ _) as [buf r]. injection Hl as -> ->. reflexivity.
Qed.

(** X4: [GaussianDreamerModel._export_gaussians] returns exactly when the
    colour, opacity, scale and rotation arrays all have a row for every
    position, and then the file is the header and one record per position;
    otherwise it raises [IndexError] and leaves at the output path a file
    with the header that declares all the points and fewer bytes than that
    many records. *)
Theorem X4_export_gaussians_outcome to_uint8 g path files :
  let n := length (GaussianDreamer.xyz g) in
  let covered :=
    n <= length (GaussianDreamer.features_dc g)
    /\ n <= length (GaussianDreamer.opacity g)
    /\ n <= length (GaussianDreamer.scaling g)
    /\ n <= length (GaussianDreamer.rotation g) in
  (covered ->
   exists rows,
     GaussianDreamer._export_gaussians to_uint8 g path files
     = (<[path := encode_ascii (header n) ++ concat (map record_layout rows)]>
          files, Ok tt)
     /\ length rows = n)
  /\ (~ covered ->
      exists part e,
        GaussianDreamer._export_gaussians to_uint8 g path files
        = (<[path := encode_ascii (header n) ++ part]> files, Raise e)
        /\ exc_kind e = IndexError
        /\ length part < n * record_size).
Proof.
  intros n covered. split.
  - intros (H1 & H2 & H3 & H4). apply export_gaussians_covered; assumption.
  - apply export_gaussians_uncovered.
Qed.

Lemma X4_witness :
  (1 <= length (GaussianDreamer.features_dc Samples.gaussians1)
   /\ 1 <= length (GaussianDreamer.opacity Samples.gaussians1)
   /\ 1 <= length (GaussianDreamer.scaling Samples.gaussians1)
   /\ 1 <= length (GaussianDreamer.rotation Samples.gaussians1))
  /\ exists rows,
       GaussianDreamer._export_gaussians Samples.to_uint8 Samples.gaussians1
         "out.ply" ∅
       = (<["out.ply" := encode_ascii (header 1)
                         ++ concat (map record_layout rows)]> ∅, Ok tt)
       /\ length rows = 1.
Proof.
  assert (H : 1 <= length (GaussianDreamer.features_dc Samples.gaussians1)
              /\ 1 <= length (GaussianDreamer.opacity Samples.gaussians1)
              /\ 1 <= length (GaussianDreamer.scaling Samples.gaussians1)
              /\ 1 <= length (GaussianDreamer.rotation Samples.gaussians1))
    by (simpl; lia).
  split; [exact H|].
  exact (proj1 (X4_export_gaussians_outcome Samples.to_uint8
                  Samples.gaussians1 "out.ply" ∅) H).
Defined.

End ExportOutcomes.

(** ** The placeholder writer *)

Section PlaceholderFile.
Import Ply Rows.

Lemma header_placeholder_length :
  length (encode_ascii (header Placeholder.num_points)) = 408.
Proof. vm_compute. reflexivity. Qed.

(** X5: [_generate_placeholder_ply] always returns the path it was given
    and leaves there a file of 295408 bytes: the 408 bytes of the header
    for 5000 points, then 5000 records; record [i] holds the position
    drawn for point [i], a zero normal, the colour of point [i], opacity
    [0.8], scale [0.05] three times and the identity rotation. *)
Theorem X5_placeholder_file sphere_point variation path prompt files :
  exists file,
    Placeholder._generate_placeholder_ply sphere_point variation path prompt
      files
    = (<[path := file]> files, Ok path)
    /\ Z.of_nat (length file) = 295408%Z
    /\ take 408 file = encode_ascii (header Placeholder.num_points)
    /\ forall i, i < Placeholder.num_points ->
         take 59 (drop (408 + 59 * i) file)
         = record_layout
             (sphere_point i, zero3,
              Placeholder.color_array variation prompt i, f32_0_8,
              (f32_0_05, f32_0_05, f32_0_05), identity_quat).
Proof.
  eexists. split; [apply placeholder_outcome|].
  pose proof header_placeholder_length as Hh.
  split; [|split].
  - rewrite length_app, concat_layout_length, length_map, length_seq, Hh.
    unfold Placeholder.num_points, record_size. lia.
  - rewrite take_app_length'; [reflexivity|exact Hh].
  - intros i Hi. rewrite <- Hh.
    apply (record_at_offset (encode_ascii (header Placeholder.num_points))).
    change (map (placeholder_row sphere_point variation prompt))
      with (fmap (M:=list) (placeholder_row sphere_point variation prompt)).
    rewrite list_lookup_fmap, lookup_seq_lt by exact Hi. reflexivity.
Qed.

Lemma X5_witness :
  exists file,
    Placeholder._generate_placeholder_ply (fun _ => zero3) (fun _ => (0, 0, 0)%Z)
      "out.ply" "a red sports car" ∅
    = (<["out.ply" := file]> ∅, Ok "out.ply")
    /\ Z.of_nat (length file) = 295408%Z
    /\ take 59 (drop (408 + 59 * 7) file)
       = record_layout
           (zero3, zero3,
            Placeholder.color_array (fun _ => (0, 0, 0)%Z) "a red sports car" 7,
            f32_0_8, (f32_0_05, f32_0_05, f32_0_05), identity_quat).
Proof.
  destruct (X5_placeholder_file (fun _ => zero3) (fun _ => (0, 0, 0)%Z)
              "out.ply" "a red sports car" ∅) as (file & H1 & H2 & _ & H4).
  exists file. split; [exact H1|]. split; [exact H2|].
  apply (H4 7). unfold Placeholder.num_points. lia.
Defined.

Lemma clip_uint8_value v :
  byte.unsigned (Placeholder.clip_uint8 v) = Z.max 0 (Z.min 255 v).
Proof.
  unfold Placeholder.clip_uint8. rewrite byte.unsigned_of_Z. unfold byte.wrap.
  apply Z.mod_small. lia.
Qed.

Lemma base_color_values prompt :
  Placeholder.base_color prompt = (255, 100, 100)%Z
  \/ Placeholder.base_color prompt = (100, 100, 255)%Z
  \/ Placeholder.base_color prompt = (255, 255, 100)%Z
  \/ Placeholder.base_color prompt = (150, 150, 180)%Z.
Proof.
  unfold Placeholder.base_color.
  destruct (contains "red" _); [auto|].
  destruct (contains "blue" _); [auto|].
  destruct (contains "yellow" _); auto.
Qed.

(** X6: the colour [_generate_placeholder_ply] gives a point is the base
    colour of the prompt plus the variation drawn for the point, cut at
    255: with a variation in [-30, 30), as [randint(-30, 30)] draws it, a
    component never wraps around and stays within 30 of its base. *)
Theorem X6_placeholder_colours_are_clipped variation prompt i r g b dr dg db :
  Placeholder.base_color prompt = (r, g, b) ->
  variation i = (dr, dg, db) ->
  (-30 <= dr < 30)%Z -> (-30 <= dg < 30)%Z -> (-30 <= db < 30)%Z ->
  exists cr cg cb,
    Placeholder.color_array variation prompt i = (cr, cg, cb)
    /\ byte.unsigned cr = Z.min 255 (r + dr)
    /\ byte.unsigned cg = Z.min 255 (g + dg)
    /\ byte.unsigned cb = Z.min 255 (b + db)
    /\ (r - 30 <= byte.unsigned cr <= 255)%Z
    /\ (g - 30 <= byte.unsigned cg <= 255)%Z
    /\ (b - 30 <= byte.unsigned cb <= 255)%Z.
Proof.
  intros Hbase Hvar Hr Hg Hb. unfold Placeholder.color_array.
  rewrite Hbase, Hvar. do 3 eexists. split; [reflexivity|].
  rewrite !clip_uint8_value.
  assert (Hpos : (100 <= r <= 255 /\ 100 <= g <= 255 /\ 100 <= b <= 255)%Z).
  { destruct (base_color_values prompt) as [H|[H|[H|H]]];
      rewrite H in Hbase; injection Hbase as <- <- <-; lia. }
  lia.
Qed.

Lemma X6_witness :
  exists cr cg cb,
    Placeholder.color_array (fun _ => (29, -30, 0)%Z) "a red sports car" 0
    = (cr, cg, cb)
    /\ byte.unsigned cr = 255%Z
    /\ byte.unsigned cg = 70%Z
    /\ byte.unsigned cb = 100%Z.
Proof.
  destruct (X6_placeholder_colours_are_clipped (fun _ => (29, -30, 0)%Z)
              "a red sports car" 0 255 100 100 29 (-30) 0)
    as (cr & cg & cb & H & Hr & Hg & Hb & _);
    [reflexivity|reflexivity|lia|lia|lia|].
  exists cr, cg, cb. split; [exact H|]. rewrite Hr, Hg, Hb.
  repeat split; reflexivity.
Defined.

End PlaceholderFile.

(** ** The status answer *)

Section StatusAnswer.
Import Celery Api.

(** X7: [get_status] never writes: the broker is left as it was.  On a
    reachable broker it always answers 200, about the id it was asked; the
    answer carries an error exactly with status [FAILURE], a result exactly
    with [SUCCESS], a progress only with [STARTED] or [SUCCESS] (and then
    [1.0] with [SUCCESS]), and a message with every status but [REVOKED],
    for which the handler has no branch.  On an unreachable broker it
    answers 500. *)
Theorem X7_get_status_answer repr id b :
  (get_status repr id b).1 = b
  /\ (reachable b = true ->
      exists r,
        (get_status repr id b).2 = Http200 r
        /\ job_id r = id
        /\ (error r <> None <-> status r = FAILURE)
        /\ (result r <> None <-> status r = SUCCESS)
        /\ (progress r <> None -> status r = STARTED \/ status r = SUCCESS)
        /\ (status r = SUCCESS -> progress r = Some (VFloat (Finite 1)))
        /\ (message r = None <-> status r = REVOKED))
  /\ (reachable b = false ->
      (get_status repr id b).2 = HttpError 500 (str_exc connection_error)).
Proof.
  destruct (reachable b) eqn:Hr.
  - rewrite get_status_reachable by exact Hr. cbn [fst snd].
    split; [reflexivity|]. split; [|discriminate]. intros _.
    eexists. split; [reflexivity|].
    destruct (default _ _) as [st i]. unfold status_response.
    cbn [r_state r_info].
    destruct st; try destruct i as [|d|e]; try destruct (decide (d = ∅));
      cbn [job_id status progress message result error];
      (split; [reflexivity|]);
      repeat split; intros; try discriminate; try congruence; auto.
  - rewrite get_status_unreachable by exact Hr. cbn [fst snd].
    split; [reflexivity|]. split; [discriminate|]. reflexivity.
Qed.

Lemma X7_witness :
  reachable (Broker true [] [SetMeta "job-1" (TaskMeta REVOKED InfoNone)] ∅)
  = true
  /\ exists r,
       (get_status Samples.repr_dict "job-1"
          (Broker true [] [SetMeta "job-1" (TaskMeta REVOKED InfoNone)] ∅)).2
       = Http200 r
       /\ job_id r = "job-1"
       /\ (message r = None <-> status r = REVOKED).
Proof.
  split; [reflexivity|].
  destruct (proj1 (proj2 (X7_get_status_answer Samples.repr_dict "job-1"
              (Broker true [] [SetMeta "job-1" (TaskMeta REVOKED InfoNone)] ∅)))
              eq_refl)
    as (r & H1 & H2 & _ & _ & _ & _ & H7).
  exists r. auto.
Defined.

End StatusAnswer.

(** ** The worker *)

Section WorkerJobs.
Import Celery Api Worker Rows Laws.

Variable isalnum_u : Worker.pychar -> bool.
Variable OUTPUT_DIR : string.
Variable now : string -> string.
Variable color_stage : ShapE.TriMesh -> pyresult (list Ply.rgb).
Variable scale_stage : list Ply.vec3 -> pyresult (nat -> Ply.vec3).
Variable decode :
  ShapE.ShapEModel -> string -> pyfloat -> Z -> pyresult ShapE.TriMesh.
Variable MODELS : registry.
Variable pid : Z.
Variable hostname : string.
Variable repr_dict : pydict -> string.

#[local] Abbreviation job :=
  (generate_3d isalnum_u OUTPUT_DIR now color_stage scale_stage decode MODELS).
#[local] Abbreviation run1 :=
  (run_task isalnum_u OUTPUT_DIR now color_stage scale_stage decode MODELS pid hostname).
#[local] Abbreviation work :=
  (worker_main isalnum_u OUTPUT_DIR now color_stage scale_stage decode MODELS pid
     hostname).

(** The path a job writes to. *)
#[local] Abbreviation path_of id prompt model_name :=
  (OUTPUT_DIR +:+ "/" +:+
   (model_name +:+ "_" +:+ safe_prompt isalnum_u prompt +:+ "_" +:+ now id +:+ ".ply")).

(** The task body, from the model on. *)
Lemma job_outcome id prompt model_name gs steps w :
  job id prompt model_name gs steps w
  = match MODELS !! model_name with
    | None =>
        (World (store_result id
                  (TaskMeta STARTED
                     (InfoDict {[ "progress" := VFloat (Finite 0);
                                  "message" := VStr ("Starting " +:+ model_name
                                                     +:+ " generation...") ]}))
                  (wbroker w)) (files w),
         Raise (PyExc ValueError ("Model '" +:+ model_name +:+ "' not available")))
    | Some model =>
        let b2 :=
          store_result id
            (TaskMeta STARTED
               (InfoDict {[ "progress" := VFloat (Finite (1 # 10));
                            "message" := VStr "Initializing model..." ]}))
            (store_result id
               (TaskMeta STARTED
                  (InfoDict {[ "progress" := VFloat (Finite 0);
                               "message" := VStr ("Starting " +:+ model_name
                                                  +:+ " generation...") ]}))
               (wbroker w)) in
        match ShapE.generate color_stage scale_stage decode model prompt
                (path_of id prompt model_name) gs steps (files w) with
        | (f', Ok result_path) =>
            (World (store_result id
                      (TaskMeta STARTED
                         (InfoDict {[ "progress" := VFloat (Finite 1);
                                      "message" := VStr "Complete!" ]})) b2) f',
             Ok ({[ "output_path" := VStr result_path;
                    "model" := VStr model_name;
                    "prompt" := VStr prompt;
                    "guidance_scale" := VFloat gs;
                    "num_inference_steps" := VInt steps ]} : pydict))
        | (f', Raise e) =>
            (World b2 f',
             Raise match exc_kind e with
                   | ValueError => generation_failed e
                   | _ => e
                   end)
        end
    end.
Proof.
  destruct w as [b fs0].
  cbv [generate_3d m_bind update_state progress_callback m_lift resolve].
  cbn [wbroker files].
  destruct (MODELS !! model_name) as [model|]; [|reflexivity].
  cbv [except_ValueError on_files m_bind update_state m_ret].
  cbn [wbroker files].
  destruct (ShapE.generate _ _ _ _ _ _ _ _ _) as [f' [p|e]]; [reflexivity|].
  destruct (exc_kind e); reflexivity.
Qed.

(** [ShapEModel.generate], stage by stage. *)
Lemma shap_e_generate_outcome model prompt path gs steps files :
  ShapE.generate color_stage scale_stage decode model prompt path gs steps files
  = if negb (ShapE.is_loaded model) then
      (files, Raise (PyExc RuntimeError "Shap-E not loaded"))
    else
      match decode model prompt gs steps with
      | Raise e => (files, Raise e)
      | Ok mesh =>
          if (length (ShapE.verts mesh) =? 0)%nat then
            (files,
             Raise (PyExc ValueError
                      "zero-size array to reduction operation maximum which has no identity"))
          else
            match ShapE._export_to_ply color_stage scale_stage mesh path files with
            | (f', Ok _) => (f', Ok path)
            | (f', Raise e) => (f', Raise e)
            end
      end.
Proof.
  unfold ShapE.generate. destruct (negb _); [reflexivity|].
  unfold m_bind at 1, m_lift. destruct (decode _ _ _ _) as [mesh|e];
    [|reflexivity].
  cbv zeta. destruct (_ =? 0)%nat; [reflexivity|].
  unfold m_bind, m_ret. destruct (ShapE._export_to_ply _ _ _ _ _) as [f' [[]|e]];
    reflexivity.
Qed.

(** X8: the task [generate_3d] returns exactly when the registry holds the
    model name, the model is loaded, the decoder returns a mesh with a
    vertex, the colour and scale stages return and the colours cover the
    vertices. *)
Theorem X8_job_returns_iff id prompt model_name gs steps w :
  (exists w' d, job id prompt model_name gs steps w = (w', Ok d))
  <-> (exists model mesh cs scale_row,
          MODELS !! model_name = Some model
          /\ ShapE.is_loaded model = true
          /\ decode model prompt gs steps = Ok mesh
          /\ ShapE.verts mesh <> []
          /\ color_stage mesh = Ok cs
          /\ scale_stage (ShapE.verts mesh) = Ok scale_row
          /\ length (ShapE.verts mesh) <= length cs).
Proof.
  rewrite job_outcome. split.
  - intros (w' & d & H).
    destruct (MODELS !! model_name) as [model|]; [|discriminate].
    cbv zeta in H. rewrite shap_e_generate_outcome in H.
    destruct (ShapE.is_loaded model) eqn:Hl; [|discriminate].
    cbn [negb] in H.
    destruct (decode model prompt gs steps) as [mesh|e] eqn:Hd;
      [|destruct (exc_kind e); discriminate].
    destruct (_ =? 0)%nat eqn:Hn; [discriminate|].
    destruct (ShapE._export_to_ply _ _ _ _ _) as [f' [[]|e]] eqn:He;
      [|destruct (exc_kind e); discriminate].
    destruct (export_to_ply_returns_covered _ _ _ _ _ _ He)
      as (Hv & cs & sr & Hcs & Hss & Hlen).
    exists model, mesh, cs, sr. auto 10.
  - intros (model & mesh & cs & sr & Hm & Hl & Hd & Hv & Hcs & Hss & Hlen).
    rewrite Hm. cbv zeta. rewrite shap_e_generate_outcome, Hl, Hd. cbn [negb].
    destruct (_ =? 0)%nat eqn:Hn.
    { apply Nat.eqb_eq in Hn. destruct (ShapE.verts mesh); [contradiction|].
      discriminate. }
    destruct (export_to_ply_succeeds color_stage scale_stage mesh
                (path_of id prompt model_name) (files w) cs sr Hv Hcs Hss Hlen)
      as [f' ->].
    eauto.
Qed.


(** Where the task body leaves its file when it returns. *)
Lemma job_returns_file id prompt model_name gs steps w w' d :
  job id prompt model_name gs steps w = (w', Ok d) ->
  let output_path := path_of id prompt model_name in
  d = {[ "output_path" := VStr output_path;
         "model" := VStr model_name;
         "prompt" := VStr prompt;
         "guidance_scale" := VFloat gs;
         "num_inference_steps" := VInt steps ]}
  /\ exists file, files w' = <[output_path := file]> (files w).
Proof.
  rewrite job_outcome. intros H output_path.
  destruct (MODELS !! model_name) as [model|]; [|discriminate].
  cbv zeta in H.
  destruct (ShapE.generate _ _ _ _ _ _ _ _ _) as [f' [p|e]] eqn:Hgen;
    [|discriminate].
  rewrite shap_e_generate_outcome in Hgen.
  destruct (negb (ShapE.is_loaded model)); [discriminate|].
  destruct (decode model prompt gs steps) as [mesh|e]; [|discriminate].
  destruct (_ =? 0)%nat; [discriminate|].
  destruct (ShapE._export_to_ply _ _ _ _ _) as [f2 [[]|e]] eqn:He;
    [|discriminate].
  injection Hgen as <- <-. injection H as <- <-. split; [reflexivity|].
  destruct (export_to_ply_returns _ _ _ _ _ _ He)
    as (cs & sr & rows & _ & _ & _ & _ & ->).
  eexists. reflexivity.
Qed.

(** What the task body leaves when it returns: its result and, at the
    output path, the rows [_export_to_ply] formed from the decoded mesh. *)
Lemma job_returns_rows id prompt model_name gs steps w w' d :
  job id prompt model_name gs steps w = (w', Ok d) ->
  let output_path := path_of id prompt model_name in
  d = {[ "output_path" := VStr output_path;
         "model" := VStr model_name;
         "prompt" := VStr prompt;
         "guidance_scale" := VFloat gs;
         "num_inference_steps" := VInt steps ]}
  /\ exists model mesh cs scale_row rows,
       MODELS !! model_name = Some model
       /\ decode model prompt gs steps = Ok mesh
       /\ color_stage mesh = Ok cs
       /\ scale_stage (ShapE.verts mesh) = Ok scale_row
       /\ mapM (shap_e_row mesh cs scale_row)
            (seq 0 (length (ShapE.verts mesh))) = Some rows
       /\ files w'
          = <[output_path :=
                Ply.encode_ascii (Ply.header (length (ShapE.verts mesh)))
                ++ concat (map Ply.record_layout rows)]> (files w).
Proof.
  rewrite job_outcome. intros H output_path.
  destruct (MODELS !! model_name) as [model|] eqn:Hm; [|discriminate].
  cbv zeta in H. rewrite shap_e_generate_outcome in H.
  destruct (negb (ShapE.is_loaded model)); [discriminate|].
  destruct (decode model prompt gs steps) as [mesh|e] eqn:Hd;
    [|destruct (exc_kind e); discriminate].
  destruct (_ =? 0)%nat eqn:Hn; [discriminate|].
  destruct (ShapE._export_to_ply _ _ _ _ _) as [f' [[]|e]] eqn:He;
    [|destruct (exc_kind e); discriminate].
  injection H as <- <-. split; [reflexivity|].
  destruct (export_to_ply_returns _ _ _ _ _ _ He)
    as (cs & sr & rows & _ & Hcs & Hss & HM & ->).
  exists model, mesh, cs, sr, rows. auto 10.
Qed.

(** X9: when the task [generate_3d] returns, its result names the model,
    the prompt and the two parameters it was called with, and the output
    path [OUTPUT_DIR/<model>_<sanitised prompt>_<timestamp>.ply]; the
    worker's disk then holds at that path the header followed by one
    59-byte record per vertex of the decoded mesh, record [i] made of
    vertex [i], a zero normal, colour [i] of the colour stage, the opacity
    [0.95], row [i] of the scale stage and the identity rotation; no other
    path was touched. *)
Theorem X9_job_result id prompt model_name gs steps w w' d :
  job id prompt model_name gs steps w = (w', Ok d) ->
  let output_path := path_of id prompt model_name in
  d = {[ "output_path" := VStr output_path;
         "model" := VStr model_name;
         "prompt" := VStr prompt;
         "guidance_scale" := VFloat gs;
         "num_inference_steps" := VInt steps ]}
  /\ exists model mesh cs scale_row rows,
       let n := length (ShapE.verts mesh) in
       let file :=
         Ply.encode_ascii (Ply.header n) ++ concat (map Ply.record_layout rows) in
       MODELS !! model_name = Some model
       /\ decode model prompt gs steps = Ok mesh
       /\ color_stage mesh = Ok cs
       /\ scale_stage (ShapE.verts mesh) = Ok scale_row
       /\ files w' = <[output_path := file]> (files w)
       /\ length rows = n
       /\ (forall i r,
             rows !! i = Some r ->
             exists v c,
               ShapE.verts mesh !! i = Some v /\ cs !! i = Some c
               /\ r = (v, Ply.zero3, c, Ply.f32_0_95, scale_row i,
                       identity_quat))
       /\ length file = length (Ply.encode_ascii (Ply.header n)) + n * 59.
Proof.
  intros H output_path.
  destruct (job_returns_rows _ _ _ _ _ _ _ _ H)
    as (Hd & model & mesh & cs & sr & rows & Hm & Hdec & Hcs & Hss & HM & Hf).
  split; [exact Hd|]. exists model, mesh, cs, sr, rows. cbv zeta.
  pose proof (mapM_rows_length _ _ _ HM) as Hlen.
  repeat (split; [assumption|]). split.
  - intros i r Hi. apply (mapM_rows_lookup _ _ _ _ _ HM) in Hi.
    apply shap_e_row_Some, Hi.
  - rewrite length_app, concat_layout_length, Hlen. reflexivity.
Qed.

(** Once the worker is done with a message, its job is in a state it
    stays in. *)
Lemma run_task_terminal msg w :
  reachable (wbroker w) = true ->
  exists r,
    (get_status repr_dict (task_id msg) (wbroker (run1 msg w))).2 = Http200 r
    /\ terminal (status r).
Proof.
  intros Hr.
  destruct (decide (task_id msg ∈ revoked (wbroker w))) as [Hrev|Hrev].
  - destruct (run_task_frame isalnum_u OUTPUT_DIR now color_stage scale_stage decode
                MODELS pid hostname msg w) as (Hr' & _ & _).
    rewrite get_status_reachable by congruence. cbn [snd].
    eexists. split; [reflexivity|].
    destruct (run_task_writes isalnum_u OUTPUT_DIR now color_stage scale_stage decode
                MODELS pid hostname msg w) as (ms & -> & Hms).
    cbn [backend]. rewrite replay_sets.
    destruct (decide _) as [_|Hn]; [|contradiction]. subst ms.
    right. right. reflexivity.
  - rewrite run_task_answer by assumption. eexists. split; [reflexivity|].
    destruct (task_body _ _ _ _ _ _ _ _ _).2 as [d|e].
    + left. reflexivity.
    + right. left. reflexivity.
Qed.

#[local] Abbreviation run_all msgs w :=
  (fold_left (fun w msg => run1 msg w) msgs w).

Lemma run_all_frame msgs w :
  reachable (wbroker (run_all msgs w)) = reachable (wbroker w)
  /\ queue (wbroker (run_all msgs w)) = queue (wbroker w)
  /\ revoked (wbroker (run_all msgs w)) = revoked (wbroker w).
Proof.
  revert w. induction msgs as [|msg msgs IH]; intros w; simpl; [auto|].
  destruct (IH (run1 msg w)) as (H1 & H2 & H3).
  destruct (run_task_frame isalnum_u OUTPUT_DIR now color_stage scale_stage decode
              MODELS pid hostname msg w) as (H4 & H5 & H6).
  repeat split; congruence.
Qed.

Lemma run_all_other msgs w id :
  Forall (fun msg => task_id msg <> id) msgs ->
  (get_status repr_dict id (wbroker (run_all msgs w))).2
  = (get_status repr_dict id (wbroker w)).2.
Proof.
  revert w. induction msgs as [|msg msgs IH]; intros w H; simpl; [reflexivity|].
  apply Forall_cons in H as [Hne Hrest]. rewrite IH by exact Hrest.
  apply run_task_other. exact Hne.
Qed.

Lemma run_all_terminal msgs w :
  reachable (wbroker w) = true ->
  forall msg, In msg msgs ->
    exists r,
      (get_status repr_dict (task_id msg) (wbroker (run_all msgs w))).2
      = Http200 r
      /\ terminal (status r).
Proof.
  induction msgs as [|x msgs IH] using rev_ind; intros Hr msg Hin;
    [destruct Hin|].
  rewrite fold_left_app. cbn [fold_left].
  destruct (run_all_frame msgs w) as (Hr' & _ & _).
  destruct (decide (task_id x = task_id msg)) as [Heq|Hne].
  - rewrite <- Heq. apply run_task_terminal. congruence.
  - rewrite run_task_other by exact Hne. apply IH; [exact Hr|].
    apply in_app_or in Hin as [Hin|[->|[]]]; [exact Hin|contradiction].
Qed.

(** The answer depends on the connection and the result store only. *)
Lemma get_status_same id b b' :
  reachable b = reachable b' -> backend b = backend b' ->
  (get_status repr_dict id b).2 = (get_status repr_dict id b').2.
Proof.
  intros Hr Hb. destruct (reachable b) eqn:E.
  - rewrite !get_status_reachable by congruence. rewrite Hb. reflexivity.
  - rewrite !get_status_unreachable by congruence. reflexivity.
Qed.

(** X10: the worker takes every queued message: afterwards the queue is
    empty, every job that was queued reads [SUCCESS], [FAILURE] or
    [REVOKED], whatever happened to the jobs before it, and the answer
    about any other id is what it was. *)
Theorem X10_worker_finishes_every_job w :
  reachable (wbroker w) = true ->
  queue (wbroker (work w)) = []
  /\ (forall msg, In msg (queue (wbroker w)) ->
        exists r,
          (get_status repr_dict (task_id msg) (wbroker (work w))).2 = Http200 r
          /\ terminal (status r))
  /\ (forall id,
        Forall (fun msg => task_id msg <> id) (queue (wbroker w)) ->
        (get_status repr_dict id (wbroker (work w))).2
        = (get_status repr_dict id (wbroker w)).2).
Proof.
  intros Hr. unfold worker_main. split; [|split].
  - destruct (run_all_frame (queue (wbroker w))
                (World (Broker (reachable (wbroker w)) [] (backend (wbroker w))
                          (revoked (wbroker w))) (files w))) as (_ & -> & _).
    reflexivity.
  - intros msg Hin. apply run_all_terminal; [exact Hr|exact Hin].
  - intros id Hid. rewrite run_all_other by exact Hid.
    apply get_status_same; reflexivity.
Qed.

(** X11: a job cancelled while it is still queued is never run: the worker
    writes [REVOKED] for it and nothing else, the disk is left as it was,
    and [get_status] then answers with the status [REVOKED] alone, without
    message, progress, result or error. *)
Theorem X11_cancelled_job_is_not_run msg w :
  reachable (wbroker w) = true ->
  let w1 := World (cancel_job (task_id msg) (wbroker w)).1 (files w) in
  files (run1 msg w1) = files w
  /\ backend (wbroker (run1 msg w1))
     = backend (wbroker w)
       ++ [SetMeta (task_id msg)
             (TaskMeta REVOKED (InfoExc (PyExc TaskRevokedError "revoked")))]
  /\ (get_status repr_dict (task_id msg) (wbroker (run1 msg w1))).2
     = Http200 {| job_id := task_id msg; status := REVOKED; progress := None;
                  message := None; result := None; error := None |}.
Proof.
  intros Hr w1.
  assert (Hw1 : wbroker w1
                = Broker true (queue (wbroker w)) (backend (wbroker w))
                    ({[task_id msg]} ∪ revoked (wbroker w))).
  { subst w1. cbn [wbroker]. unfold cancel_job, respond, m_bind, revoke, m_ret.
    rewrite Hr. reflexivity. }
  assert (Hrun : run1 msg w1
                 = World (store_result (task_id msg)
                            (TaskMeta REVOKED
                               (InfoExc (PyExc TaskRevokedError "revoked")))
                            (wbroker w1)) (files w1)).
  { unfold run_task. rewrite decide_True; [reflexivity|].
    rewrite Hw1. cbn [revoked]. set_solver. }
  rewrite Hrun. cbn [files wbroker]. split; [reflexivity|].
  rewrite Hw1. unfold store_result. cbn [backend reachable queue revoked].
  split; [reflexivity|].
  rewrite get_status_reachable by reflexivity. cbn [snd backend].
  rewrite replay_set. reflexivity.
Qed.

(** X12: when the decoder returns a mesh without vertices, the job fails
    before anything is written: [ShapEModel.generate] raises numpy's
    [ValueError] at the bounds of the mesh, which the worker passes on as
    it is; the disk is left as it was and the status reads [FAILURE] with
    that text. *)
Theorem X12_empty_mesh_fails_the_job msg w model mesh :
  reachable (wbroker w) = true ->
  task_id msg ∉ revoked (wbroker w) ->
  MODELS !! arg_model_name msg = Some model ->
  ShapE.is_loaded model = true ->
  decode model (arg_prompt msg) (arg_guidance_scale msg)
    (arg_num_inference_steps msg) = Ok mesh ->
  ShapE.verts mesh = [] ->
  files (run1 msg w) = files w
  /\ (get_status repr_dict (task_id msg) (wbroker (run1 msg w))).2
     = Http200
         {| job_id := task_id msg; status := FAILURE; progress := None;
            message := Some (VStr "Job failed"); result := None;
            error :=
              Some "zero-size array to reduction operation maximum which has no identity" |}.
Proof.
  intros Hr Hrev Hm Hl Hd Hv.
  assert (Hbody : forall w0,
             task_body isalnum_u OUTPUT_DIR now color_stage scale_stage decode MODELS msg w0
             = (World (store_result (task_id msg)
                         (TaskMeta STARTED
                            (InfoDict {[ "progress" := VFloat (Finite (1 # 10));
                                         "message" := VStr "Initializing model..." ]}))
                         (store_result (task_id msg)
                            (TaskMeta STARTED
                               (InfoDict {[ "progress" := VFloat (Finite 0);
                                            "message" :=
                                              VStr ("Starting " +:+ arg_model_name msg
                                                    +:+ " generation...") ]}))
                            (wbroker w0))) (files w0),
                Raise (PyExc ValueError
                         "zero-size array to reduction operation maximum which has no identity"))).
  { intros w0. unfold task_body. rewrite job_outcome, Hm. cbv zeta.
    rewrite shap_e_generate_outcome, Hl, Hd, Hv. reflexivity. }
  split.
  - unfold run_task. rewrite decide_False by exact Hrev. rewrite Hbody.
    reflexivity.
  - rewrite run_task_answer by assumption. rewrite Hbody. reflexivity.
Qed.

End WorkerJobs.

(** ** The multi-model service *)

Section MultiModelService.
Import Model3D MultiModel Rows.

Variable isalnum_u : Worker.pychar -> bool.
Variable to_uint8 : Ply.f32 -> byte.
Variable optimise :
  GaussianDreamerModel.t -> string -> pyfloat -> Z
  -> pyresult GaussianDreamer.Gaussians.
Variable image : Type.
Variable prompt_to_img : string -> kwargs -> pyresult image.
Variable rembg_remove : image -> pyresult image.
Variable reconstruct : DreamGaussianModel.t -> image -> Z -> string -> M fs unit.
Variable timestamp : string.

#[local] Abbreviation route :=
  (route_generate isalnum_u to_uint8 optimise image prompt_to_img rembg_remove
     reconstruct timestamp).

Lemma gd_load_true env self :
  (GaussianDreamerModel.load env self).2 = true ->
  GaussianDreamerModel.is_loaded (GaussianDreamerModel.load env self).1 = true.
Proof.
  unfold GaussianDreamerModel.load.
  destruct (negb _); [discriminate|].
  destruct (GaussianDreamerModel.import_threestudio env); [|discriminate].
  destruct (GaussianDreamerModel.load_config env); [|discriminate].
  destruct (GaussianDreamerModel.build_system env _); [|discriminate].
  destruct (GaussianDreamerModel.to_device env _ _); [|discriminate].
  reflexivity.
Qed.

Lemma dg_load_true env self :
  (DreamGaussianModel.load env self).2 = true ->
  DreamGaussianModel.is_loaded (DreamGaussianModel.load env self).1 = true.
Proof.
  unfold DreamGaussianModel.load.
  destruct (negb _); [discriminate|].
  destruct (DreamGaussianModel.import_dreamgaussian env); [|discriminate].
  destruct (DreamGaussianModel.stable_diffusion env _); [|discriminate].
  destruct (DreamGaussianModel.dream_gaussian env _); [|discriminate].
  reflexivity.
Qed.

(** X13: after [load_all_models] the registry of the multi-model service
    holds a model exactly under the names whose [load()] answered [True],
    ["gaussiandreamer"] before ["dreamgaussian"], and every model it holds
    has [is_loaded] set. *)
Theorem X13_multi_model_registry device gd_env dg_env :
  let models := load_all_models device gd_env dg_env in
  let gd_ok :=
    (GaussianDreamerModel.load gd_env (GaussianDreamerModel.new device)).2 in
  let dg_ok :=
    (DreamGaussianModel.load dg_env (DreamGaussianModel.new device)).2 in
  keys models
  = (if gd_ok then ["gaussiandreamer"] else [])
    ++ (if dg_ok then ["dreamgaussian"] else [])
  /\ (forall name m, dict_lookup name models = Some m -> is_loaded m = true)
  /\ (forall name,
        name <> "gaussiandreamer" -> name <> "dreamgaussian" ->
        dict_lookup name models = None).
Proof.
  cbv zeta. unfold load_all_models.
  pose proof (gd_load_true gd_env (GaussianDreamerModel.new device)) as Hgd.
  pose proof (dg_load_true dg_env (DreamGaussianModel.new device)) as Hdg.
  destruct (GaussianDreamerModel.load _ _) as [gd [|]];
    destruct (DreamGaussianModel.load _ _) as [dg [|]];
    cbn [fst snd] in *; (split; [reflexivity|]); split.
  all: try (intros name m; cbn [dict_set dict_lookup String.eqb Ascii.eqb Bool.eqb];
            repeat (destruct (String.eqb name _); [intros [= <-]; cbn [is_loaded]; auto|]);
            discriminate).
  all: intros name H1 H2; cbn [dict_set dict_lookup String.eqb Ascii.eqb Bool.eqb];
    rewrite ?(proj2 (String.eqb_neq name "gaussiandreamer") H1),
      ?(proj2 (String.eqb_neq name "dreamgaussian") H2); reflexivity.
Qed.


(** X14: the route [POST /generate] of the multi-model service answers
    400 with ["prompt is required"] when the prompt is missing or empty,
    whatever the model; and 400 with the list of the names the registry
    holds when the prompt is there and the model name is not in the
    registry.  In both cases the disk is left as it was; with an empty
    registry every request gets one of the two. *)
Theorem X14_multi_model_route_refuses service data files :
  (b_prompt data = None \/ b_prompt data = Some EmptyString ->
   route service data files
   = (files, (400, {[ "error" := VStr "prompt is required" ]})))
  /\ (forall p,
        b_prompt data = Some p -> p <> EmptyString ->
        dict_lookup (default "gaussiandreamer" (b_model data)) (models service)
        = None ->
        route service data files
        = (files,
           (400,
            {[ "status" := VStr "error";
               "error" :=
                 VStr ("Model '" +:+ default "gaussiandreamer" (b_model data)
                       +:+ "' not available. " +:+ "Available models: "
                       +:+ repr_list (keys (models service))) ]})))
  /\ (models service = [] ->
      exists body, route service data files = (files, (400, body))).
Proof.
  assert (H1 : b_prompt data = None \/ b_prompt data = Some EmptyString ->
               route service data files
               = (files, (400, {[ "error" := VStr "prompt is required" ]}))).
  { intros [H|H]; unfold route_generate; rewrite H; reflexivity. }
  assert (H2 : forall p,
             b_prompt data = Some p -> p <> EmptyString ->
             dict_lookup (default "gaussiandreamer" (b_model data))
               (models service) = None ->
             route service data files
             = (files,
                (400,
                 {[ "status" := VStr "error";
                    "error" :=
                      VStr ("Model '" +:+ default "gaussiandreamer" (b_model data)
                            +:+ "' not available. " +:+ "Available models: "
                            +:+ repr_list (keys (models service))) ]}))).
  { intros p Hp Hne Hlook. unfold route_generate. rewrite Hp.
    destruct p as [|c p]; [contradiction|].
    unfold generate. rewrite Hlook. reflexivity. }
  split; [exact H1|]. split; [exact H2|].
  intros Hempty. destruct (b_prompt data) as [[|c p]|] eqn:Hp.
  - eexists. apply H1. right. reflexivity.
  - eexists. apply (H2 (String c p)); [reflexivity|discriminate|].
    rewrite Hempty. reflexivity.
  - eexists. apply H1. left. reflexivity.
Qed.

(** The fields of a row [_export_gaussians] writes. *)
Lemma gaussian_row_fields g i r :
  gaussian_row to_uint8 g i = Some r ->
  exists v c o s q,
    GaussianDreamer.xyz g !! i = Some v
    /\ GaussianDreamer.features_dc g !! i = Some c
    /\ GaussianDreamer.opacity g !! i = Some o
    /\ GaussianDreamer.scaling g !! i = Some s
    /\ GaussianDreamer.rotation g !! i = Some q
    /\ r = (v, Ply.zero3, GaussianDreamer.quantise to_uint8 c, o, s, q).
Proof.
  unfold gaussian_row. intros Hi.
  destruct (row_at_fields _ _ _ _ _ _ _ Hi)
    as (v & c & o & s & q & -> & Hv & Hc & Ho & Hs & Hq).
  rewrite lookup_map_Some in Hc.
  destruct (GaussianDreamer.features_dc g !! i) as [c0|] eqn:Hc0;
    [|discriminate].
  injection Hc as <-. exists v, c0, o, s, q. auto 10.
Qed.

(** X15: for a request with a prompt and a model name under which the
    registry holds a loaded GaussianDreamer, when the optimisation returns
    gaussians whose arrays all cover the positions, the route answers 200
    with the model name, the prompt and the output path
    [<output_dir>/<model>_<sanitised prompt>_<timestamp>.ply], and the disk
    holds at that path the header followed by one 59-byte record per
    position, record [i] made of position [i], a zero normal, the
    quantised colour, the opacity, the scale and the rotation of gaussian
    [i]. *)
Theorem X15_multi_model_route_generates service data files p m g :
  let name := default "gaussiandreamer" (b_model data) in
  let output_path :=
    output_dir service +:+ "/" +:+
    (name +:+ "_" +:+ Worker.safe_prompt isalnum_u p +:+ "_" +:+ timestamp
     +:+ ".ply") in
  let n := length (GaussianDreamer.xyz g) in
  b_prompt data = Some p -> p <> EmptyString ->
  dict_lookup name (models service) = Some (GD m) ->
  GaussianDreamerModel.is_loaded m = true ->
  optimise m p (default (Finite (15 # 2)) (b_guidance_scale data))
    (default 3000%Z (b_num_iterations data)) = Ok g ->
  n <= length (GaussianDreamer.features_dc g) ->
  n <= length (GaussianDreamer.opacity g) ->
  n <= length (GaussianDreamer.scaling g) ->
  n <= length (GaussianDreamer.rotation g) ->
  exists rows,
    let file :=
      Ply.encode_ascii (Ply.header n) ++ concat (map Ply.record_layout rows) in
    route service data files
    = (<[output_path := file]> files,
       (200, {[ "status" := VStr "success";
                "output_path" := VStr output_path;
                "model" := VStr name;
                "prompt" := VStr p ]}))
    /\ length rows = n
    /\ (forall i r,
          rows !! i = Some r ->
          exists v c o s q,
            GaussianDreamer.xyz g !! i = Some v
            /\ GaussianDreamer.features_dc g !! i = Some c
            /\ GaussianDreamer.opacity g !! i = Some o
            /\ GaussianDreamer.scaling g !! i = Some s
            /\ GaussianDreamer.rotation g !! i = Some q
            /\ r = (v, Ply.zero3, GaussianDreamer.quantise to_uint8 c, o, s, q))
    /\ length file
       = length (Ply.encode_ascii (Ply.header n)) + n * Ply.record_size.
Proof.
  intros name output_path n Hp Hne Hlook Hl Hopt H1 H2 H3 H4.
  pose proof (export_gaussians_outcome to_uint8 g output_path files) as Hout.
  cbv zeta in Hout. fold n in Hout.
  destruct (mapM (gaussian_row to_uint8 g) (seq 0 n)) as [rows|] eqn:HM.
  2:{ destruct (export_gaussians_covered to_uint8 g output_path files
                  H1 H2 H3 H4) as (rows & Hret & _).
      destruct Hout as (f' & e & Hout). rewrite Hout in Hret.
      discriminate Hret. }
  pose proof (mapM_rows_length _ _ _ HM) as Hrows.
  exists rows. cbv zeta. split; [|split; [exact Hrows|split]].
  - unfold route_generate. rewrite Hp. destruct p as [|c p]; [contradiction|].
    fold name. unfold generate. rewrite Hlook. cbv zeta.
    unfold model_generate, GaussianDreamerModel.generate. rewrite Hl.
    cbn [negb kw_num_iterations kw_guidance_scale default from_option
         Datatypes.id].
    unfold m_bind at 1 2, m_lift. rewrite Hopt.
    unfold m_bind. fold output_path. rewrite Hout. reflexivity.
  - intros i r Hi. apply (mapM_rows_lookup _ _ _ _ _ HM) in Hi.
    apply gaussian_row_fields, Hi.
  - rewrite length_app, concat_layout_length, Hrows. reflexivity.
Qed.

(** X16: with a prompt and a loaded GaussianDreamer under the model name,
    an exception of the optimisation is answered with its text, with status
    400 when it is a [ValueError] and 500 otherwise, and the disk is left
    as it was; gaussians of which one array is shorter than the positions
    are answered 500 with the text of an [IndexError], and a truncated
    file stays at the output path. *)
Theorem X16_multi_model_route_maps_errors service data files p m :
  let name := default "gaussiandreamer" (b_model data) in
  let output_path :=
    output_dir service +:+ "/" +:+
    (name +:+ "_" +:+ Worker.safe_prompt isalnum_u p +:+ "_" +:+ timestamp +:+ ".ply") in
  let outcome :=
    optimise m p (default (Finite (15 # 2)) (b_guidance_scale data))
      (default 3000%Z (b_num_iterations data)) in
  b_prompt data = Some p -> p <> EmptyString ->
  dict_lookup name (models service) = Some (GD m) ->
  GaussianDreamerModel.is_loaded m = true ->
  (forall e,
      outcome = Raise e ->
      route service data files
      = (files,
         (match exc_kind e with ValueError => 400 | _ => 500 end,
          {[ "status" := VStr "error"; "error" := VStr (str_exc e) ]})))
  /\ (forall g,
        outcome = Ok g ->
        let n := length (GaussianDreamer.xyz g) in
        ~ (n <= length (GaussianDreamer.features_dc g)
           /\ n <= length (GaussianDreamer.opacity g)
           /\ n <= length (GaussianDreamer.scaling g)
           /\ n <= length (GaussianDreamer.rotation g)) ->
        exists part e,
          route service data files
          = (<[output_path := Ply.encode_ascii (Ply.header n) ++ part]> files,
             (500, {[ "status" := VStr "error"; "error" := VStr (str_exc e) ]}))
          /\ exc_kind e = IndexError
          /\ length part < n * Ply.record_size).
Proof.
  intros name output_path outcome Hp Hne Hlook Hl.
  assert (Hroute : route service data files
                   = match outcome with
                     | Raise e =>
                         (files,
                          (match exc_kind e with ValueError => 400 | _ => 500 end,
                           {[ "status" := VStr "error";
                              "error" := VStr (str_exc e) ]}))
                     | Ok g =>
                         match GaussianDreamer._export_gaussians to_uint8 g
                                 output_path files with
                         | (files', Ok _) =>
                             (files',
                              (200, {[ "status" := VStr "success";
                                       "output_path" := VStr output_path;
                                       "model" := VStr name;
                                       "prompt" := VStr p ]}))
                         | (files', Raise e) =>
                             (files',
                              (match exc_kind e with ValueError => 400 | _ => 500 end,
                               {[ "status" := VStr "error";
                                  "error" := VStr (str_exc e) ]}))
                         end
                     end).
  { unfold route_generate. rewrite Hp. destruct p as [|c p]; [contradiction|].
    fold name. unfold generate. rewrite Hlook. cbv zeta.
    unfold model_generate, GaussianDreamerModel.generate. rewrite Hl.
    cbn [negb kw_num_iterations kw_guidance_scale default from_option
         Datatypes.id].
    unfold m_bind at 1 2, m_lift. fold outcome.
    destruct outcome as [g|e]; [|destruct (exc_kind e); reflexivity].
    unfold m_bind, m_ret. fold output_path.
    destruct (GaussianDreamer._export_gaussians _ _ _ _) as [f' [[]|e]];
      [reflexivity|]. destruct (exc_kind e); reflexivity. }
  split.
  - intros e He. rewrite Hroute, He. reflexivity.
  - intros g Hg n Hnot. rewrite Hroute, Hg.
    destruct (export_gaussians_uncovered to_uint8 g output_path files Hnot)
      as (part & e & -> & Hk & Hlen).
    exists part, e. rewrite Hk. auto.
Qed.

End MultiModelService.

(** ** The GaussianDreamer service *)

Section PlaceholderService.
Import GaussianDreamerService Rows.

Variable isalnum_u : Worker.pychar -> bool.
Variable pipeline_call : string -> pyfloat -> Z -> string -> M fs unit.
Variable sphere_point : nat -> Ply.vec3.
Variable variation : nat -> Z * Z * Z.
Variable timestamp : string.

(** X17: the GaussianDreamer service runs in placeholder mode whatever its
    installation.  Its route [POST /generate] answers 400 with
    ["prompt is required"] and writes nothing when the prompt is missing or
    empty; for every other prompt it answers 200 with the path
    [<output_dir>/<sanitised prompt>_<timestamp>.ply] and leaves there the
    placeholder cloud of 5000 points, 295408 bytes, which depends on the
    prompt and the random draws only: the guidance scale, the number of
    iterations and the pipeline play no part. *)
Theorem X17_placeholder_service_route service data files :
  (b_prompt data = None \/ b_prompt data = Some EmptyString ->
   route_generate isalnum_u pipeline_call sphere_point variation timestamp service data
     files
   = (files, (400, {[ "error" := VStr "prompt is required" ]})))
  /\ (forall p,
        b_prompt data = Some p -> p <> EmptyString ->
        let output_path :=
          output_dir service +:+ "/" +:+
          (safe_prompt isalnum_u p +:+ "_" +:+ timestamp) +:+ ".ply" in
        let file :=
          Ply.encode_ascii (Ply.header Placeholder.num_points)
          ++ concat (map Ply.record_layout
                       (map (placeholder_row sphere_point variation p)
                          (seq 0 Placeholder.num_points))) in
        route_generate isalnum_u pipeline_call sphere_point variation timestamp service
          data files
        = (<[output_path := file]> files,
           (200, {[ "status" := VStr "success";
                    "output_path" := VStr output_path;
                    "prompt" := VStr p ]}))
        /\ Z.of_nat (length file) = 295408%Z).
Proof.
  split.
  - intros [H|H]; unfold route_generate; rewrite H; reflexivity.
  - intros p Hp Hne output_path file. split.
    + unfold route_generate. rewrite Hp. destruct p as [|c p]; [contradiction|].
      unfold generate. cbv zeta. cbn [GAUSSIANDREAMER_AVAILABLE].
      fold output_path. rewrite placeholder_outcome. reflexivity.
    + subst file.
      rewrite length_app, concat_layout_length, !length_map, length_seq,
        header_placeholder_length.
      unfold Placeholder.num_points, Ply.record_size. lia.
Qed.

End PlaceholderService.

(** ** From submission to result *)

Section SubmitToResult.
Import Celery Api Worker Rows Laws.

Variable isalnum_u : Worker.pychar -> bool.
Variable OUTPUT_DIR : string.
Variable now : string -> string.
Variable color_stage : ShapE.TriMesh -> pyresult (list Ply.rgb).
Variable scale_stage : list Ply.vec3 -> pyresult (nat -> Ply.vec3).
Variable decode :
  ShapE.ShapEModel -> string -> pyfloat -> Z -> pyresult ShapE.TriMesh.
Variable MODELS : registry.
Variable pid : Z.
Variable hostname : string.
Variable repr_dict : pydict -> string.

#[local] Abbreviation job :=
  (generate_3d isalnum_u OUTPUT_DIR now color_stage scale_stage decode MODELS).
#[local] Abbreviation run1 :=
  (run_task isalnum_u OUTPUT_DIR now color_stage scale_stage decode MODELS pid hostname).
#[local] Abbreviation work :=
  (worker_main isalnum_u OUTPUT_DIR now color_stage scale_stage decode MODELS pid
     hostname).
#[local] Abbreviation path_of id prompt model_name :=
  (OUTPUT_DIR +:+ "/" +:+
   (model_name +:+ "_" +:+ safe_prompt isalnum_u prompt +:+ "_" +:+ now id +:+ ".ply")).

(** A valid request on a reachable broker is enqueued as it is. *)
Lemma post_generate_accepts uuid raw b p :
  raw_prompt raw = Some p ->
  guidance_in_bounds (default (Finite 15) (raw_guidance_scale raw)) ->
  steps_in_bounds (default 64%Z (raw_num_inference_steps raw)) ->
  reachable b = true ->
  (post_generate uuid raw b).1
  = Broker true
      (queue b
       ++ [Message uuid p (default "shap_e" (raw_model raw))
             (default (Finite 15) (raw_guidance_scale raw))
             (default 64%Z (raw_num_inference_steps raw))])
      (backend b) (revoked b).
Proof.
  intros Hp Hg Hn Hr. unfold post_generate.
  pose proof (validate_outcome raw) as Hv. cbv zeta in Hv. rewrite Hp in Hv.
  apply guidance_check in Hg. apply steps_check in Hn. rewrite Hg, Hn in Hv.
  simpl in Hv. rewrite Hv.
  unfold generate, respond, m_bind, send_task, m_ret. simpl. rewrite Hr.
  reflexivity.
Qed.

(** X18: a request that validates, submitted to a reachable broker with an
    empty queue and then taken by the worker, ends in one of two ways:
    [get_status] answers [SUCCESS] with a result that names the submitted
    prompt, model, guidance scale and step count and the output path, at
    which the worker's disk holds a file; or it answers [FAILURE] with the
    text of the exception as error and no result. *)
Theorem X18_submit_work_status uuid raw b disk p :
  let m := default "shap_e" (raw_model raw) in
  let g := default (Finite 15) (raw_guidance_scale raw) in
  let n := default 64%Z (raw_num_inference_steps raw) in
  let w' := work (World (post_generate uuid raw b).1 disk) in
  reachable b = true -> queue b = [] -> uuid ∉ revoked b ->
  raw_prompt raw = Some p ->
  guidance_in_bounds g -> steps_in_bounds n ->
  exists r,
    (get_status repr_dict uuid (wbroker w')).2 = Http200 r
    /\ ((status r = SUCCESS
         /\ result r
            = Some (InfoDict
                      {[ "output_path" := VStr (path_of uuid p m);
                         "model" := VStr m;
                         "prompt" := VStr p;
                         "guidance_scale" := VFloat g;
                         "num_inference_steps" := VInt n ]})
         /\ error r = None
         /\ is_Some (files w' !! path_of uuid p m))
        \/ (status r = FAILURE
            /\ result r = None
            /\ exists e, error r = Some (str_exc e))).
Proof.
  intros m g n w' Hr Hq Hrev Hp Hg Hn.
  set (msg := Message uuid p m g n).
  set (w0 := World (Broker true [] (backend b) (revoked b)) disk).
  assert (Hw' : w' = run1 msg w0).
  { subst w'. unfold worker_main. cbn [wbroker files].
    rewrite (post_generate_accepts uuid raw b p Hp Hg Hn Hr), Hq.
    reflexivity. }
  rewrite Hw'.
  pose proof (run_task_answer isalnum_u OUTPUT_DIR now color_stage scale_stage decode
                MODELS pid hostname repr_dict msg w0 eq_refl Hrev) as Hans.
  change (task_id msg) with uuid in Hans. rewrite Hans. clear Hans.
  eexists. split; [reflexivity|].
  assert (Hrun : run1 msg w0
                 = match task_body isalnum_u OUTPUT_DIR now color_stage scale_stage decode
                           MODELS msg (mark_started pid hostname uuid w0) with
                   | (w2, Ok d) =>
                       World (store_result uuid (TaskMeta SUCCESS (InfoDict d))
                                (wbroker w2)) (files w2)
                   | (w2, Raise e) =>
                       World (store_result uuid (TaskMeta FAILURE (InfoExc e))
                                (wbroker w2)) (files w2)
                   end).
  { unfold run_task. cbn [task_id msg]. rewrite decide_False by exact Hrev.
    reflexivity. }
  rewrite Hrun. unfold task_body. cbn [task_id arg_prompt arg_model_name
    arg_guidance_scale arg_num_inference_steps msg].
  destruct (job uuid p m g n (mark_started pid hostname uuid w0))
    as [w2 [d|e]] eqn:Hjob; cbn [snd].
  - left. destruct (job_returns_file _ _ _ _ _ _ _ _ _ _ _ _ _ _ _ Hjob)
      as (-> & file & Hf).
    unfold status_response. cbn [r_state r_info status result error files].
    repeat split. rewrite Hf, lookup_insert_eq. eexists; reflexivity.
  - right. unfold status_response. cbn [r_state r_info status result error].
    repeat split. exists e. reflexivity.
Qed.

(** X21: when the decoder and the colour and scale stages return, a job
    that fails carries one of three exceptions, each with its own text:
    the [RuntimeError] of a model that is not loaded, numpy's [ValueError]
    for a mesh without vertices, or an [IndexError] of the writing loop.
    The advice for flat meshes is then never the error: the model only
    prints its flat-mesh warning. *)
Theorem X21_flat_advice_needs_a_stage id prompt model_name gs steps w w' e
    model mesh cs scale_row :
  MODELS !! model_name = Some model ->
  decode model prompt gs steps = Ok mesh ->
  color_stage mesh = Ok cs ->
  scale_stage (ShapE.verts mesh) = Ok scale_row ->
  job id prompt model_name gs steps w = (w', Raise e) ->
  (e = PyExc RuntimeError "Shap-E not loaded"
   \/ e = PyExc ValueError
            "zero-size array to reduction operation maximum which has no identity"
   \/ exc_kind e = IndexError)
  /\ e <> PyExc ValueError flat_mesh_advice.
Proof.
  intros Hm Hd Hcs Hss H.
  assert (Hcases : e = PyExc RuntimeError "Shap-E not loaded"
                   \/ e = PyExc ValueError
                            "zero-size array to reduction operation maximum which has no identity"
                   \/ exc_kind e = IndexError).
  { rewrite job_outcome, Hm in H. cbv zeta in H.
    rewrite shap_e_generate_outcome, Hd in H.
    destruct (negb (ShapE.is_loaded model)).
    { injection H as _ <-. left. reflexivity. }
    destruct (_ =? 0)%nat eqn:Hn.
    { injection H as _ <-. right. left. reflexivity. }
    apply Nat.eqb_neq in Hn.
    destruct (ShapE._export_to_ply _ _ _ _ _) as [f' [[]|e0]] eqn:He;
      [discriminate|].
    destruct (export_to_ply_stops _ _ _ _ _ _ _ _ _ Hn Hcs Hss He)
      as (part & _ & Hk & _).
    rewrite Hk in H. injection H as _ <-. right. right. exact Hk. }
  split; [exact Hcases|].
  destruct Hcases as [->|[->|Hk]]; intros Heq.
  - discriminate Heq.
  - apply (f_equal exc_msg) in Heq. vm_compute in Heq. discriminate Heq.
  - rewrite Heq in Hk. discriminate Hk.
Qed.

(** X22: two jobs for the same model whose prompts are sanitised to the
    same name and that run within the same second are given the same
    output path.  When both return, their results name the same file;
    after the first job the file holds the records of the mesh decoded
    for the first prompt, and after the second it holds the header and the
    records of the mesh decoded for the second prompt, and nothing else:
    the disk is the one before the two jobs with that one file set, so the
    first artifact is overwritten. *)
Theorem X22_same_name_same_file id1 id2 p1 p2 model_name gs1 gs2 st1 st2
    w w1 w2 d1 d2 :
  safe_prompt isalnum_u p1 = safe_prompt isalnum_u p2 ->
  now id1 = now id2 ->
  job id1 p1 model_name gs1 st1 w = (w1, Ok d1) ->
  job id2 p2 model_name gs2 st2 w1 = (w2, Ok d2) ->
  d1 !! "output_path" = Some (VStr (path_of id1 p1 model_name))
  /\ d2 !! "output_path" = d1 !! "output_path"
  /\ exists model mesh1 cs1 scale_row1 rows1 mesh2 cs2 scale_row2 rows2,
       let artifact mesh rows :=
         Ply.encode_ascii (Ply.header (length (ShapE.verts mesh)))
         ++ concat (map Ply.record_layout rows) in
       MODELS !! model_name = Some model
       /\ decode model p1 gs1 st1 = Ok mesh1
       /\ color_stage mesh1 = Ok cs1
       /\ scale_stage (ShapE.verts mesh1) = Ok scale_row1
       /\ mapM (shap_e_row mesh1 cs1 scale_row1)
            (seq 0 (length (ShapE.verts mesh1))) = Some rows1
       /\ decode model p2 gs2 st2 = Ok mesh2
       /\ color_stage mesh2 = Ok cs2
       /\ scale_stage (ShapE.verts mesh2) = Ok scale_row2
       /\ mapM (shap_e_row mesh2 cs2 scale_row2)
            (seq 0 (length (ShapE.verts mesh2))) = Some rows2
       /\ files w1 !! path_of id1 p1 model_name = Some (artifact mesh1 rows1)
       /\ files w2 !! path_of id1 p1 model_name = Some (artifact mesh2 rows2)
       /\ files w2
          = <[path_of id1 p1 model_name := artifact mesh2 rows2]> (files w).
Proof.
  intros Hs Hn H1 H2.
  destruct (job_returns_rows _ _ _ _ _ _ _ _ _ _ _ _ _ _ _ H1)
    as (-> & model & mesh1 & cs1 & sr1 & rows1 & Hm & Hd1 & Hc1 & Hs1 & HM1
        & Hf1).
  destruct (job_returns_rows _ _ _ _ _ _ _ _ _ _ _ _ _ _ _ H2)
    as (-> & model' & mesh2 & cs2 & sr2 & rows2 & Hm' & Hd2 & Hc2 & Hs2 & HM2
        & Hf2).
  rewrite Hm in Hm'. injection Hm' as <-.
  rewrite <- Hs, <- Hn in *.
  rewrite !lookup_insert_eq. split; [reflexivity|]. split; [reflexivity|].
  exists model, mesh1, cs1, sr1, rows1, mesh2, cs2, sr2, rows2. cbv zeta.
  repeat (split; [assumption|]).
  split; [rewrite Hf1; apply lookup_insert_eq|].
  split; [rewrite Hf2; apply lookup_insert_eq|].
  rewrite Hf2, Hf1. apply insert_insert_eq.
Qed.

End SubmitToResult.

(** ** A worker without a model *)

Section NoModel.
Import Celery Api Worker.

(** X19: on a worker whose Shap-E did not load the registry is empty, so
    every job it takes, whatever model it names, fails before anything is
    generated: the disk is left as it was and the status reads [FAILURE]
    with the error ["Model '<name>' not available"]. *)
Theorem X19_no_model_no_job isalnum_u OUTPUT_DIR now color_stage scale_stage decode pid
    hostname repr_dict DEVICE env msg w :
  let MODELS := (init_models DEVICE env).1 in
  let w' :=
    run_task isalnum_u OUTPUT_DIR now color_stage scale_stage decode MODELS pid hostname
      msg w in
  (ShapE.load env (ShapE.new DEVICE)).2 = false ->
  reachable (wbroker w) = true ->
  task_id msg ∉ revoked (wbroker w) ->
  files w' = files w
  /\ (get_status repr_dict (task_id msg) (wbroker w')).2
     = Http200
         {| job_id := task_id msg; status := FAILURE; progress := None;
            message := Some (VStr "Job failed"); result := None;
            error :=
              Some ("Model '" +:+ arg_model_name msg +:+ "' not available") |}.
Proof.
  intros MODELS w' Hload Hr Hrev.
  assert (HM : MODELS = ∅).
  { subst MODELS. rewrite init_models_outcome, Hload. reflexivity. }
  assert (Hbody : forall w0,
             task_body isalnum_u OUTPUT_DIR now color_stage scale_stage decode MODELS msg w0
             = (World (store_result (task_id msg)
                         (TaskMeta STARTED
                            (InfoDict {[ "progress" := VFloat (Finite 0);
                                         "message" :=
                                           VStr ("Starting " +:+ arg_model_name msg
                                                 +:+ " generation...") ]}))
                         (wbroker w0)) (files w0),
                Raise (PyExc ValueError
                         ("Model '" +:+ arg_model_name msg +:+ "' not available")))).
  { intros w0. unfold task_body. rewrite job_outcome, HM, lookup_empty.
    reflexivity. }
  subst w'. split.
  - unfold run_task. rewrite decide_False by exact Hrev. rewrite Hbody.
    reflexivity.
  - rewrite run_task_answer by assumption. rewrite Hbody. reflexivity.
Qed.

End NoModel.

(** ** The colour a prompt selects *)

Section PromptColour.

Lemma lower_app a b : lower (a +:+ b) = lower a +:+ lower b.
Proof.
  induction a as [|c a IH]; [reflexivity|].
  change (String c a +:+ b) with (String c (a +:+ b)).
  cbn [lower]. rewrite IH. reflexivity.
Qed.

Lemma prefix_app needle b : String.prefix needle (needle +:+ b) = true.
Proof.
  induction needle as [|c needle IH].
  - destruct b; reflexivity.
  - change (String c needle +:+ b) with (String c (needle +:+ b)).
    cbn [String.prefix]. destruct (ascii_dec c c); [exact IH|contradiction].
Qed.

Lemma contains_app needle a b : contains needle (a +:+ needle +:+ b) = true.
Proof.
  induction a as [|c a IH].
  - change (EmptyString +:+ needle +:+ b) with (needle +:+ b).
    destruct (needle +:+ b) eqn:E; cbn [contains]; rewrite <- ?E;
      rewrite prefix_app; reflexivity.
  - change (String c a +:+ needle +:+ b) with (String c (a +:+ needle +:+ b)).
    cbn [contains]. rewrite IH. apply orb_true_r.
Qed.

(** X20: the placeholder takes the red base colour [(255, 100, 100)] for
    every prompt in which the letters r, e, d follow each other, in any
    letter case and also inside a longer word, whatever other colour the
    prompt names. *)
Theorem X20_red_anywhere_in_the_prompt a word b :
  lower word = "red" ->
  Placeholder.base_color (a +:+ word +:+ b) = (255, 100, 100)%Z.
Proof.
  intros Hw. unfold Placeholder.base_color.
  rewrite !lower_app, Hw, contains_app. reflexivity.
Qed.

End PromptColour.

(** ** Instances *)

Section MoreInstances.
Import Celery Api Worker Rows Laws.

#[local] Abbreviation job_with colours decode :=
  (generate_3d Samples.isalnum_u "../outputs" Samples.now colours Samples.scale_stage decode
     Samples.MODELS).
#[local] Abbreviation run_with colours decode :=
  (run_task Samples.isalnum_u "../outputs" Samples.now colours Samples.scale_stage decode
     Samples.MODELS 4242 "celery@worker").
#[local] Abbreviation work_with colours decode :=
  (worker_main Samples.isalnum_u "../outputs" Samples.now colours Samples.scale_stage decode
     Samples.MODELS 4242 "celery@worker").
#[local] Abbreviation loaded_shap_e :=
  ((ShapE.load Samples.good_env (ShapE.new "cpu")).1).

Lemma X8_witness :
  (exists model mesh cs scale_row,
      Samples.MODELS !! "shap_e" = Some model
      /\ ShapE.is_loaded model = true
      /\ Samples.decode_boom model "a red sports car" (Finite 15) 64 = Ok mesh
      /\ ShapE.verts mesh <> []
      /\ Samples.color_stage mesh = Ok cs
      /\ Samples.scale_stage (ShapE.verts mesh) = Ok scale_row
      /\ length (ShapE.verts mesh) <= length cs)
  /\ exists w' d,
       job_with Samples.color_stage Samples.decode_boom "job-1"
         "a red sports car" "shap_e" (Finite 15) 64 Samples.world0
       = (w', Ok d).
Proof.
  assert (H : exists model mesh cs scale_row,
             Samples.MODELS !! "shap_e" = Some model
             /\ ShapE.is_loaded model = true
             /\ Samples.decode_boom model "a red sports car" (Finite 15) 64
                = Ok mesh
             /\ ShapE.verts mesh <> []
             /\ Samples.color_stage mesh = Ok cs
             /\ Samples.scale_stage (ShapE.verts mesh) = Ok scale_row
             /\ length (ShapE.verts mesh) <= length cs).
  { exists loaded_shap_e, Samples.mesh2, Samples.red_green. eexists.
    split; [vm_compute; reflexivity|]. split; [reflexivity|].
    split; [reflexivity|]. split; [discriminate|].
    split; [reflexivity|]. split; [reflexivity|]. simpl. lia. }
  split; [exact H|].
  exact (proj2 (X8_job_returns_iff Samples.isalnum_u "../outputs" Samples.now Samples.color_stage
                  Samples.scale_stage Samples.decode_boom Samples.MODELS
                  "job-1" "a red sports car" "shap_e" (Finite 15) 64
                  Samples.world0) H).
Defined.

Lemma X9_witness :
  exists w' d,
    job_with Samples.color_stage Samples.decode_boom "job-1"
      "a red sports car" "shap_e" (Finite 15) 64 Samples.world0
    = (w', Ok d)
    /\ d !! "prompt" = Some (VStr "a red sports car")
    /\ exists file,
         files w'
         = <["../outputs" +:+ "/" +:+
             ("shap_e" +:+ "_" +:+ safe_prompt Samples.isalnum_u "a red sports car" +:+ "_"
              +:+ Samples.now "job-1" +:+ ".ply") := file]>
             (files Samples.world0).
Proof.
  assert (Hok : is_ok (job_with Samples.color_stage Samples.decode_boom "job-1"
                         "a red sports car" "shap_e" (Finite 15) 64
                         Samples.world0).2 = true)
    by (vm_compute; reflexivity).
  destruct (job_with Samples.color_stage Samples.decode_boom "job-1"
              "a red sports car" "shap_e" (Finite 15) 64 Samples.world0)
    as [w' [d|e]] eqn:H; [|discriminate Hok].
  exists w', d. split; [reflexivity|].
  destruct (X9_job_result Samples.isalnum_u "../outputs" Samples.now Samples.color_stage
              Samples.scale_stage Samples.decode_boom Samples.MODELS _ _ _ _ _
              _ _ _ H)
    as (-> & model & mesh & cs & sr & rows & _ & _ & _ & _ & Hf & _).
  split; [reflexivity|]. eexists. exact Hf.
Defined.

Lemma X10_witness :
  reachable (wbroker MoreSamples.world_queued) = true
  /\ queue (wbroker (work_with Samples.color_stage Samples.decode_boom
                       MoreSamples.world_queued)) = []
  /\ exists r,
       (get_status Samples.repr_dict "job-0"
          (wbroker (work_with Samples.color_stage Samples.decode_boom
                      MoreSamples.world_queued))).2 = Http200 r
       /\ terminal (status r).
Proof.
  split; [reflexivity|].
  destruct (X10_worker_finishes_every_job Samples.isalnum_u "../outputs" Samples.now
              Samples.color_stage Samples.scale_stage Samples.decode_boom
              Samples.MODELS 4242 "celery@worker" Samples.repr_dict
              MoreSamples.world_queued eq_refl) as (Hq & Hall & _).
  split; [exact Hq|].
  apply (Hall Samples.msg_boom). left. reflexivity.
Defined.

Lemma X11_witness :
  reachable (wbroker Samples.world0) = true
  /\ (get_status Samples.repr_dict "job-1"
        (wbroker
           (run_with Samples.color_stage Samples.decode_boom Samples.msg_car
              (World (cancel_job "job-1" (wbroker Samples.world0)).1
                 (files Samples.world0))))).2
     = Http200 {| job_id := "job-1"; status := REVOKED; progress := None;
                  message := None; result := None; error := None |}.
Proof.
  split; [reflexivity|].
  exact (proj2 (proj2 (X11_cancelled_job_is_not_run Samples.isalnum_u "../outputs" Samples.now
                         Samples.color_stage Samples.scale_stage
                         Samples.decode_boom Samples.MODELS 4242 "celery@worker"
                         Samples.repr_dict Samples.msg_car Samples.world0
                         eq_refl))).
Defined.

Lemma X12_witness :
  (reachable (wbroker Samples.world0) = true
   /\ (task_id Samples.msg_car ∉ revoked (wbroker Samples.world0))
   /\ Samples.MODELS !! arg_model_name Samples.msg_car = Some loaded_shap_e
   /\ ShapE.is_loaded loaded_shap_e = true
   /\ MoreSamples.decode_empty loaded_shap_e (arg_prompt Samples.msg_car)
        (arg_guidance_scale Samples.msg_car)
        (arg_num_inference_steps Samples.msg_car) = Ok Samples.empty_mesh
   /\ ShapE.verts Samples.empty_mesh = [])
  /\ files (run_with Samples.color_stage MoreSamples.decode_empty
              Samples.msg_car Samples.world0) = files Samples.world0.
Proof.
  assert (Hrev : task_id Samples.msg_car ∉ revoked (wbroker Samples.world0))
    by (vm_compute; set_solver).
  assert (Hm : Samples.MODELS !! arg_model_name Samples.msg_car
               = Some loaded_shap_e) by (vm_compute; reflexivity).
  split; [repeat split; solve [reflexivity|assumption]|].
  exact (proj1 (X12_empty_mesh_fails_the_job Samples.isalnum_u "../outputs" Samples.now
                  Samples.color_stage Samples.scale_stage
                  MoreSamples.decode_empty Samples.MODELS 4242 "celery@worker"
                  Samples.repr_dict Samples.msg_car Samples.world0
                  loaded_shap_e Samples.empty_mesh
                  eq_refl Hrev Hm eq_refl eq_refl eq_refl)).
Defined.

Lemma X13_witness :
  MultiModel.keys (MultiModel.models MoreSamples.service) = ["gaussiandreamer"]
  /\ forall name m,
       MultiModel.dict_lookup name (MultiModel.models MoreSamples.service)
       = Some m ->
       MultiModel.is_loaded m = true.
Proof.
  destruct (X13_multi_model_registry "cpu" MoreSamples.gd_env
              MoreSamples.dg_env) as (Hk & Hl & _).
  split; [exact Hk|exact Hl].
Defined.

#[local] Abbreviation mm_route optimise :=
  (MultiModel.route_generate Samples.isalnum_u Samples.to_uint8 optimise unit
     (fun _ _ => Ok tt) (fun img => Ok img)
     (fun _ _ _ _ files => (files, Ok tt)) "20250101_120000").
#[local] Abbreviation loaded_gd :=
  ((GaussianDreamerModel.load MoreSamples.gd_env
      (GaussianDreamerModel.new "cpu")).1).

Lemma X14_witness :
  (MultiModel.b_prompt MoreSamples.body_shap_e = Some "a red sports car"
   /\ "a red sports car" <> EmptyString
   /\ MultiModel.dict_lookup
        (default "gaussiandreamer" (MultiModel.b_model MoreSamples.body_shap_e))
        (MultiModel.models MoreSamples.service) = None)
  /\ mm_route MoreSamples.optimise_one MoreSamples.service
       MoreSamples.body_shap_e ∅
     = (∅,
        (400,
         {[ "status" := VStr "error";
            "error" :=
              VStr ("Model '"
                    +:+ default "gaussiandreamer"
                          (MultiModel.b_model MoreSamples.body_shap_e)
                    +:+ "' not available. " +:+ "Available models: "
                    +:+ MultiModel.repr_list
                          (MultiModel.keys
                             (MultiModel.models MoreSamples.service))) ]})).
Proof.
  assert (H1 : MultiModel.b_prompt MoreSamples.body_shap_e
               = Some "a red sports car") by reflexivity.
  assert (H2 : "a red sports car" <> EmptyString) by discriminate.
  assert (H3 : MultiModel.dict_lookup
                 (default "gaussiandreamer"
                    (MultiModel.b_model MoreSamples.body_shap_e))
                 (MultiModel.models MoreSamples.service) = None)
    by reflexivity.
  split; [auto|].
  exact (proj1 (proj2 (X14_multi_model_route_refuses Samples.isalnum_u Samples.to_uint8
                         MoreSamples.optimise_one unit (fun _ _ => Ok tt)
                         (fun img => Ok img)
                         (fun _ _ _ _ files => (files, Ok tt)) "20250101_120000"
                         MoreSamples.service MoreSamples.body_shap_e ∅))
           "a red sports car" H1 H2 H3).
Defined.

Lemma X15_witness :
  (MultiModel.b_prompt MoreSamples.body_car = Some "a red sports car"
   /\ "a red sports car" <> EmptyString
   /\ MultiModel.dict_lookup
        (default "gaussiandreamer" (MultiModel.b_model MoreSamples.body_car))
        (MultiModel.models MoreSamples.service) = Some (MultiModel.GD loaded_gd)
   /\ GaussianDreamerModel.is_loaded loaded_gd = true
   /\ MoreSamples.optimise_one loaded_gd "a red sports car"
        (default (Finite (15 # 2))
           (MultiModel.b_guidance_scale MoreSamples.body_car))
        (default 3000%Z (MultiModel.b_num_iterations MoreSamples.body_car))
      = Ok Samples.gaussians1)
  /\ exists files' body,
       mm_route MoreSamples.optimise_one MoreSamples.service
         MoreSamples.body_car ∅ = (files', (200, body)).
Proof.
  split; [repeat split; solve [reflexivity|discriminate]|].
  destruct (X15_multi_model_route_generates Samples.isalnum_u Samples.to_uint8
              MoreSamples.optimise_one unit (fun _ _ => Ok tt)
              (fun img => Ok img) (fun _ _ _ _ files => (files, Ok tt))
              "20250101_120000" MoreSamples.service MoreSamples.body_car ∅
              "a red sports car" loaded_gd Samples.gaussians1)
    as (file & H & _);
    [reflexivity|discriminate|reflexivity|reflexivity|reflexivity
    |simpl; lia|simpl; lia|simpl; lia|simpl; lia|].
  do 2 eexists. exact H.
Defined.

Lemma X16_witness :
  (MultiModel.b_prompt MoreSamples.body_car = Some "a red sports car"
   /\ "a red sports car" <> EmptyString
   /\ MultiModel.dict_lookup
        (default "gaussiandreamer" (MultiModel.b_model MoreSamples.body_car))
        (MultiModel.models MoreSamples.service) = Some (MultiModel.GD loaded_gd)
   /\ GaussianDreamerModel.is_loaded loaded_gd = true)
  /\ mm_route MoreSamples.optimise_oom MoreSamples.service
       MoreSamples.body_car ∅
     = (∅, (500, {[ "status" := VStr "error";
                    "error" := VStr "CUDA out of memory" ]})).
Proof.
  split; [repeat split; solve [reflexivity|discriminate]|].
  apply (proj1 (X16_multi_model_route_maps_errors Samples.isalnum_u Samples.to_uint8
                  MoreSamples.optimise_oom unit (fun _ _ => Ok tt)
                  (fun img => Ok img) (fun _ _ _ _ files => (files, Ok tt))
                  "20250101_120000" MoreSamples.service MoreSamples.body_car ∅
                  "a red sports car" loaded_gd
                  eq_refl ltac:(discriminate) eq_refl eq_refl)
           (PyExc RuntimeError "CUDA out of memory")).
  reflexivity.
Defined.

#[local] Abbreviation gd_route :=
  (GaussianDreamerService.route_generate Samples.isalnum_u
     (fun _ _ _ _ files => (files, Ok tt)) (fun _ => Ply.zero3)
     (fun _ => (0, 0, 0)%Z) "20250101_120000"
     (GaussianDreamerService.new "../outputs")).

Lemma X17_witness :
  (GaussianDreamerService.b_prompt MoreSamples.body_no_prompt = None
   \/ GaussianDreamerService.b_prompt MoreSamples.body_no_prompt
      = Some EmptyString)
  /\ gd_route MoreSamples.body_no_prompt ∅
     = (∅, (400, {[ "error" := VStr "prompt is required" ]}))
  /\ exists files' body,
       gd_route MoreSamples.body_chair ∅ = (files', (200, body)).
Proof.
  assert (H : GaussianDreamerService.b_prompt MoreSamples.body_no_prompt = None
              \/ GaussianDreamerService.b_prompt MoreSamples.body_no_prompt
                 = Some EmptyString) by (left; reflexivity).
  split; [exact H|]. split.
  - exact (proj1 (X17_placeholder_service_route Samples.isalnum_u
                    (fun _ _ _ _ files => (files, Ok tt)) (fun _ => Ply.zero3)
                    (fun _ => (0, 0, 0)%Z) "20250101_120000"
                    (GaussianDreamerService.new "../outputs")
                    MoreSamples.body_no_prompt ∅) H).
  - destruct (proj2 (X17_placeholder_service_route Samples.isalnum_u
                       (fun _ _ _ _ files => (files, Ok tt)) (fun _ => Ply.zero3)
                       (fun _ => (0, 0, 0)%Z) "20250101_120000"
                       (GaussianDreamerService.new "../outputs")
                       MoreSamples.body_chair ∅) "a blue chair" eq_refl
                ltac:(discriminate)) as [Hroute _].
    do 2 eexists. exact Hroute.
Defined.

Lemma X18_witness :
  (reachable Samples.empty_broker = true
   /\ queue Samples.empty_broker = []
   /\ ("job-1" ∉ revoked Samples.empty_broker)
   /\ raw_prompt MoreSamples.raw_car = Some "a red sports car"
   /\ guidance_in_bounds
        (default (Finite 15) (raw_guidance_scale MoreSamples.raw_car))
   /\ steps_in_bounds
        (default 64%Z (raw_num_inference_steps MoreSamples.raw_car)))
  /\ exists r,
       (get_status Samples.repr_dict "job-1"
          (wbroker
             (work_with Samples.color_stage Samples.decode_boom
                (World (post_generate "job-1" MoreSamples.raw_car
                          Samples.empty_broker).1 ∅)))).2 = Http200 r
       /\ (status r = SUCCESS \/ status r = FAILURE).
Proof.
  assert (Hrev : "job-1" ∉ revoked Samples.empty_broker)
    by (vm_compute; set_solver).
  assert (Hg : guidance_in_bounds
                 (default (Finite 15) (raw_guidance_scale MoreSamples.raw_car))).
  { exists 15%Q. split; [reflexivity|].
    split; apply Qle_bool_imp_le; reflexivity. }
  assert (Hn : steps_in_bounds
                 (default 64%Z (raw_num_inference_steps MoreSamples.raw_car)))
    by (unfold steps_in_bounds; simpl; lia).
  split; [exact (conj eq_refl (conj eq_refl (conj Hrev
                   (conj eq_refl (conj Hg Hn)))))|].
  destruct (X18_submit_work_status Samples.isalnum_u "../outputs" Samples.now Samples.color_stage
              Samples.scale_stage Samples.decode_boom Samples.MODELS 4242
              "celery@worker" Samples.repr_dict "job-1" MoreSamples.raw_car
              Samples.empty_broker ∅ "a red sports car"
              eq_refl eq_refl Hrev eq_refl Hg Hn)
    as (r & Hr & [(Hs & _)|(Hs & _)]);
    exists r; auto.
Defined.

Lemma X19_witness :
  ((ShapE.load Samples.bad_env (ShapE.new "cpu")).2 = false
   /\ reachable (wbroker Samples.world0) = true
   /\ (task_id Samples.msg_car ∉ revoked (wbroker Samples.world0)))
  /\ files (run_task Samples.isalnum_u "../outputs" Samples.now Samples.color_stage
              Samples.scale_stage Samples.decode_boom
              (init_models "cpu" Samples.bad_env).1 4242 "celery@worker"
              Samples.msg_car Samples.world0)
     = files Samples.world0.
Proof.
  assert (Hrev : task_id Samples.msg_car ∉ revoked (wbroker Samples.world0))
    by (vm_compute; set_solver).
  split; [repeat split; solve [reflexivity|assumption]|].
  exact (proj1 (X19_no_model_no_job Samples.isalnum_u "../outputs" Samples.now Samples.color_stage
                  Samples.scale_stage Samples.decode_boom 4242 "celery@worker"
                  Samples.repr_dict "cpu" Samples.bad_env Samples.msg_car
                  Samples.world0 eq_refl eq_refl Hrev)).
Defined.

Lemma X20_witness :
  lower "RED" = "red"
  /\ Placeholder.base_color ("a bo" +:+ "RED" +:+ " blue whale")
     = (255, 100, 100)%Z.
Proof.
  split; [reflexivity|].
  apply (X20_red_anywhere_in_the_prompt "a bo" "RED" " blue whale").
  reflexivity.
Defined.

Lemma X21_witness :
  exists w' e,
    job_with MoreSamples.one_colour Samples.decode_boom "job-1"
      "a red sports car" "shap_e" (Finite 15) 64 Samples.world0
    = (w', Raise e)
    /\ e <> PyExc ValueError flat_mesh_advice.
Proof.
  assert (Hno : is_ok (job_with MoreSamples.one_colour Samples.decode_boom
                         "job-1" "a red sports car" "shap_e" (Finite 15) 64
                         Samples.world0).2 = false)
    by (vm_compute; reflexivity).
  destruct (job_with MoreSamples.one_colour Samples.decode_boom "job-1"
              "a red sports car" "shap_e" (Finite 15) 64 Samples.world0)
    as [w' [d|e]] eqn:H; [discriminate Hno|].
  exists w', e. split; [reflexivity|].
  assert (Hm : Samples.MODELS !! "shap_e" = Some loaded_shap_e)
    by (vm_compute; reflexivity).
  exact (proj2 (X21_flat_advice_needs_a_stage Samples.isalnum_u "../outputs" Samples.now
                  MoreSamples.one_colour Samples.scale_stage
                  Samples.decode_boom Samples.MODELS "job-1"
                  "a red sports car" "shap_e" (Finite 15) 64 Samples.world0
                  w' e loaded_shap_e Samples.mesh2
                  [(Byte.xff, Byte.x00, Byte.x00)]
                  (fun _ => (Ply.f32_0_05, Ply.f32_0_05, Ply.f32_0_05))
                  Hm eq_refl eq_refl eq_refl H)).
Defined.

Lemma X22_witness :
  safe_prompt Samples.isalnum_u "a car!" = safe_prompt Samples.isalnum_u "a car?"
  /\ exists w1 w2 d1 d2,
       job_with Samples.color_stage Samples.decode_boom "job-1" "a car!"
         "shap_e" (Finite 15) 64 Samples.world0 = (w1, Ok d1)
       /\ job_with Samples.color_stage Samples.decode_boom "job-2" "a car?"
            "shap_e" (Finite 20) 32 w1 = (w2, Ok d2)
       /\ d2 !! "output_path" = d1 !! "output_path".
Proof.
  assert (Hs : safe_prompt Samples.isalnum_u "a car!" = safe_prompt Samples.isalnum_u "a car?") by reflexivity.
  split; [exact Hs|].
  assert (Hok1 : is_ok (job_with Samples.color_stage Samples.decode_boom "job-1"
                          "a car!" "shap_e" (Finite 15) 64 Samples.world0).2
                 = true) by (vm_compute; reflexivity).
  assert (Hok2 : is_ok (job_with Samples.color_stage Samples.decode_boom "job-2"
                          "a car?" "shap_e" (Finite 20) 32
                          (job_with Samples.color_stage Samples.decode_boom
                             "job-1" "a car!" "shap_e" (Finite 15) 64
                             Samples.world0).1).2
                 = true) by (vm_compute; reflexivity).
  destruct (job_with Samples.color_stage Samples.decode_boom "job-1" "a car!"
              "shap_e" (Finite 15) 64 Samples.world0)
    as [w1 [d1|e]] eqn:H1; [|discriminate Hok1].
  cbn [fst] in Hok2.
  destruct (job_with Samples.color_stage Samples.decode_boom "job-2" "a car?"
              "shap_e" (Finite 20) 32 w1)
    as [w2 [d2|e]] eqn:H2; [|discriminate Hok2].
  exists w1, w2, d1, d2. split; [reflexivity|]. split; [exact H2|].
  exact (proj1 (proj2 (X22_same_name_same_file Samples.isalnum_u "../outputs" Samples.now
                         Samples.color_stage Samples.scale_stage
                         Samples.decode_boom Samples.MODELS "job-1" "job-2"
                         "a car!" "a car?" "shap_e" (Finite 15) (Finite 20)
                         64 32 Samples.world0 w1 w2 d1 d2 Hs eq_refl H1 H2))).
Defined.

End MoreInstances.

(** ** Offsets in the file *)

Section Offsets.
Import Ply Rows.

Lemma encode_ascii_length s : length (encode_ascii s) = String.length s.
Proof.
  unfold encode_ascii, list_byte_of_string.
  induction s as [|c s IH]; simpl; [reflexivity|]. now rewrite IH.
Qed.

(** The header is 404 bytes and the decimal digits of the count. *)
Lemma header_length n :
  length (encode_ascii (header n)) = 404 + String.length (str_nat n).
Proof.
  unfold header, header_lines. rewrite encode_unlines.
  cbn [app map concat]. rewrite !length_app, encode_ascii_app, length_app.
  rewrite (encode_ascii_length (str_nat n)).
  generalize (String.length (str_nat n)). intros d.
  cbn [length encode_ascii list_byte_of_string list_ascii_of_string map
       property_lines app concat]. lia.
Qed.

(** X24: in every file [ShapEModel._export_to_ply] returns, the header is
    404 bytes plus the decimal digits of the vertex count, the file is that
    many bytes plus 59 per vertex, and the position of vertex [i] is the
    twelve bytes at offset header length plus [59 * i]. *)
Theorem X24_record_offsets color_stage scale_stage mesh path files files' :
  ShapE._export_to_ply color_stage scale_stage mesh path files
  = (files', Ok tt) ->
  let n := length (ShapE.verts mesh) in
  let digits := String.length (str_nat n) in
  exists file,
    files' !! path = Some file
    /\ 1 <= digits
    /\ length file = 404 + digits + 59 * n
    /\ forall i v,
         ShapE.verts mesh !! i = Some v ->
         take 12 (drop (404 + digits + 59 * i) file) = pack_fff v.
Proof.
  intros H n digits.
  destruct (export_to_ply_returns _ _ _ _ _ _ H)
    as (cs & scale_row & rows & Hn & _ & _ & HM & ->).
  pose proof (mapM_rows_length _ _ _ HM) as Hlen.
  pose proof (header_length n) as Hh.
  subst digits. subst n.
  eexists. split; [apply lookup_insert_eq|]. split; [|split].
  - pose proof (str_nat_nonempty (length (ShapE.verts mesh))) as Hne.
    destruct (str_nat _); [contradiction|simpl; lia].
  - rewrite length_app, concat_layout_length, Hlen, Hh. unfold record_size. lia.
  - intros i v Hv.
    assert (Hi : i < length (ShapE.verts mesh))
      by (apply lookup_lt_Some in Hv; exact Hv).
    destruct (lookup_lt_is_Some_2 rows i) as [r Hr]; [lia|].
    pose proof (mapM_rows_lookup _ _ _ _ _ HM Hr) as Hrow.
    destruct (shap_e_row_Some _ _ _ _ _ Hrow) as (v' & c & Hv' & _ & ->).
    rewrite Hv in Hv'. injection Hv' as <-.
    pose proof (record_at_offset
                  (encode_ascii (header (length (ShapE.verts mesh)))) rows i _
                  Hr) as Hoff.
    rewrite Hh in Hoff. unfold record_size in Hoff.
    apply (f_equal (take 12)) in Hoff. rewrite take_take in Hoff.
    change (12 `min` 59) with 12 in Hoff. rewrite Hoff.
    unfold record_layout. rewrite take_app_length'; [reflexivity|].
    symmetry. apply pack_fff_length.
Qed.

Lemma X24_witness :
  ShapE._export_to_ply Samples.color_stage Samples.scale_stage Samples.mesh2
    "out.ply" ∅
  = ((ShapE._export_to_ply Samples.color_stage Samples.scale_stage
        Samples.mesh2 "out.ply" ∅).1, Ok tt)
  /\ exists file,
       (ShapE._export_to_ply Samples.color_stage Samples.scale_stage
          Samples.mesh2 "out.ply" ∅).1 !! "out.ply" = Some file
       /\ length file = 404 + 1 + 59 * 2.
Proof.
  assert (H : ShapE._export_to_ply Samples.color_stage Samples.scale_stage
                Samples.mesh2 "out.ply" ∅
              = ((ShapE._export_to_ply Samples.color_stage Samples.scale_stage
                    Samples.mesh2 "out.ply" ∅).1, Ok tt))
    by (vm_compute; reflexivity).
  split; [exact H|].
  destruct (X24_record_offsets _ _ _ _ _ _ H) as (file & Hf & _ & Hlen & _).
  exists file. split; [exact Hf|exact Hlen].
Defined.

End Offsets.

(** ** What submission does not check *)

Section PromptContent.
Import Celery Api.

(** X23: [POST /generate] checks that the prompt is there, not what it
    holds: every request with a prompt, the empty string included, whose
    guidance scale and step count are within their bounds is enqueued on a
    reachable broker and answered ["submitted"]. *)
Theorem X23_prompt_content_is_not_checked uuid raw b p :
  raw_prompt raw = Some p ->
  guidance_in_bounds (default (Finite 15) (raw_guidance_scale raw)) ->
  steps_in_bounds (default 64%Z (raw_num_inference_steps raw)) ->
  reachable b = true ->
  post_generate uuid raw b
  = (Broker true
       (queue b
        ++ [Message uuid p (default "shap_e" (raw_model raw))
              (default (Finite 15) (raw_guidance_scale raw))
              (default 64%Z (raw_num_inference_steps raw))])
       (backend b) (revoked b),
     Http200 {| jr_job_id := uuid; jr_status := "submitted";
                jr_message :=
                  Some ("Job submitted for model '"
                        +:+ default "shap_e" (raw_model raw) +:+ "'") |}).
Proof.
  intros Hp Hg Hn Hr. unfold post_generate.
  pose proof (validate_outcome raw) as Hv. cbv zeta in Hv. rewrite Hp in Hv.
  apply guidance_check in Hg. apply steps_check in Hn. rewrite Hg, Hn in Hv.
  simpl in Hv. rewrite Hv.
  unfold generate, respond, m_bind, send_task, m_ret. simpl. rewrite Hr.
  reflexivity.
Qed.

Lemma X23_witness :
  (raw_prompt MoreSamples.raw_empty_prompt = Some EmptyString
   /\ guidance_in_bounds
        (default (Finite 15) (raw_guidance_scale MoreSamples.raw_empty_prompt))
   /\ steps_in_bounds
        (default 64%Z (raw_num_inference_steps MoreSamples.raw_empty_prompt))
   /\ reachable Samples.empty_broker = true)
  /\ queue (post_generate "job-1" MoreSamples.raw_empty_prompt
              Samples.empty_broker).1
     = [Message "job-1" EmptyString "shap_e" (Finite 15) 64].
Proof.
  assert (Hg : guidance_in_bounds
                 (default (Finite 15)
                    (raw_guidance_scale MoreSamples.raw_empty_prompt))).
  { exists 15%Q. split; [reflexivity|].
    split; apply Qle_bool_imp_le; reflexivity. }
  assert (Hn : steps_in_bounds
                 (default 64%Z
                    (raw_num_inference_steps MoreSamples.raw_empty_prompt)))
    by (unfold steps_in_bounds; simpl; lia).
  split; [exact (conj eq_refl (conj Hg (conj Hn eq_refl)))|].
  rewrite (X23_prompt_content_is_not_checked "job-1"
             MoreSamples.raw_empty_prompt Samples.empty_broker EmptyString
             eq_refl Hg Hn eq_refl).
  reflexivity.
Defined.

End PromptContent.
